(** * EmailFollowUpApp: the follow-up lifecycle engine and its scheduler

    A shallow embedding of [utils.py], [database.py], [imap_client.py],
    [email_manager.py] and [scheduler.py], and the properties of the
    follow-up lifecycle that hold, or fail, on that code.

    Conventions.
    - A Python [str] is a [string]: the UTF-8 bytes of the text.  Equality
      and the substring test [in] on code points and on UTF-8 bytes agree.
    - A Python [int] is a [Z].
    - A Python value whose type the code leaves open (the [followup_id]
      argument, a cell read back from SQLite) is a [pyval].
    - Stateful code runs in the monad [M]: a state transformer over the
      [World] that may end in a Python exception.  The state survives a
      raise, as committed rows and written log records do.
    - The IMAP and SMTP clients are oracles of the [Env]; what the code
      takes from the Python and SQLite libraries without our modelling it
      in full is a [Platform].  [hashlib.md5] and the date arithmetic of
      [datetime] are modelled in full. *)

From Stdlib Require Import ZArith List Bool String Ascii Lia.
Import ListNotations.
Open Scope string_scope.
Open Scope Z_scope.

Set Implicit Arguments.

(* ================================================================== *)
(** * Strings *)
(* ================================================================== *)

Module Str.

(** [s.startswith(p)] *)
Fixpoint startswith (p s : string) : bool :=
  match p, s with
  | EmptyString, _ => true
  | String a p', String b s' => Ascii.eqb a b && startswith p' s'
  | String _ _, EmptyString => false
  end.

(** [needle in hay] on two [str]s. *)
Fixpoint contains (needle hay : string) : bool :=
  startswith needle hay ||
  match hay with
  | EmptyString => false
  | String _ hay' => contains needle hay'
  end.

Definition digit (d : Z) : ascii := ascii_of_N (Z.to_N (48 + d)).

(** The decimal digits of [n], for [0 <= n], most significant first;
    [fuel] bounds the number of digits. *)
Fixpoint digits (fuel : nat) (n : Z) (acc : string) : string :=
  match fuel with
  | O => acc
  | S fuel' =>
      let acc' := String (digit (n mod 10)) acc in
      if n / 10 =? 0 then acc' else digits fuel' (n / 10) acc'
  end.

(** [str(n)] for an [int]. *)
Definition of_Z (n : Z) : string :=
  if n <? 0
  then String "-" (digits (S (Z.to_nat (Z.log2 (- n)))) (- n) EmptyString)
  else digits (S (Z.to_nat (Z.log2 n))) n EmptyString.

(** ["%0<w>d" % n] for [0 <= n]. *)
Fixpoint zfill (w : nat) (n : Z) (acc : string) : string :=
  match w with
  | O => if n =? 0 then acc else digits (S (Z.to_nat (Z.log2 n))) n acc
  | S w' => zfill w' (n / 10) (String (digit (n mod 10)) acc)
  end.

Definition pad (w : nat) (n : Z) : string := zfill w n EmptyString.

End Str.

(* ================================================================== *)
(** * hashlib.md5 (RFC 1321) *)
(* ================================================================== *)

Module MD5.

Definition mask : Z := 0xffffffff.
Definition add32 (x y : Z) : Z := Z.land (x + y) mask.
Definition not32 (x : Z) : Z := Z.lxor x mask.
Definition rotl32 (x : Z) (c : Z) : Z :=
  Z.land (Z.lor (Z.shiftl x c) (Z.shiftr x (32 - c))) mask.

Definition K : list Z :=
  [ 0xd76aa478; 0xe8c7b756; 0x242070db; 0xc1bdceee;
    0xf57c0faf; 0x4787c62a; 0xa8304613; 0xfd469501;
    0x698098d8; 0x8b44f7af; 0xffff5bb1; 0x895cd7be;
    0x6b901122; 0xfd987193; 0xa679438e; 0x49b40821;
    0xf61e2562; 0xc040b340; 0x265e5a51; 0xe9b6c7aa;
    0xd62f105d; 0x02441453; 0xd8a1e681; 0xe7d3fbc8;
    0x21e1cde6; 0xc33707d6; 0xf4d50d87; 0x455a14ed;
    0xa9e3e905; 0xfcefa3f8; 0x676f02d9; 0x8d2a4c8a;
    0xfffa3942; 0x8771f681; 0x6d9d6122; 0xfde5380c;
    0xa4beea44; 0x4bdecfa9; 0xf6bb4b60; 0xbebfbc70;
    0x289b7ec6; 0xeaa127fa; 0xd4ef3085; 0x04881d05;
    0xd9d4d039; 0xe6db99e5; 0x1fa27cf8; 0xc4ac5665;
    0xf4292244; 0x432aff97; 0xab9423a7; 0xfc93a039;
    0x655b59c3; 0x8f0ccc92; 0xffeff47d; 0x85845dd1;
    0x6fa87e4f; 0xfe2ce6e0; 0xa3014314; 0x4e0811a1;
    0xf7537e82; 0xbd3af235; 0x2ad7d2bb; 0xeb86d391 ].

Definition S_ : list Z :=
  [ 7; 12; 17; 22; 7; 12; 17; 22; 7; 12; 17; 22; 7; 12; 17; 22;
    5;  9; 14; 20; 5;  9; 14; 20; 5;  9; 14; 20; 5;  9; 14; 20;
    4; 11; 16; 23; 4; 11; 16; 23; 4; 11; 16; 23; 4; 11; 16; 23;
    6; 10; 15; 21; 6; 10; 15; 21; 6; 10; 15; 21; 6; 10; 15; 21 ].

Record state := St { sa : Z; sb : Z; sc : Z; sd : Z }.

Definition init : state :=
  St 0x67452301 0xefcdab89 0x98badcfe 0x10325476.

(** One of the 64 operations of a block; [m] is the block's 16 words. *)
Definition step (m : list Z) (i : Z) (st : state) : state :=
  let '(St a b c d) := st in
  let '(f, g) :=
    if i <? 16 then (Z.lor (Z.land b c) (Z.land (not32 b) d), i)
    else if i <? 32 then
      (Z.lor (Z.land d b) (Z.land (not32 d) c), (5 * i + 1) mod 16)
    else if i <? 48 then (Z.lxor b (Z.lxor c d), (3 * i + 5) mod 16)
    else (Z.lxor c (Z.lor b (not32 d)), (7 * i) mod 16) in
  let f' := add32 (add32 (add32 f a) (nth (Z.to_nat i) K 0))
                  (nth (Z.to_nat g) m 0) in
  St d (add32 b (rotl32 f' (nth (Z.to_nat i) S_ 0))) b c.

Fixpoint rounds (m : list Z) (n : nat) (i : Z) (st : state) : state :=
  match n with
  | O => st
  | S n' => rounds m n' (i + 1) (step m i st)
  end.

(** Little-endian 32-bit words of a byte list. *)
Fixpoint words (bs : list Z) : list Z :=
  match bs with
  | b0 :: b1 :: b2 :: b3 :: bs' =>
      (b0 + 256 * b1 + 65536 * b2 + 16777216 * b3) :: words bs'
  | _ => []
  end.

Definition block (st : state) (m : list Z) : state :=
  let '(St a b c d) := rounds m 64 0 st in
  St (add32 (sa st) a) (add32 (sb st) b) (add32 (sc st) c) (add32 (sd st) d).

Fixpoint blocks (fuel : nat) (st : state) (ws : list Z) : state :=
  match fuel, ws with
  | S fuel', _ :: _ => blocks fuel' (block st (firstn 16 ws)) (skipn 16 ws)
  | _, _ => st
  end.

Definition le_bytes (n : nat) (x : Z) : list Z :=
  map (fun k => (x / 2 ^ (8 * Z.of_nat k)) mod 256) (seq 0 n).

(** The message, a [1] bit, zeros up to 56 mod 64, the bit length. *)
Definition padding (bs : list Z) : list Z :=
  let len := Z.of_nat (List.length bs) in
  let zeros := Z.to_nat ((55 - len) mod 64) in
  (bs ++ [128] ++ repeat 0 zeros ++ le_bytes 8 ((8 * len) mod 2 ^ 64))%list.

Definition digest (bs : list Z) : state :=
  let ws := words (padding bs) in blocks (List.length ws) init ws.

Definition hexdigit (d : Z) : ascii :=
  if d <? 10 then ascii_of_N (Z.to_N (48 + d))
  else ascii_of_N (Z.to_N (87 + d)).

Definition hexbyte (b : Z) (k : string) : string :=
  String (hexdigit ((b / 16) mod 16)) (String (hexdigit (b mod 16)) k).

Definition hexword (w : Z) (k : string) : string :=
  hexbyte (w mod 256)
    (hexbyte ((w / 256) mod 256)
       (hexbyte ((w / 65536) mod 256)
          (hexbyte ((w / 16777216) mod 256) k))).

Definition bytes_of_string (s : string) : list Z :=
  map (fun c => Z.of_N (N_of_ascii c)) (list_ascii_of_string s).

(** [md5(s.encode()).hexdigest()] *)
Definition hexdigest (s : string) : string :=
  let '(St a b c d) := digest (bytes_of_string s) in
  hexword a (hexword b (hexword c (hexword d EmptyString))).

End MD5.

(* ================================================================== *)
(** * datetime *)
(* ================================================================== *)

(** A naive [datetime.datetime]. *)
Record datetime := Datetime {
  year : Z; month : Z; day : Z;
  hour : Z; minute : Z; second : Z; microsecond : Z
}.

Module Calendar.

Definition _MAXORDINAL : Z := 3652059.
Definition _DI400Y : Z := 146097.
Definition _DI100Y : Z := 36524.
Definition _DI4Y : Z := 1461.

Definition _is_leap (y : Z) : bool :=
  (y mod 4 =? 0) && (negb (y mod 100 =? 0) || (y mod 400 =? 0)).

Definition _DAYS_IN_MONTH : list Z :=
  [-1; 31; 28; 31; 30; 31; 30; 31; 31; 30; 31; 30; 31].

Definition _DAYS_BEFORE_MONTH : list Z :=
  [-1; 0; 31; 59; 90; 120; 151; 181; 212; 243; 273; 304; 334].

Definition _days_before_year (y : Z) : Z :=
  let y := y - 1 in y * 365 + y / 4 - y / 100 + y / 400.

Definition _days_before_month (y m : Z) : Z :=
  nth (Z.to_nat m) _DAYS_BEFORE_MONTH 0
  + (if (2 <? m) && _is_leap y then 1 else 0).

Definition _ymd2ord (y m d : Z) : Z :=
  _days_before_year y + _days_before_month y m + d.

Definition _ord2ymd (n : Z) : Z * Z * Z :=
  let n := n - 1 in
  let n400 := n / _DI400Y in let n := n mod _DI400Y in
  let y := n400 * 400 + 1 in
  let n100 := n / _DI100Y in let n := n mod _DI100Y in
  let n4 := n / _DI4Y in let n := n mod _DI4Y in
  let n1 := n / 365 in let n := n mod 365 in
  let y := y + n100 * 100 + n4 * 4 + n1 in
  if (n1 =? 4) || (n100 =? 4) then (y - 1, 12, 31)
  else
    let leapyear := (n1 =? 3) && (negb (n4 =? 24) || (n100 =? 3)) in
    let m := Z.shiftr (n + 50) 5 in
    let preceding :=
      nth (Z.to_nat m) _DAYS_BEFORE_MONTH 0
      + (if (2 <? m) && leapyear then 1 else 0) in
    if n <? preceding then
      let m := m - 1 in
      let preceding :=
        preceding - (nth (Z.to_nat m) _DAYS_IN_MONTH 0
                     + (if (m =? 2) && leapyear then 1 else 0)) in
      (y, m, n - preceding + 1)
    else (y, m, n - preceding + 1).

Definition toordinal (d : datetime) : Z := _ymd2ord (year d) (month d) (day d).

(** [d.isoformat(sep)] *)
Definition isoformat (sep : string) (d : datetime) : string :=
  Str.pad 4 (year d) ++ "-" ++ Str.pad 2 (month d) ++ "-" ++ Str.pad 2 (day d)
  ++ sep
  ++ Str.pad 2 (hour d) ++ ":" ++ Str.pad 2 (minute d) ++ ":"
  ++ Str.pad 2 (second d)
  ++ (if microsecond d =? 0 then EmptyString else "." ++ Str.pad 6 (microsecond d)).

(** [d.strftime("%d/%m/%Y %H:%M")] *)
Definition strftime_dmY_HM (d : datetime) : string :=
  Str.pad 2 (day d) ++ "/" ++ Str.pad 2 (month d) ++ "/" ++ Str.pad 4 (year d)
  ++ " " ++ Str.pad 2 (hour d) ++ ":" ++ Str.pad 2 (minute d).

(** SQLite's [CURRENT_TIMESTAMP] when the clock reads [d]:
    ["YYYY-MM-DD HH:MM:SS"]. *)
Definition current_timestamp (d : datetime) : string :=
  Str.pad 4 (year d) ++ "-" ++ Str.pad 2 (month d) ++ "-" ++ Str.pad 2 (day d)
  ++ " "
  ++ Str.pad 2 (hour d) ++ ":" ++ Str.pad 2 (minute d) ++ ":"
  ++ Str.pad 2 (second d).

End Calendar.

(* ================================================================== *)
(** * Python values, exceptions, the platform *)
(* ================================================================== *)

(** The exceptions that the modelled code can meet, all of them below
    [Exception].  [IntegrityError] is the only one below [sqlite3.Error];
    [Exception_] stands for any other exception thrown by a collaborator.
    The store itself is taken to work: no statement fails for a reason of
    its own (a locked or missing file). *)
Inductive exn :=
| AttributeError
| OverflowError
| IntegrityError
| Exception_ (what : string).

Definition is_sqlite3_Error (e : exn) : bool :=
  match e with IntegrityError => true | _ => false end.

Inductive result (A : Type) :=
| Ok (a : A)
| Raise (e : exn).
Arguments Ok {A} a.
Arguments Raise {A} e.

(** A Python value where the code leaves the type open. *)
Inductive pyval :=
| PyNone
| PyInt (n : Z)
| PyStr (s : string)
| PyDatetime (d : datetime).

(** A value as SQLite sees a bound parameter. *)
Inductive sqlval :=
| SNull
| SInt (n : Z)
| SText (s : string).

(** What the code takes from the Python and SQLite libraries and is not
    modelled here in full:
    - [str_lower]: [str.lower], Unicode case mapping;
    - [str_strip]: [str.strip], removal of leading and trailing white space
      ([str.isspace]);
    - [text_as_integer]: the integer, if there is one, that SQLite compares
      equal to a TEXT parameter once NUMERIC affinity is applied to it, as
      in [WHERE id = ?] with [id INTEGER];
    - [timestamp_cell]: the Python value that [dict(row)] holds for a
      TIMESTAMP cell, given the text stored in it.  [sqlite3] stores a
      [datetime] as its [isoformat(" ")]; a connection opened without
      [detect_types], as [_initialize_db] opens it, hands the text back as
      a [str], one with type detection would hand back a [datetime]. *)
Record Platform := {
  str_lower : string -> string;
  str_strip : string -> string;
  text_as_integer : string -> option Z;
  timestamp_cell : string -> pyval
}.

(** The platform as the code runs on it, in its ASCII fragment: exact on
    ASCII text, and on TEXT parameters that are plain decimal integers or
    contain a character that no number contains.  TIMESTAMP cells come
    back as text. *)
Module Ascii_platform.

Definition lower_char (c : ascii) : ascii :=
  let n := N_of_ascii c in
  if (65 <=? n)%N && (n <=? 90)%N then ascii_of_N (n + 32) else c.

Fixpoint lower (s : string) : string :=
  match s with
  | EmptyString => EmptyString
  | String c s' => String (lower_char c) (lower s')
  end.

Definition isspace (c : ascii) : bool :=
  let n := N_of_ascii c in
  ((9 <=? n)%N && (n <=? 13)%N) || ((28 <=? n)%N && (n <=? 32)%N).

Fixpoint lstrip (s : string) : string :=
  match s with
  | String c s' => if isspace c then lstrip s' else s
  | EmptyString => EmptyString
  end.

Fixpoint rstrip (s : string) : string :=
  match s with
  | EmptyString => EmptyString
  | String c s' =>
      match rstrip s' with
      | EmptyString => if isspace c then EmptyString else String c EmptyString
      | r => String c r
      end
  end.

Definition strip (s : string) : string := rstrip (lstrip s).

Definition is_digit (c : ascii) : bool :=
  let n := N_of_ascii c in (48 <=? n)%N && (n <=? 57)%N.

Fixpoint all_digits (s : string) : bool :=
  match s with
  | EmptyString => true
  | String c s' => is_digit c && all_digits s'
  end.

Fixpoint value (s : string) (acc : Z) : Z :=
  match s with
  | EmptyString => acc
  | String c s' => value s' (10 * acc + (Z.of_N (N_of_ascii c) - 48))
  end.

Definition decimal (s : string) : option Z :=
  match s with
  | EmptyString => None
  | String "-" (String c s') =>
      if all_digits (String c s') then Some (- value (String c s') 0) else None
  | _ => if all_digits s then Some (value s 0) else None
  end.

Definition platform : Platform :=
  {| str_lower := lower;
     str_strip := strip;
     text_as_integer := decimal;
     timestamp_cell := PyStr |}.

End Ascii_platform.

(* ================================================================== *)
(** * utils.py *)
(* ================================================================== *)

(** [calculate_followup_date]: [sent_date + timedelta(days=delay_days)].
    The sum keeps the time of day and moves the date by ordinal; Python
    raises [OverflowError] when the date leaves years 1..9999 (or the
    timedelta is out of range, which leaves them too). *)
Definition calculate_followup_date (sent_date : datetime) (delay_days : Z)
  : result datetime :=
  let o := Calendar.toordinal sent_date + delay_days in
  if (0 <? o) && (o <=? Calendar._MAXORDINAL) then
    let '(y, m, d) := Calendar._ord2ymd o in
    Ok (Datetime y m d (hour sent_date) (minute sent_date) (second sent_date)
          (microsecond sent_date))
  else Raise OverflowError.

(** [format_date(date)] is [date.strftime("%d/%m/%Y %H:%M")]: only a
    [datetime] has the method, any other value raises [AttributeError]. *)
Definition format_date (date : pyval) : result string :=
  match date with
  | PyDatetime d => Ok (Calendar.strftime_dmY_HM d)
  | _ => Raise AttributeError
  end.

(** [re.IGNORECASE] prefix test against an ASCII pattern [p], given in
    lower case. *)
Fixpoint istartswith (p s : string) : option string :=
  match p, s with
  | EmptyString, _ => Some s
  | String a p', String b s' =>
      if Ascii.eqb a (Ascii_platform.lower_char b) then istartswith p' s'
      else None
  | String _ _, EmptyString => None
  end.

(** [sanitize_subject]: [re.sub(r'^(?:Re|Fwd|FW|Forward):\s*', '', subject,
    flags=re.IGNORECASE).strip()].  The white space that [\s*] eats after
    the prefix is white space that [strip] removes as well. *)
Definition sanitize_subject (P : Platform) (subject : string) : string :=
  let cleaned :=
    match istartswith "re:" subject with
    | Some rest => rest
    | None =>
    match istartswith "fwd:" subject with
    | Some rest => rest
    | None =>
    match istartswith "fw:" subject with
    | Some rest => rest
    | None =>
    match istartswith "forward:" subject with
    | Some rest => rest
    | None => subject
    end end end end in
  str_strip P cleaned.

(** [generate_email_id]:
    [md5(f"{sender}{subject}{date.isoformat()}".encode()).hexdigest()] *)
Definition generate_email_id (sender subject : string) (date : datetime)
  : string :=
  MD5.hexdigest (sender ++ subject ++ Calendar.isoformat "T" date).

(* ================================================================== *)
(** * config.py *)
(* ================================================================== *)

Definition AUTO_REPLY_PATTERNS : list string :=
  [ "absent du bureau";
    "out of office";
    "en congés";
    "automatique";
    "automatic reply";
    "vacation response";
    "accusé de réception automatique";
    "message automatique" ].

(** [APP_SETTINGS['max_retries']] *)
Definition max_retries : Z := 3.

(** [APP_SETTINGS['check_interval']], in seconds *)
Definition check_interval : Z := 1800.

(* ================================================================== *)
(** * Rows, messages, the world *)
(* ================================================================== *)

(** The [metadata] column: the JSON text of this dictionary. *)
Record Metadata := {
  original_message_id : option string;
  template_name : string;
  custom_variables : list (string * string)
}.

(** A row of the table [followups]; the TIMESTAMP columns hold text. *)
Module Followup.
Record t := {
  id : Z;
  email_id : string;
  sender : string;
  recipient : string;
  subject : string;
  sent_date : string;
  followup_date : string;
  delay_days : Z;
  status : string;
  followup_count : Z;
  last_check_date : option string;
  metadata : Metadata;
  created_at : string
}.
End Followup.

(** The [email_data] dictionary of [EmailManager.add_followup]. *)
Module EmailData.
Record t := {
  sender : string;
  recipient : string;
  subject : string;
  sent_date : datetime;
  delay_days : Z;
  message_id : option string;
  template_name : option string;
  template_variables : list (string * string)
}.
End EmailData.

(** The dictionary built by [IMAPClient._parse_email_message];
    [headers] is [dict(message.items())], keyed by the header names as the
    message spells them. *)
Module EmailInfo.
Record t := {
  subject : string;
  from : string;
  body : string;
  message_id : string;
  in_reply_to : string;
  references : string;
  headers : list (string * string)
}.
End EmailInfo.

Inductive level := DEBUG | INFO | WARNING | ERROR.

(** The records written through [logger]. *)
Inductive logmsg :=
| Added_new_followup_with_ID (followup_id : Z)
| Error_adding_followup (e : exn)
| Updated_followup_status (followup_id : pyval) (status : string)
| Error_updating_followup_status (e : exn)
| Error_fetching_pending_followups (e : exn)
| Error_fetching_followup_by_email_ID (e : exn)
| Followup_not_found (followup_id : pyval)
| Response_found_for_followup (followup_id : pyval)
| Error_checking_for_responses (e : exn)
| Response_already_received_for_followup (followup_id : pyval)
| Followup_sent_successfully_for_ID (followup_id : pyval)
| Failed_to_send_followup_for_ID (followup_id : pyval)
| Error_sending_followup (e : exn)
| Error_processing_pending_followups (e : exn)
| Not_connected_to_IMAP_server
| Error_checking_for_replies
| Scheduler_started_successfully
| Scheduler_is_already_running
| Scheduler_stopped
| Scheduler_is_not_running
| Starting_email_check_cycle
| Email_check_cycle_completed_successfully
| Error_during_email_check (e : exn)
| Maximum_error_count_reached_stopping_scheduler
| Forced_email_check_initiated
| Cannot_force_check_scheduler_is_not_running.

(** What one call of [connection.select], [search] and the [fetch]es of
    [check_for_replies] comes to. *)
Inductive imap_result :=
| Fetched (messages : list EmailInfo.t)
| IMAP4_error
| Imap_raises (e : exn).

(** The [original_email] dictionary handed to [SMTPClient.send_followup]. *)
Record OriginalEmail := {
  to : string;
  original_subject : string;
  original_id : option string
}.

(** What [SMTPClient.send_followup] returns: a message id, [None], or an
    exception that escapes it. *)
Inductive smtp_result :=
| Message_ID (msg_id : string)
| Not_sent
| Smtp_raises (e : exn).

(** The SQL statements executed on the connection. *)
Inductive statement :=
| INSERT_followup (email_id : string)
| UPDATE_status (where_id : pyval) (status : string) (increment_count : bool)
| SELECT_pending
| SELECT_by_email_id (email_id : pyval).

(** The signals of [Scheduler]; [error_occurred] carries
    ["Email check failed: " + str(e)]. *)
Inductive signal :=
| check_started
| check_completed (success : bool)
| followup_sent (followup_id : Z)
| response_detected (followup_id : Z)
| error_occurred (Email_check_failed : exn).

(** The calls on [check_timer]. *)
Inductive timer_call :=
| QTimer_start (msec : option Z)
| QTimer_stop.

Inductive event :=
| Log (l : level) (m : logmsg)
| Sql (s : statement)
| Imap (search_subject : string) (r : imap_result)
| Smtp (o : OriginalEmail) (template_vars : list (string * string))
       (r : smtp_result)
| Emit (s : signal)
| Timer (c : timer_call).

(** The state the code acts on: the table [followups], the AUTOINCREMENT
    counter of [sqlite_sequence], and the history of effects, oldest first. *)
Record World := {
  followups : list Followup.t;
  sqlite_sequence : Z;
  history : list event
}.

(** The surroundings of one operation: the platform, the clock behind
    [CURRENT_TIMESTAMP], and the two mail collaborators, which may answer
    each call differently (they see the history so far). *)
Record Env := {
  platform : Platform;
  now : datetime;
  imap_is_connected : bool;
  imap_search : list event -> string -> imap_result;
  smtp_send_followup :
    list event -> OriginalEmail -> list (string * string) -> smtp_result
}.

(* ================================================================== *)
(** * The monad of stateful code *)
(* ================================================================== *)

Definition M (A : Type) : Type := World -> result A * World.

Definition ret {A} (a : A) : M A := fun w => (Ok a, w).

Definition bind {A B} (m : M A) (k : A -> M B) : M B :=
  fun w =>
    match m w with
    | (Ok a, w') => k a w'
    | (Raise e, w') => (Raise e, w')
    end.

Definition raise {A} (e : exn) : M A := fun w => (Raise e, w).

(** [try: m  except Exception as e: h e] *)
Definition try_except {A} (m : M A) (h : exn -> M A) : M A :=
  fun w =>
    match m w with
    | (Ok a, w') => (Ok a, w')
    | (Raise e, w') => h e w'
    end.

(** [try: m  except sqlite3.Error as e: h e]: any other exception goes
    through. *)
Definition try_except_sqlite3_Error {A} (m : M A) (h : exn -> M A) : M A :=
  fun w =>
    match m w with
    | (Ok a, w') => (Ok a, w')
    | (Raise e, w') => if is_sqlite3_Error e then h e w' else (Raise e, w')
    end.

Definition lift {A} (r : result A) : M A := fun w => (r, w).

Definition emit (e : event) : M unit :=
  fun w =>
    (Ok tt,
     {| followups := followups w;
        sqlite_sequence := sqlite_sequence w;
        history := (history w ++ [e])%list |}).

Definition log (l : level) (m : logmsg) : M unit := emit (Log l m).

Declare Scope monad_scope.
Delimit Scope monad_scope with monad.
Notation "x <- m ;; k" := (bind m (fun x => k))
  (at level 100, m at next level, right associativity) : monad_scope.
Notation "m ;; k" := (bind m (fun _ => k))
  (at level 100, right associativity) : monad_scope.
Open Scope monad_scope.

Definition get_followups : M (list Followup.t) :=
  fun w => (Ok (followups w), w).

Definition get_history : M (list event) :=
  fun w => (Ok (history w), w).

Definition set_followups (rows : list Followup.t) : M unit :=
  fun w =>
    (Ok tt,
     {| followups := rows;
        sqlite_sequence := sqlite_sequence w;
        history := history w |}).

Definition get_sqlite_sequence : M Z :=
  fun w => (Ok (sqlite_sequence w), w).

Definition set_table (rows : list Followup.t) (seq : Z) : M unit :=
  fun w =>
    (Ok tt,
     {| followups := rows; sqlite_sequence := seq; history := history w |}).

(** [for x in xs: body x] *)
Fixpoint for_each {A} (xs : list A) (body : A -> M unit) : M unit :=
  match xs with
  | [] => ret tt
  | x :: xs' => body x ;; for_each xs' body
  end.

(* ================================================================== *)
(** * database.py *)
(* ================================================================== *)

Module DatabaseManager.

(** Binding a Python value to a [?]: [sqlite3] adapts a [datetime] to
    its [isoformat(" ")] and refuses an [int] outside 64 bits with
    [OverflowError]. *)
Definition bind_parameter (v : pyval) : result sqlval :=
  match v with
  | PyNone => Ok SNull
  | PyInt n =>
      if (- 2 ^ 63 <=? n) && (n <? 2 ^ 63) then Ok (SInt n)
      else Raise OverflowError
  | PyStr s => Ok (SText s)
  | PyDatetime d => Ok (SText (Calendar.isoformat " " d))
  end.

(** [email_id = ?], [email_id TEXT]: an integer parameter is compared as
    its decimal text. *)
Definition email_id_equals (column : string) (p : sqlval) : bool :=
  match p with
  | SNull => false
  | SInt n => String.eqb column (Str.of_Z n)
  | SText s => String.eqb column s
  end.

(** [id = ?], [id INTEGER PRIMARY KEY]: a text parameter is compared as
    the number it spells, if it spells one. *)
Definition id_equals (P : Platform) (column : Z) (p : sqlval) : bool :=
  match p with
  | SNull => false
  | SInt n => column =? n
  | SText s =>
      match text_as_integer P s with
      | Some n => column =? n
      | None => false
      end
  end.

(** The [followup_data] dictionary of [add_followup]. *)
Record FollowupData := {
  fd_email_id : string;
  fd_sender : string;
  fd_recipient : string;
  fd_subject : string;
  fd_sent_date : datetime;
  fd_followup_date : datetime;
  fd_delay_days : Z;
  fd_metadata : Metadata
}.

Definition max_id (rows : list Followup.t) : Z :=
  fold_right (fun r m => Z.max (Followup.id r) m) 0 rows.

(** [add_followup]: the INSERT; the UNIQUE constraint on [email_id]
    fails it with [sqlite3.IntegrityError], which is logged and raised
    again after the rollback. *)
Definition add_followup (env : Env) (followup_data : FollowupData) : M Z :=
  try_except_sqlite3_Error
    (emit (Sql (INSERT_followup (fd_email_id followup_data))) ;;
     rows <- get_followups ;;
     if existsb (fun r => String.eqb (Followup.email_id r)
                            (fd_email_id followup_data)) rows
     then raise IntegrityError
     else
       seq <- get_sqlite_sequence ;;
       let followup_id := Z.max seq (max_id rows) + 1 in
       let row :=
         {| Followup.id := followup_id;
            Followup.email_id := fd_email_id followup_data;
            Followup.sender := fd_sender followup_data;
            Followup.recipient := fd_recipient followup_data;
            Followup.subject := fd_subject followup_data;
            Followup.sent_date :=
              Calendar.isoformat " " (fd_sent_date followup_data);
            Followup.followup_date :=
              Calendar.isoformat " " (fd_followup_date followup_data);
            Followup.delay_days := fd_delay_days followup_data;
            Followup.status := "pending";
            Followup.followup_count := 0;
            Followup.last_check_date := None;
            Followup.metadata := fd_metadata followup_data;
            Followup.created_at := Calendar.current_timestamp (now env) |} in
       set_table (rows ++ [row])%list followup_id ;;
       log INFO (Added_new_followup_with_ID followup_id) ;;
       ret followup_id)
    (fun e => log ERROR (Error_adding_followup e) ;; raise e).

(** The row after [SET status = ?, (followup_count = followup_count + 1,)
    last_check_date = CURRENT_TIMESTAMP]. *)
Definition updated (env : Env) (status : string) (increment_count : bool)
    (r : Followup.t) : Followup.t :=
  {| Followup.id := Followup.id r;
     Followup.email_id := Followup.email_id r;
     Followup.sender := Followup.sender r;
     Followup.recipient := Followup.recipient r;
     Followup.subject := Followup.subject r;
     Followup.sent_date := Followup.sent_date r;
     Followup.followup_date := Followup.followup_date r;
     Followup.delay_days := Followup.delay_days r;
     Followup.status := status;
     Followup.followup_count :=
       if increment_count then Followup.followup_count r + 1
       else Followup.followup_count r;
     Followup.last_check_date := Some (Calendar.current_timestamp (now env));
     Followup.metadata := Followup.metadata r;
     Followup.created_at := Followup.created_at r |}.

(** [update_followup_status]: [UPDATE followups SET ... WHERE id = ?]. *)
Definition update_followup_status (env : Env) (followup_id : pyval)
    (status : string) (increment_count : bool) : M bool :=
  try_except_sqlite3_Error
    (emit (Sql (UPDATE_status followup_id status increment_count)) ;;
     p <- lift (bind_parameter followup_id) ;;
     rows <- get_followups ;;
     set_followups
       (map (fun r => if id_equals (platform env) (Followup.id r) p
                      then updated env status increment_count r else r)
          rows) ;;
     log DEBUG (Updated_followup_status followup_id status) ;;
     ret true)
    (fun e => log ERROR (Error_updating_followup_status e) ;; ret false).

(** [ORDER BY followup_date ASC]: a stable sort on the stored text. *)
Fixpoint insert_by_date (r : Followup.t) (sorted : list Followup.t)
  : list Followup.t :=
  match sorted with
  | [] => [r]
  | r' :: rest =>
      if String.ltb (Followup.followup_date r) (Followup.followup_date r')
      then r :: sorted
      else r' :: insert_by_date r rest
  end.

Definition order_by_followup_date (rows : list Followup.t)
  : list Followup.t :=
  fold_left (fun sorted r => insert_by_date r sorted) rows [].

(** The rows of [WHERE status = 'pending' AND followup_date <=
    CURRENT_TIMESTAMP ORDER BY followup_date ASC]; both sides of the
    comparison are text. *)
Definition pending (env : Env) (rows : list Followup.t) : list Followup.t :=
  order_by_followup_date
    (filter (fun r =>
               String.eqb (Followup.status r) "pending"
               && String.leb (Followup.followup_date r)
                    (Calendar.current_timestamp (now env)))
       rows).

(** [get_pending_followups] *)
Definition get_pending_followups (env : Env) : M (list Followup.t) :=
  try_except_sqlite3_Error
    (emit (Sql SELECT_pending) ;;
     rows <- get_followups ;;
     ret (pending env rows))
    (fun e => log ERROR (Error_fetching_pending_followups e) ;; ret []).

(** [get_followup_by_email_id]: [SELECT * FROM followups WHERE
    email_id = ?] and [fetchone]. *)
Definition get_followup_by_email_id (email_id : pyval)
  : M (option Followup.t) :=
  try_except_sqlite3_Error
    (emit (Sql (SELECT_by_email_id email_id)) ;;
     p <- lift (bind_parameter email_id) ;;
     rows <- get_followups ;;
     ret (find (fun r => email_id_equals (Followup.email_id r) p) rows))
    (fun e => log ERROR (Error_fetching_followup_by_email_ID e) ;; ret None).

End DatabaseManager.

(* ================================================================== *)
(** * imap_client.py *)
(* ================================================================== *)

Module IMAPClient.

Definition auto_reply_headers : list string :=
  [ "auto-submitted";
    "x-auto-response-suppress";
    "x-autorespond";
    "x-autoreply" ].

(** [header in headers], on the dictionary [headers]. *)
Definition has_key (header : string) (headers : list (string * string))
  : bool :=
  existsb (fun kv => String.eqb header (fst kv)) headers.

(** [_is_auto_reply] *)
Definition _is_auto_reply (P : Platform) (email_info : EmailInfo.t) : bool :=
  let headers := EmailInfo.headers email_info in
  let body := str_lower P (EmailInfo.body email_info) in
  existsb (fun header => has_key header headers) auto_reply_headers
  || existsb (fun pattern => Str.contains (str_lower P pattern) body)
       AUTO_REPLY_PATTERNS.

(** The test of [check_for_replies] on one fetched message. *)
Definition is_reply (P : Platform) (original_email_id : string)
    (email_info : EmailInfo.t) : bool :=
  (Str.contains original_email_id (EmailInfo.references email_info)
   || Str.contains original_email_id (EmailInfo.in_reply_to email_info))
  && negb (_is_auto_reply P email_info).

(** [check_for_replies] *)
Definition check_for_replies (env : Env) (original_email_id subject : string)
  : M (list EmailInfo.t) :=
  if negb (imap_is_connected env) then
    log ERROR Not_connected_to_IMAP_server ;; ret []
  else
    let sanitized_subject := sanitize_subject (platform env) subject in
    h <- get_history ;;
    let r := imap_search env h sanitized_subject in
    emit (Imap sanitized_subject r) ;;
    match r with
    | Fetched messages =>
        ret (filter (is_reply (platform env) original_email_id) messages)
    | IMAP4_error => log ERROR Error_checking_for_replies ;; ret []
    | Imap_raises e => raise e
    end.

End IMAPClient.

(* ================================================================== *)
(** * email_manager.py *)
(* ================================================================== *)

(** [d[k] = v] on a dictionary kept as an association list. *)
Fixpoint dict_set (k v : string) (d : list (string * string))
  : list (string * string) :=
  match d with
  | [] => [(k, v)]
  | (k', v') :: d' =>
      if String.eqb k k' then (k, v) :: d' else (k', v') :: dict_set k v d'
  end.

(** [d.update(other)] *)
Definition dict_update (d other : list (string * string))
  : list (string * string) :=
  fold_left (fun acc kv => dict_set (fst kv) (snd kv) acc) other d.

(** [if message_id:] on an [Optional[str]]. *)
Definition truthy (message_id : option string) : bool :=
  match message_id with
  | Some (String _ _) => true
  | _ => false
  end.

Module EmailManager.

(** [add_followup] *)
Definition add_followup (env : Env) (email_data : EmailData.t)
  : M (option Z) :=
  try_except
    (let email_id :=
       generate_email_id (EmailData.sender email_data)
         (EmailData.subject email_data) (EmailData.sent_date email_data) in
     followup_date <-
       lift (calculate_followup_date (EmailData.sent_date email_data)
               (EmailData.delay_days email_data)) ;;
     let followup_data :=
       {| DatabaseManager.fd_email_id := email_id;
          DatabaseManager.fd_sender := EmailData.sender email_data;
          DatabaseManager.fd_recipient := EmailData.recipient email_data;
          DatabaseManager.fd_subject := EmailData.subject email_data;
          DatabaseManager.fd_sent_date := EmailData.sent_date email_data;
          DatabaseManager.fd_followup_date := followup_date;
          DatabaseManager.fd_delay_days := EmailData.delay_days email_data;
          DatabaseManager.fd_metadata :=
            {| original_message_id := EmailData.message_id email_data;
               template_name :=
                 match EmailData.template_name email_data with
                 | Some n => n
                 | None => "default"
                 end;
               custom_variables :=
                 EmailData.template_variables email_data |} |} in
     followup_id <- DatabaseManager.add_followup env followup_data ;;
     log INFO (Added_new_followup_with_ID followup_id) ;;
     ret (Some followup_id))
    (fun e => log ERROR (Error_adding_followup e) ;; ret None).

(** [check_for_responses] *)
Definition check_for_responses (env : Env) (followup_id : pyval) : M bool :=
  try_except
    (followup <- DatabaseManager.get_followup_by_email_id followup_id ;;
     match followup with
     | None => log ERROR (Followup_not_found followup_id) ;; ret false
     | Some followup =>
         replies <-
           IMAPClient.check_for_replies env (Followup.email_id followup)
             (Followup.subject followup) ;;
         match replies with
         | _ :: _ =>
             DatabaseManager.update_followup_status env followup_id
               "responded" false ;;
             log INFO (Response_found_for_followup followup_id) ;;
             ret true
         | [] => ret false
         end
     end)
    (fun e => log ERROR (Error_checking_for_responses e) ;; ret false).

(** The call of [self.smtp.send_followup]. *)
Definition smtp_send (env : Env) (original_email : OriginalEmail)
    (template_vars : list (string * string)) : M (option string) :=
  h <- get_history ;;
  let r := smtp_send_followup env h original_email template_vars in
  emit (Smtp original_email template_vars r) ;;
  match r with
  | Message_ID msg_id => ret (Some msg_id)
  | Not_sent => ret None
  | Smtp_raises e => raise e
  end.

(** The end of [send_followup], from the call of the SMTP client on. *)
Definition dispatch (env : Env) (followup_id : pyval)
    (followup : Followup.t) (template_vars : list (string * string))
  : M bool :=
  message_id <-
    smtp_send env
      {| to := Followup.recipient followup;
         original_subject := Followup.subject followup;
         original_id := original_message_id (Followup.metadata followup) |}
      template_vars ;;
  if truthy message_id then
    DatabaseManager.update_followup_status env followup_id "sent" true ;;
    log INFO (Followup_sent_successfully_for_ID followup_id) ;;
    ret true
  else
    log ERROR (Failed_to_send_followup_for_ID followup_id) ;;
    ret false.

(** [send_followup].  [format_date] is applied to [followup['sent_date']]
    and [followup['followup_date']] as [dict(row)] holds them. *)
Definition send_followup (env : Env) (followup_id : pyval) : M bool :=
  try_except
    (followup <- DatabaseManager.get_followup_by_email_id followup_id ;;
     match followup with
     | None => log ERROR (Followup_not_found followup_id) ;; ret false
     | Some followup =>
         responded <- check_for_responses env followup_id ;;
         if responded : bool then
           log INFO (Response_already_received_for_followup followup_id) ;;
           ret true
         else
           DATE_ENVOI <-
             lift (format_date
                     (timestamp_cell (platform env)
                        (Followup.sent_date followup))) ;;
           DATE_RELANCE <-
             lift (format_date
                     (timestamp_cell (platform env)
                        (Followup.followup_date followup))) ;;
           let template_vars :=
             [ ("DESTINATAIRE", Followup.recipient followup);
               ("SUJET", Followup.subject followup);
               ("DATE_ENVOI", DATE_ENVOI);
               ("DATE_RELANCE", DATE_RELANCE);
               ("EXPEDITEUR", Followup.sender followup) ] in
           let template_vars :=
             dict_update template_vars
               (custom_variables (Followup.metadata followup)) in
           dispatch env followup_id followup template_vars
     end)
    (fun e => log ERROR (Error_sending_followup e) ;; ret false).

(** [process_pending_followups] *)
Definition process_pending_followups (env : Env) : M unit :=
  try_except
    (pending <- DatabaseManager.get_pending_followups env ;;
     for_each pending
       (fun followup =>
          let followup_id := PyInt (Followup.id followup) in
          responded <- check_for_responses env followup_id ;;
          if responded : bool then ret tt
          else send_followup env followup_id ;; ret tt))
    (fun e => log ERROR (Error_processing_pending_followups e)).

End EmailManager.

(* ================================================================== *)
(** * scheduler.py *)
(* ================================================================== *)

Module Scheduler.

(** The attributes of a [Scheduler]; [timer_active] and [timer_interval]
    are those of its [check_timer]. *)
Record t := {
  is_running : bool;
  timer_active : bool;
  timer_interval : Z;
  _last_check : option datetime;
  _error_count : Z;
  _max_errors : Z
}.

(** [Scheduler()] *)
Definition __init__ : t :=
  {| is_running := false;
     timer_active := false;
     timer_interval := 0;
     _last_check := None;
     _error_count := 0;
     _max_errors := max_retries |}.

Definition timer_start (msec : option Z) (self : t) : M t :=
  emit (Timer (QTimer_start msec)) ;;
  ret {| is_running := is_running self;
         timer_active := true;
         timer_interval :=
           match msec with Some i => i | None => timer_interval self end;
         _last_check := _last_check self;
         _error_count := _error_count self;
         _max_errors := _max_errors self |}.

Definition timer_stop (self : t) : M t :=
  emit (Timer QTimer_stop) ;;
  ret {| is_running := is_running self;
         timer_active := false;
         timer_interval := timer_interval self;
         _last_check := _last_check self;
         _error_count := _error_count self;
         _max_errors := _max_errors self |}.

Definition set_is_running (b : bool) (self : t) : t :=
  {| is_running := b;
     timer_active := timer_active self;
     timer_interval := timer_interval self;
     _last_check := _last_check self;
     _error_count := _error_count self;
     _max_errors := _max_errors self |}.

Definition set_last_check (d : datetime) (self : t) : t :=
  {| is_running := is_running self;
     timer_active := timer_active self;
     timer_interval := timer_interval self;
     _last_check := Some d;
     _error_count := _error_count self;
     _max_errors := _max_errors self |}.

Definition set_error_count (n : Z) (self : t) : t :=
  {| is_running := is_running self;
     timer_active := timer_active self;
     timer_interval := timer_interval self;
     _last_check := _last_check self;
     _error_count := n;
     _max_errors := _max_errors self |}.

(** [stop] *)
Definition stop (self : t) : M t :=
  if is_running self then
    self <- timer_stop self ;;
    let self := set_is_running false self in
    log INFO Scheduler_stopped ;;
    ret self
  else
    log WARNING Scheduler_is_not_running ;;
    ret self.

Section Engine.

(** [self.email_manager.process_pending_followups], whatever engine
    the scheduler holds, and the surroundings. *)
Variable process_pending_followups : M unit.
Variable env : Env.

(** [check_emails] *)
Definition check_emails (self : t) : M t :=
  try_except
    (emit (Emit check_started) ;;
     log DEBUG Starting_email_check_cycle ;;
     process_pending_followups ;;
     let self := set_last_check (now env) self in
     let self := set_error_count 0 self in
     emit (Emit (check_completed true)) ;;
     log DEBUG Email_check_cycle_completed_successfully ;;
     ret self)
    (fun e =>
       log ERROR (Error_during_email_check e) ;;
       let self := set_error_count (_error_count self + 1) self in
       emit (Emit (check_completed false)) ;;
       emit (Emit (error_occurred e)) ;;
       if _max_errors self <=? _error_count self then
         log ERROR Maximum_error_count_reached_stopping_scheduler ;;
         stop self
       else ret self).

(** [start] *)
Definition start (self : t) : M t :=
  if negb (is_running self) then
    let interval := check_interval * 1000 in
    self <- timer_start (Some interval) self ;;
    let self := set_is_running true self in
    let self := set_last_check (now env) self in
    let self := set_error_count 0 self in
    log INFO Scheduler_started_successfully ;;
    check_emails self
  else
    log WARNING Scheduler_is_already_running ;;
    ret self.

(** [force_check] *)
Definition force_check (self : t) : M t :=
  if is_running self then
    self <- timer_stop self ;;
    self <- check_emails self ;;
    self <- timer_start None self ;;
    log INFO Forced_email_check_initiated ;;
    ret self
  else
    log WARNING Cannot_force_check_scheduler_is_not_running ;;
    ret self.

(** [check_timer.timeout.connect(self.check_emails)]: the timer, when
    it is active, fires into [check_emails]. *)
Definition timeout (self : t) : M t :=
  if timer_active self then check_emails self else ret self.

(** [n] periods of the timer, one after the other. *)
Fixpoint periods (n : nat) (self : t) : M t :=
  match n with
  | O => ret self
  | S n' => self <- timeout self ;; periods n' self
  end.

End Engine.

End Scheduler.

(* ================================================================== *)
(** * Observations on a history *)
(* ================================================================== *)

(** The events that [w'] has and [w] had not yet. *)
Definition since (w w' : World) : list event :=
  skipn (List.length (history w)) (history w').

(** The reconciliation passes: each starts with the query for the pending
    rows. *)
Definition reconciliations (h : list event) : nat :=
  List.length
    (filter (fun e => match e with Sql SELECT_pending => true | _ => false end) h).

Definition timer_calls (h : list event) : list timer_call :=
  flat_map (fun e => match e with Timer c => [c] | _ => [] end) h.

(** The messages handed to the SMTP client. *)
Definition smtp_calls (h : list event) : list OriginalEmail :=
  flat_map (fun e => match e with Smtp o _ _ => [o] | _ => [] end) h.

(** The [error_occurred] signals emitted. *)
Definition error_notifications (h : list event) : list exn :=
  flat_map (fun e => match e with Emit (error_occurred x) => [x] | _ => [] end) h.

(** The statuses written by [UPDATE] statements. *)
Definition statuses_written (h : list event) : list string :=
  flat_map (fun e => match e with
                     | Sql (UPDATE_status _ s _) => [s]
                     | _ => []
                     end) h.

(** The rows inserted. *)
Definition inserts (h : list event) : list string :=
  flat_map (fun e => match e with
                     | Sql (INSERT_followup k) => [k]
                     | _ => []
                     end) h.

(** The row that [get_followup_by_email_id] finds for an identifier. *)
Definition stored_record (rows : list Followup.t) (followup_id : pyval)
  : option Followup.t :=
  match DatabaseManager.bind_parameter followup_id with
  | Ok p =>
      find (fun r => DatabaseManager.email_id_equals (Followup.email_id r) p)
        rows
  | Raise _ => None
  end.

(** The table after [UPDATE followups SET ... WHERE id = ?]. *)
Definition rows_after_update (env : Env) (followup_id : pyval)
    (status : string) (increment_count : bool) (rows : list Followup.t)
  : list Followup.t :=
  match DatabaseManager.bind_parameter followup_id with
  | Ok p =>
      map (fun r => if DatabaseManager.id_equals (platform env) (Followup.id r) p
                    then DatabaseManager.updated env status increment_count r
                    else r) rows
  | Raise _ => rows
  end.

(** The events of looking one record up and asking the mailbox about it. *)
Definition benign (e : event) : Prop :=
  match e with
  | Log _ (Error_processing_pending_followups _) => False
  | Log _ Maximum_error_count_reached_stopping_scheduler => False
  | Log _ _ => True
  | Sql (SELECT_by_email_id _) => True
  | Imap _ _ => True
  | _ => False
  end.

(** The events of handling one record within a pass: the benign ones,
    a call of the SMTP client, and the two updates of the status. *)
Definition pass_event (e : event) : Prop :=
  match e with
  | Sql (UPDATE_status _ s _) => s = "sent" \/ s = "responded"
  | Smtp _ _ _ => True
  | _ => benign e
  end.

(** Every exception that a mail collaborator raised was logged by the
    operation that met it. *)
Definition exceptions_logged (new : list event) : Prop :=
  (forall q e,
      In (Imap q (Imap_raises e)) new ->
      In (Log ERROR (Error_checking_for_responses e)) new)
  /\ (forall o vars e,
        In (Smtp o vars (Smtp_raises e)) new ->
        In (Log ERROR (Error_sending_followup e)) new).

(** Without an SMTP call and without an update to ["sent"]. *)
Definition nothing_sent (l : list event) : Prop :=
  smtp_calls l = [] /\ ~ In "sent" (statuses_written l).

(** Some TIMESTAMP cell comes back as a value that [format_date]
    accepts. *)
Definition dates_come_back_formattable (P : Platform) : Prop :=
  exists s d, format_date (timestamp_cell P s) = Ok d.

(** TIMESTAMP cells come back as the text stored, as they do on the
    connection that [_initialize_db] opens. *)
Definition timestamps_come_back_as_text (P : Platform) : Prop :=
  forall s, timestamp_cell P s = PyStr s.

(** The follow-ups sent: the calls of the SMTP client that returned a
    message id. *)
Definition followups_sent (h : list event) : list OriginalEmail :=
  flat_map (fun e => match e with
                     | Smtp o _ (Message_ID (String _ _)) => [o]
                     | _ => []
                     end) h.

(** A Mailbox Sender that never delivers: every call reports failure or
    raises. *)
Definition sender_fails (env : Env) : Prop :=
  forall h o vars,
    smtp_send_followup env h o vars = Not_sent
    \/ exists e, smtp_send_followup env h o vars = Smtp_raises e.

(** Status moves forward: every row of [rows] is still there, at its
    place and under its [id] and [email_id], with the status it had or with
    ["sent"] or ["responded"]. *)
Definition forward (rows rows' : list Followup.t) : Prop :=
  forall n r,
    nth_error rows n = Some r ->
    exists r',
      nth_error rows' n = Some r'
      /\ Followup.id r' = Followup.id r
      /\ Followup.email_id r' = Followup.email_id r
      /\ (Followup.status r' = Followup.status r
          \/ Followup.status r' = "sent"
          \/ Followup.status r' = "responded").

(** No way back: a row whose status is ["responded"] or ["failed"] is
    still there afterwards, and not ["pending"]. *)
Definition never_back (rows rows' : list Followup.t) : Prop :=
  forall n r,
    nth_error rows n = Some r ->
    Followup.status r = "responded" \/ Followup.status r = "failed" ->
    exists r',
      nth_error rows' n = Some r'
      /\ Followup.id r' = Followup.id r
      /\ Followup.status r' <> "pending".

(** One operation of the engine, from [w] to [w']: statuses move forward,
    never back to ["pending"], and every [UPDATE] writes ["sent"] or
    ["responded"]. *)
Definition lifecycle_step (w w' : World) : Prop :=
  forward (followups w) (followups w')
  /\ never_back (followups w) (followups w')
  /\ Forall (fun s => s = "sent" \/ s = "responded")
       (statuses_written (since w w')).

(** The tables that hold digests as keys: those that
    [EmailManager.add_followup] fills. *)
Definition keyed_by_digests (rows : list Followup.t) : Prop :=
  Forall (fun r => String.length (Followup.email_id r) = 32%nat) rows.

(** The world in which a check cycle calls the engine: the cycle has
    emitted [check_started] and written its first log record. *)
Definition entering (w : World) : World :=
  snd ((emit (Emit check_started) ;; log DEBUG Starting_email_check_cycle) w).

(** An engine whose every pass ends in an exception. *)
Definition always_raises (process_pending_followups : M unit) : Prop :=
  forall w, exists e, fst (process_pending_followups w) = Raise e.

(** How often the scheduler logged that it reached its maximum error
    count. *)
Definition maximum_reached_records (h : list event) : nat :=
  List.length
    (filter (fun e =>
               match e with
               | Log ERROR Maximum_error_count_reached_stopping_scheduler => true
               | _ => false
               end) h).

(** An engine that only adds to the history, and adds neither signals
    nor log records of the scheduler nor calls on its timer. *)
Definition engine_events_only (process_pending_followups : M unit) : Prop :=
  forall w,
    exists new,
      history (snd (process_pending_followups w)) = (history w ++ new)%list
      /\ error_notifications new = []
      /\ timer_calls new = []
      /\ maximum_reached_records new = 0%nat.

(* ================================================================== *)
(** * The classification as the specification words it *)
(* ================================================================== *)

Module Spec.

(** A marker header is present when some header of the message has that
    name, whatever the case of its letters. *)
Definition has_marker (P : Platform) (headers : list (string * string))
  : bool :=
  existsb
    (fun marker =>
       existsb (fun kv => String.eqb (str_lower P marker)
                            (str_lower P (fst kv))) headers)
    IMAPClient.auto_reply_headers.

(** Automatic: a marker header is present, or the lower-cased body
    contains a configured phrase. *)
Definition is_automatic (P : Platform) (m : EmailInfo.t) : bool :=
  has_marker P (EmailInfo.headers m)
  || existsb (fun phrase =>
                Str.contains (str_lower P phrase)
                  (str_lower P (EmailInfo.body m)))
       AUTO_REPLY_PATTERNS.

End Spec.

(* ================================================================== *)
(** * A worked scenario *)
(* ================================================================== *)

Module Scenario.

Definition sent_at : datetime := Datetime 2024 1 1 10 0 0 0.
Definition due_at : datetime := Datetime 2024 1 8 10 0 0 0.

Definition registration : EmailData.t :=
  {| EmailData.sender := "alice@example.com";
     EmailData.recipient := "bob@example.org";
     EmailData.subject := "Project update";
     EmailData.sent_date := sent_at;
     EmailData.delay_days := 7;
     EmailData.message_id := Some "<orig-1@example.com>";
     EmailData.template_name := None;
     EmailData.template_variables := [] |}.

(** The same (sender, subject, sent date), another recipient and delay. *)
Definition registration_again : EmailData.t :=
  {| EmailData.sender := "alice@example.com";
     EmailData.recipient := "carol@example.net";
     EmailData.subject := "Project update";
     EmailData.sent_date := sent_at;
     EmailData.delay_days := 3;
     EmailData.message_id := None;
     EmailData.template_name := None;
     EmailData.template_variables := [] |}.

Definition key : string := "1b423b6e546799741acc48bb990f416e".

(** Connected to both servers; the inbox holds [inbox] and the SMTP
    client answers [smtp]. *)
Definition env_on (P : Platform) (clock : datetime)
    (inbox : list EmailInfo.t) (smtp : smtp_result) : Env :=
  {| platform := P;
     now := clock;
     imap_is_connected := true;
     imap_search := fun _ _ => Fetched inbox;
     smtp_send_followup := fun _ _ _ => smtp |}.

Definition env : datetime -> list EmailInfo.t -> smtp_result -> Env :=
  env_on Ascii_platform.platform.

(** What a connection with type detection would make of a TIMESTAMP
    cell: the [datetime] that ["YYYY-MM-DD HH:MM:SS"] spells. *)
Definition parse_timestamp (s : string) : pyval :=
  let field (start len : nat) := Ascii_platform.decimal (substring start len s) in
  match field 0%nat 4%nat, field 5%nat 2%nat, field 8%nat 2%nat,
        field 11%nat 2%nat, field 14%nat 2%nat, field 17%nat 2%nat with
  | Some y, Some mo, Some d, Some h, Some mi, Some s' =>
      PyDatetime (Datetime y mo d h mi s' 0)
  | _, _, _, _, _, _ => PyStr s
  end.

(** The platform the code does not run on: the same, with type
    detection. *)
Definition detecting : Platform :=
  {| str_lower := Ascii_platform.lower;
     str_strip := Ascii_platform.strip;
     text_as_integer := Ascii_platform.decimal;
     timestamp_cell := parse_timestamp |}.

Definition delivered : smtp_result := Message_ID "sent-1@example.com".

Definition empty : World :=
  {| followups := []; sqlite_sequence := 0; history := [] |}.

(** The world after the registration. *)
Definition registered : World :=
  snd (EmailManager.add_followup (env sent_at [] delivered) registration
         empty).

(** A person's answer to the tracked message. *)
Definition genuine_reply : EmailInfo.t :=
  {| EmailInfo.subject := "Re: Project update";
     EmailInfo.from := "bob@example.org";
     EmailInfo.body := "Thanks, I will look at it on Monday.";
     EmailInfo.message_id := "<reply-1@example.org>";
     EmailInfo.in_reply_to := "<1b423b6e546799741acc48bb990f416e@example.com>";
     EmailInfo.references := "<1b423b6e546799741acc48bb990f416e@example.com>";
     EmailInfo.headers :=
       [ ("From", "bob@example.org");
         ("Subject", "Re: Project update");
         ("In-Reply-To", "<1b423b6e546799741acc48bb990f416e@example.com>") ] |}.

(** A vacation responder's answer: the marker header as RFC 3834 spells
    it, and a body without any configured phrase. *)
Definition vacation_notice : EmailInfo.t :=
  {| EmailInfo.subject := "Re: Project update";
     EmailInfo.from := "bob@example.org";
     EmailInfo.body := "I am away until Friday and will answer then.";
     EmailInfo.message_id := "<auto-1@example.org>";
     EmailInfo.in_reply_to := "<1b423b6e546799741acc48bb990f416e@example.com>";
     EmailInfo.references := "<1b423b6e546799741acc48bb990f416e@example.com>";
     EmailInfo.headers :=
       [ ("From", "bob@example.org");
         ("Subject", "Re: Project update");
         ("Auto-Submitted", "auto-replied") ] |}.

(** An engine whose pass raises, as a scheduler under test holds. *)
Definition broken_engine : M unit := raise (Exception_ "connection lost").

(** The mailbox is reachable, the SMTP client reports failure. *)
Definition sender_down : Env := env due_at [] Not_sent.

(** The same, on the platform with type detection. *)
Definition sender_down_detecting : Env := env_on detecting due_at [] Not_sent.

(** The record is due, nothing has arrived, the SMTP client delivers. *)
Definition due : Env := env due_at [] delivered.

(** A started scheduler between two fires. *)
Definition running : Scheduler.t :=
  {| Scheduler.is_running := true;
     Scheduler.timer_active := true;
     Scheduler.timer_interval := check_interval * 1000;
     Scheduler._last_check := Some sent_at;
     Scheduler._error_count := 0;
     Scheduler._max_errors := max_retries |}.

(** Three periods of the timer with the broken engine. *)
Definition three_failures : result Scheduler.t * World :=
  Scheduler.periods broken_engine due 3 running empty.

(** [force_check] on a scheduler that was never started, with the engine
    of the application and the due record. *)
Definition forced_while_stopped : result Scheduler.t * World :=
  Scheduler.force_check (EmailManager.process_pending_followups due) due
    Scheduler.__init__ registered.

End Scenario.

(* ================================================================== *)
(** * One record's turn in a pass *)
(* ================================================================== *)

(** The [original_email] that [send_followup] builds from a record. *)
Definition original_email_of (f : Followup.t) : OriginalEmail :=
  {| to := Followup.recipient f;
     original_subject := Followup.subject f;
     original_id := original_message_id (Followup.metadata f) |}.

(** A record as it was registered: the columns that no [UPDATE] of the
    code sets. *)
Definition as_registered (r : Followup.t)
  : Z * string * string * string * string * string * string * Metadata :=
  (Followup.id r, Followup.email_id r, Followup.sender r,
   Followup.recipient r, Followup.subject r, Followup.sent_date r,
   Followup.followup_date r, Followup.metadata r).

(** The events [sent] of [send_followup] after its own lookup, for the
    identifier [followup_id] on a table that holds the records [rows].
    Without a record under the identifier, one error is logged.  With a
    record, the follow-up is attempted: a response turns up at the second
    look; or the SMTP client is handed the record's message, once, and the
    outcome is recorded (the update to ["sent"], the failure logged, or
    the exception logged); or [format_date] raised on one of the record's
    dates and the exception is logged. *)
Definition followup_attempted (env : Env) (rows : list Followup.t)
    (followup_id : pyval) (sent : list event) : Prop :=
  match stored_record rows followup_id with
  | None => exists m, sent = [Log ERROR m]
  | Some f =>
      In (Log INFO (Response_already_received_for_followup followup_id)) sent
      \/ (smtp_calls sent = [original_email_of f]
          /\ (In (Sql (UPDATE_status followup_id "sent" true)) sent
              \/ In (Log ERROR (Failed_to_send_followup_for_ID followup_id))
                   sent
              \/ exists e, In (Log ERROR (Error_sending_followup e)) sent))
      \/ (exists e,
            In (Log ERROR (Error_sending_followup e)) sent
            /\ smtp_calls sent = []
            /\ (format_date (timestamp_cell (platform env)
                               (Followup.sent_date f)) = Raise e
                \/ format_date (timestamp_cell (platform env)
                                  (Followup.followup_date f)) = Raise e))
  end.

(** The events of one record's turn in a pass over the records [rows]:
    [check_for_responses] looks the record up and either records a
    response, or finds none (or fails, which it logs) and then
    [send_followup] looks the record up and attempts the follow-up. *)
Definition record_processed (env : Env) (rows : list Followup.t)
    (r : Followup.t) (segment : list event) : Prop :=
  let followup_id := PyInt (Followup.id r) in
  (exists q ms,
      segment
      = [ Sql (SELECT_by_email_id followup_id);
          Imap q (Fetched ms);
          Sql (UPDATE_status followup_id "responded" false);
          Log DEBUG (Updated_followup_status followup_id "responded");
          Log INFO (Response_found_for_followup followup_id) ])
  \/ (exists checked sent,
        segment
        = (Sql (SELECT_by_email_id followup_id) :: checked ++
           Sql (SELECT_by_email_id followup_id) :: sent)%list
        /\ Forall benign checked
        /\ Forall pass_event sent
        /\ followup_attempted env rows followup_id sent).

(** A batch of two due records whose keys are the decimal texts of their
    row ids, so that a pass finds them.  The mailbox search raises for
    the first record and finds nothing for the second; the SMTP client
    raises for the first recipient and delivers to the second. *)
Module Batch.

Definition connection_reset : exn := Exception_ "connection reset by peer".
Definition recipient_refused : exn := Exception_ "recipient refused".

Definition record (id : Z) (recipient subject : string) : Followup.t :=
  {| Followup.id := id;
     Followup.email_id := Str.of_Z id;
     Followup.sender := "alice@example.com";
     Followup.recipient := recipient;
     Followup.subject := subject;
     Followup.sent_date := "2024-01-01 10:00:00";
     Followup.followup_date := "2024-01-08 10:00:00";
     Followup.delay_days := 7;
     Followup.status := "pending";
     Followup.followup_count := 0;
     Followup.last_check_date := None;
     Followup.metadata :=
       {| original_message_id := None;
          template_name := "default";
          custom_variables := [] |};
     Followup.created_at := "2024-01-01 10:00:00" |}.

Definition table : World :=
  {| followups :=
       [ record 1 "bob@example.org" "Quarterly report";
         record 2 "carol@example.net" "Project update" ];
     sqlite_sequence := 2;
     history := [] |}.

Definition env : Env :=
  {| platform := Scenario.detecting;
     now := Scenario.due_at;
     imap_is_connected := true;
     imap_search :=
       fun _ subject =>
         if String.eqb subject "Quarterly report"
         then Imap_raises connection_reset else Fetched [];
     smtp_send_followup :=
       fun _ original_email _ =>
         if String.eqb (to original_email) "bob@example.org"
         then Smtp_raises recipient_refused else Scenario.delivered |}.

End Batch.

(* ================================================================== *)
(** * More observations on the table and the mailbox *)
(* ================================================================== *)

From Stdlib Require Import Permutation Sorted.

(** The table as the constraints of [_create_tables] keep it: [id] is a
    key, [email_id] is UNIQUE, and no [id] is above the AUTOINCREMENT
    counter. *)
Definition table_ok (w : World) : Prop :=
  NoDup (map Followup.id (followups w))
  /\ NoDup (map Followup.email_id (followups w))
  /\ Forall (fun r => 0 < Followup.id r <= sqlite_sequence w) (followups w).


(** The mailbox cannot be searched: the IMAP client is not connected, or
    every search ends in [imaplib.IMAP4.error]. *)
Definition mailbox_unreachable (env : Env) : Prop :=
  imap_is_connected env = false
  \/ forall h q, imap_search env h q = IMAP4_error.

(** An SMTP client that delivers every message. *)
Definition sender_delivers (env : Env) : Prop :=
  forall h o vars,
    exists c m, smtp_send_followup env h o vars = Message_ID (String c m).

(** A record is due when it is pending and the text of its follow-up date
    is not above the text of [CURRENT_TIMESTAMP]. *)
Definition is_due (env : Env) (r : Followup.t) : bool :=
  String.eqb (Followup.status r) "pending"
  && String.leb (Followup.followup_date r)
       (Calendar.current_timestamp (now env)).

(** [ORDER BY followup_date ASC] *)
Definition by_followup_date (a b : Followup.t) : Prop :=
  String.leb (Followup.followup_date a) (Followup.followup_date b) = true.

(* ================================================================== *)
(** * More of the worked scenario *)
(* ================================================================== *)

Module Cases.

(** Another sender and another subject than [Scenario.registration], with
    the same concatenation of the two. *)
Definition shifted_registration : EmailData.t :=
  {| EmailData.sender := "alice@example.co";
     EmailData.recipient := "dave@example.org";
     EmailData.subject := "mProject update";
     EmailData.sent_date := Scenario.sent_at;
     EmailData.delay_days := 14;
     EmailData.message_id := None;
     EmailData.template_name := None;
     EmailData.template_variables := [] |}.

End Cases.

(* ================================================================== *)
(** * More of datetime *)
(* ================================================================== *)

Module Dates.

(** [_days_in_month(year, month)] *)
Definition _days_in_month (y m : Z) : Z :=
  if (m =? 2) && Calendar._is_leap y then 29
  else nth (Z.to_nat m) Calendar._DAYS_IN_MONTH 0.

(** The year, month and day that [date(y, m, d)] accepts. *)
Definition valid_date (y m d : Z) : bool :=
  (1 <=? y) && (y <=? 9999) && (1 <=? m) && (m <=? 12)
  && (1 <=? d) && (d <=? _days_in_month y m).

(** The fields that [datetime(...)] accepts. *)
Definition valid (d : datetime) : bool :=
  valid_date (year d) (month d) (day d)
  && (0 <=? hour d) && (hour d <? 24)
  && (0 <=? minute d) && (minute d <? 60)
  && (0 <=? second d) && (second d <? 60)
  && (0 <=? microsecond d) && (microsecond d <? 1000000).

(** [d.weekday()]: [(d.toordinal() + 6) % 7], Monday is 0. *)
Definition weekday (d : datetime) : Z := (Calendar.toordinal d + 6) mod 7.

(** [d + timedelta(days=days, seconds=seconds)]: the days and the seconds
    of the day are summed and normalised, the date is taken from the
    ordinal; [OverflowError] outside years 1..9999. *)
Definition plus (d : datetime) (days seconds : Z) : result datetime :=
  let s := hour d * 3600 + minute d * 60 + second d + seconds in
  let o := Calendar.toordinal d + days + s / 86400 in
  let s := s mod 86400 in
  if (0 <? o) && (o <=? Calendar._MAXORDINAL) then
    let '(y, m, dd) := Calendar._ord2ymd o in
    Ok (Datetime y m dd (s / 3600) ((s mod 3600) / 60) (s mod 60)
          (microsecond d))
  else Raise OverflowError.

(** The seconds from the start of day 0 of the proleptic calendar. *)
Definition seconds (d : datetime) : Z :=
  Calendar.toordinal d * 86400 + hour d * 3600 + minute d * 60 + second d.

(** [p] holds of the [n] numbers from [k] on. *)
Fixpoint all_from (n : nat) (k : Z) (p : Z -> bool) : bool :=
  match n with
  | O => true
  | S n' => p k && all_from n' (k + 1) p
  end.

(** One day of the 400-year cycle, [r] days after its first: the date of
    its ordinal is a date of the years 1..400, of the year 400 from day
    145 731 on, and has that ordinal. *)
Definition day_of_cycle_ok (r : Z) : bool :=
  let '(y, m, d) := Calendar._ord2ymd (r + 1) in
  (Calendar._ymd2ord y m d =? r + 1)
  && (1 <=? y) && (y <=? 400) && (1 <=? m) && (m <=? 12)
  && (1 <=? d) && (d <=? _days_in_month y m)
  && ((145731 <=? r) || (y <=? 399))
  && ((r <? 145731) || (y =? 400)).

(** One date of the years 1..400, numbered by [k]: if it is a date, its
    ordinal lies in the cycle and gives the date back. *)
Definition date_of_cycle_ok (k : Z) : bool :=
  let y := k / 372 + 1 in
  let m := (k mod 372) / 31 + 1 in
  let d := k mod 31 + 1 in
  if d <=? _days_in_month y m then
    let n := Calendar._ymd2ord y m d in
    (1 <=? n) && (n <=? Calendar._DI400Y)
    && (let '(y', m', d') := Calendar._ord2ymd n in
        (y' =? y) && (m' =? m) && (d' =? d))
  else true.

End Dates.

(* ================================================================== *)
(** * More of utils.py *)
(* ================================================================== *)

(** [is_working_day]: [date.weekday() < 5] *)
Definition is_working_day (date : datetime) : bool := Dates.weekday date <? 5.

(** The loop of [get_next_working_day], entered with [next_day]:
    [while not is_working_day(next_day): next_day += timedelta(days=1)].
    [None] stands for a loop that [fuel] rounds did not end. *)
Fixpoint next_working_day_loop (fuel : nat) (next_day : datetime)
  : option (result datetime) :=
  if is_working_day next_day then Some (Ok next_day)
  else
    match fuel with
    | O => None
    | S fuel' =>
        match Dates.plus next_day 1 0 with
        | Ok next_day => next_working_day_loop fuel' next_day
        | Raise e => Some (Raise e)
        end
    end.

(** [get_next_working_day] *)
Definition get_next_working_day (fuel : nat) (date : datetime)
  : option (result datetime) :=
  match Dates.plus date 1 0 with
  | Ok next_day => next_working_day_loop fuel next_day
  | Raise e => Some (Raise e)
  end.

(* ================================================================== *)
(** * The monad of the code below *)
(* ================================================================== *)

(** The exceptions of the code below, by class; [Exn] holds those that
    the lifecycle engine meets. *)
Inductive exception :=
| Exn (e : exn)
| TypeError
| KeyError (key : string)
| ValueError
| IndexError
| SMTPException
| IMAP4_error_
| Exception' (what : string).

Definition is_sqlite3_Error' (e : exception) : bool :=
  match e with Exn e => is_sqlite3_Error e | _ => false end.

Inductive outcome (A : Type) :=
| Returns (a : A)
| Raises (e : exception).
Arguments Returns {A} a.
Arguments Raises {A} e.

Definition of_result {A} (r : result A) : outcome A :=
  match r with Ok a => Returns a | Raise e => Raises (Exn e) end.

(** The log records of the code below. *)
Inductive record :=
| Check_interval_updated_to (interval : Z)
| Error_setting_check_interval (e : exception)
| Deleted_followup_with_ID (followup_id : pyval)
| Error_deleting_followup (e : exception)
| Error_getting_followup_status (e : exception)
| Not_connected_to_SMTP_server
| Invalid_recipient_email_address (to_email : string)
| Email_sent_successfully_to (to_email : string)
| Error_sending_email (e : exception)
| Error_preparing_followup_email (e : exception)
| Successfully_connected_to_SMTP_server_for (username : string)
| SMTP_connection_error (e : exception)
| Disconnected_from_SMTP_server
| Error_disconnecting_from_SMTP_server (e : exception)
| Successfully_connected_to_IMAP_server_for (username : string)
| IMAP_connection_error (e : exception)
| Disconnected_from_IMAP_server
| Error_disconnecting_from_IMAP_server (e : exception)
| Successfully_connected_to_email_servers
| Failed_to_connect_to_one_or_both_email_servers
| Disconnected_from_email_servers.

(** An entry of [EMAIL_SERVERS]: the server, its port, and the flag
    ['ssl'] or ['tls']. *)
Record ServerConfig := {
  server : string;
  port : Z;
  secure : bool
}.

(** A message as [send_email] builds it, and the recipients it hands to
    [send_message]. *)
Record Message := {
  From : string;
  To : string;
  Subject : string;
  Date : string;
  Message_ID_ : string;
  Cc : option string;
  Reply_To : option string;
  References : option string;
  In_Reply_To : option string;
  MIMEText_body : string;
  MIMEText_subtype : string;
  to_addrs : list string
}.

(** What the code below does beside returning: log records, the
    [error_occurred] signal of [set_check_interval], statements on the
    connection to the database, calls on the timer and on the mail
    servers, each with what it came to. *)
Inductive effect :=
| Logged (l : level) (m : record)
| Failed_to_set_check_interval (e : exception)
| QTimer_setInterval (msec : Z)
| DELETE_followup (where_id : pyval)
| smtplib_SMTP (server : string) (port : Z) (r : outcome unit)
| starttls (r : outcome unit)
| smtp_login (username password : string) (r : outcome unit)
| send_message (msg : Message) (r : outcome unit)
| quit (r : outcome unit)
| imaplib_IMAP4_SSL (server : string) (port : Z) (r : outcome unit)
| imap_login (username password : string) (r : outcome unit)
| logout (r : outcome unit).

(** Code that acts on a state [St], produces effects, and may end in an
    exception; the state and the effects survive a raise. *)
Definition Act (St A : Type) : Type := St -> outcome A * St * list effect.

Module Act.

Definition ret {St A} (a : A) : Act St A := fun s => (Returns a, s, []).

Definition bind {St A B} (m : Act St A) (k : A -> Act St B) : Act St B :=
  fun s =>
    match m s with
    | (Returns a, s', l) =>
        let '(r, s'', l') := k a s' in (r, s'', (l ++ l')%list)
    | (Raises e, s', l) => (Raises e, s', l)
    end.

Definition raise {St A} (e : exception) : Act St A :=
  fun s => (Raises e, s, []).

(** [try: m  except Exception as e: h e] *)
Definition try_except {St A} (m : Act St A) (h : exception -> Act St A)
  : Act St A :=
  fun s =>
    match m s with
    | (Returns a, s', l) => (Returns a, s', l)
    | (Raises e, s', l) =>
        let '(r, s'', l') := h e s' in (r, s'', (l ++ l')%list)
    end.

(** [try: m  except <classes> as e: h e], the classes given by [caught]. *)
Definition try_except_of {St A} (caught : exception -> bool) (m : Act St A)
    (h : exception -> Act St A) : Act St A :=
  fun s =>
    match m s with
    | (Returns a, s', l) => (Returns a, s', l)
    | (Raises e, s', l) =>
        if caught e then let '(r, s'', l') := h e s' in (r, s'', (l ++ l')%list)
        else (Raises e, s', l)
    end.

Definition lift {St A} (r : outcome A) : Act St A := fun s => (r, s, []).

Definition tell {St} (e : effect) : Act St unit :=
  fun s => (Returns tt, s, [e]).

Definition log {St} (l : level) (m : record) : Act St unit :=
  tell (Logged l m).

Definition get {St} : Act St St := fun s => (Returns s, s, []).

Definition put {St} (s : St) : Act St unit := fun _ => (Returns tt, s, []).

(** The code above, run within the code below: its events go to the
    history of the world. *)
Definition engine {A} (m : M A) : Act World A :=
  fun w => let '(r, w') := m w in (of_result r, w', []).

End Act.

Declare Scope act_scope.
Delimit Scope act_scope with act.
Notation "x <- m ;; k" := (Act.bind m (fun x => k))
  (at level 100, m at next level, right associativity) : act_scope.
Notation "m ;; k" := (Act.bind m (fun _ => k))
  (at level 100, right associativity) : act_scope.

(* ================================================================== *)
(** * More of scheduler.py *)
(* ================================================================== *)

Module Scheduler'.

(** [get_next_check_time]: [None] while the scheduler is not running or
    has never checked, else
    [self._last_check + timedelta(seconds=APP_SETTINGS['check_interval'])]. *)
Definition get_next_check_time (self : Scheduler.t)
  : result (option datetime) :=
  match Scheduler._last_check self with
  | Some _last_check =>
      if negb (Scheduler.is_running self) then Ok None
      else
        match Dates.plus _last_check 0 check_interval with
        | Ok d => Ok (Some d)
        | Raise e => Raise e
        end
  | None => Ok None
  end.

(** [self.check_timer.setInterval(msec)]: PyQt hands [msec] to Qt as a C
    [int] and raises [OverflowError] for a number that is none. *)
Definition timer_setInterval (msec : Z) : Act Scheduler.t unit :=
  (if (- 2 ^ 31 <=? msec) && (msec <? 2 ^ 31) then
     Act.tell (QTimer_setInterval msec) ;;
     self <- Act.get ;;
     Act.put {| Scheduler.is_running := Scheduler.is_running self;
                Scheduler.timer_active := Scheduler.timer_active self;
                Scheduler.timer_interval := msec;
                Scheduler._last_check := Scheduler._last_check self;
                Scheduler._error_count := Scheduler._error_count self;
                Scheduler._max_errors := Scheduler._max_errors self |}
   else Act.raise (Exn OverflowError))%act.

(** [set_check_interval] *)
Definition set_check_interval (interval : Z) : Act Scheduler.t unit :=
  (Act.try_except
     (let interval := if interval <? 60 then 60 else interval in
      self <- Act.get ;;
      (if Scheduler.is_running self
       then timer_setInterval (interval * 1000)
       else Act.ret tt) ;;
      Act.log INFO (Check_interval_updated_to interval))
     (fun e =>
        Act.log ERROR (Error_setting_check_interval e) ;;
        Act.tell (Failed_to_set_check_interval e)))%act.

End Scheduler'.

(* ================================================================== *)
(** * More of database.py *)
(* ================================================================== *)

Module DatabaseManager'.

(** [delete_followup]: [DELETE FROM followups WHERE id = ?]; the
    AUTOINCREMENT counter stays. *)
Definition delete_followup (env : Env) (followup_id : pyval)
  : Act World bool :=
  (Act.try_except_of is_sqlite3_Error'
     (Act.tell (DELETE_followup followup_id) ;;
      p <- Act.lift (of_result (DatabaseManager.bind_parameter followup_id)) ;;
      w <- Act.get ;;
      Act.put
        {| followups :=
             filter (fun r => negb (DatabaseManager.id_equals (platform env)
                                      (Followup.id r) p))
               (followups w);
           sqlite_sequence := sqlite_sequence w;
           history := history w |} ;;
      Act.log INFO (Deleted_followup_with_ID followup_id) ;;
      Act.ret true)
     (fun e => Act.log ERROR (Error_deleting_followup e) ;; Act.ret false))%act.

End DatabaseManager'.

(** The dictionary that [get_followup_status] returns. *)
Record FollowupStatus := {
  status_id : Z;
  status_status : string;
  status_followup_count : Z;
  status_last_check : option string
}.

(* ================================================================== *)
(** * More of utils.py: truncate_text, validate_email *)
(* ================================================================== *)

Section Text.

(** [len] and slices count code points: here a [str] is the list of its
    code points, whatever their type; [dot] is the code point of ['.']. *)
Variable char : Type.
Variable dot : char.

(** [text[:k]] *)
Definition slice_to (text : list char) (k : Z) : list char :=
  if k <? 0 then firstn (Z.to_nat (Z.of_nat (List.length text) + k)) text
  else firstn (Z.to_nat k) text.

(** [truncate_text] *)
Definition truncate_text (text : list char) (max_length : Z) : list char :=
  if Z.of_nat (List.length text) <=? max_length then text
  else (slice_to text (max_length - 3) ++ [dot; dot; dot])%list.

End Text.

(** Regular expressions, as far as [EMAIL_PATTERN] needs them, matched by
    derivatives. *)
Module Re.

Inductive t :=
| Empty
| Eps
| Class (p : ascii -> bool)
| Seq (r s : t)
| Alt (r s : t)
| Star (r : t).

(** [c], [r+], [r{2,}] *)
Definition Lit (c : ascii) : t := Class (Ascii.eqb c).
Definition Plus (r : t) : t := Seq r (Star r).
Definition At_least_2 (r : t) : t := Seq r (Seq r (Star r)).

Fixpoint nullable (r : t) : bool :=
  match r with
  | Empty => false
  | Eps => true
  | Class _ => false
  | Seq r s => nullable r && nullable s
  | Alt r s => nullable r || nullable s
  | Star _ => true
  end.

Fixpoint deriv (c : ascii) (r : t) : t :=
  match r with
  | Empty => Empty
  | Eps => Empty
  | Class p => if p c then Eps else Empty
  | Seq r s =>
      if nullable r then Alt (Seq (deriv c r) s) (deriv c s)
      else Seq (deriv c r) s
  | Alt r s => Alt (deriv c r) (deriv c s)
  | Star r => Seq (deriv c r) (Star r)
  end.

(** The whole of [s] matches [r]. *)
Fixpoint fullmatch (r : t) (s : string) : bool :=
  match s with
  | EmptyString => nullable r
  | String c s' => fullmatch (deriv c r) s'
  end.

(** [s] without its last character, when that is a newline. *)
Fixpoint without_final_newline (s : string) : option string :=
  match s with
  | EmptyString => None
  | String c EmptyString =>
      if Ascii.eqb c "010" then Some EmptyString else None
  | String c s' =>
      match without_final_newline s' with
      | Some t => Some (String c t)
      | None => None
      end
  end.

(** [re.match] of [^r$]: the [$] is at the end of the string, or before
    a newline that ends it. *)
Definition match_to_dollar (r : t) (s : string) : bool :=
  fullmatch r s
  || match without_final_newline s with
     | Some s' => fullmatch r s'
     | None => false
     end.

End Re.

Definition in_range (lo hi : ascii) (c : ascii) : bool :=
  (N_of_ascii lo <=? N_of_ascii c)%N && (N_of_ascii c <=? N_of_ascii hi)%N.

Definition is_letter (c : ascii) : bool :=
  in_range "a" "z" c || in_range "A" "Z" c.

Definition is_alnum (c : ascii) : bool := is_letter c || in_range "0" "9" c.

(** [[a-zA-Z0-9._%+-]] *)
Definition is_local_char (c : ascii) : bool :=
  is_alnum c
  || existsb (Ascii.eqb c) ["."; "_"; "%"; "+"; "-"]%char.

(** [[a-zA-Z0-9.-]] *)
Definition is_domain_char (c : ascii) : bool :=
  is_alnum c || existsb (Ascii.eqb c) ["."; "-"]%char.

(** [r'^[a-zA-Z0-9._%+-]+@[a-zA-Z0-9.-]+\.[a-zA-Z]{2,}$'] *)
Definition EMAIL_PATTERN : Re.t :=
  Re.Seq (Re.Plus (Re.Class is_local_char))
    (Re.Seq (Re.Lit "@")
       (Re.Seq (Re.Plus (Re.Class is_domain_char))
          (Re.Seq (Re.Lit ".") (Re.At_least_2 (Re.Class is_letter))))).

(** [validate_email]: [bool(EMAIL_PATTERN.match(email))] *)
Definition validate_email (email : string) : bool :=
  Re.match_to_dollar EMAIL_PATTERN email.

(** Every character of [s] is in the class [p]. *)
Fixpoint all_chars (p : ascii -> bool) (s : string) : bool :=
  match s with
  | EmptyString => true
  | String c s' => p c && all_chars p s'
  end.

(** A string that [EMAIL_PATTERN] takes to its end: a local part, ["@"],
    a domain, ["."], and two letters or more. *)
Definition is_address (s : string) : Prop :=
  exists local domain tld,
    s = (local ++ "@" ++ domain ++ "." ++ tld)%string
    /\ local <> EmptyString
    /\ all_chars is_local_char local = true
    /\ domain <> EmptyString
    /\ all_chars is_domain_char domain = true
    /\ (2 <= String.length tld)%nat
    /\ all_chars is_letter tld = true.

Definition newline : string := String "010" EmptyString.

(* ================================================================== *)
(** * More of config.py *)
(* ================================================================== *)

(** [EMAIL_SERVERS.get(server_type, {})]: the ['imap'] and the ['smtp']
    entry of a server type, if it is listed. *)
Definition EMAIL_SERVERS (server_type : string)
  : option (ServerConfig * ServerConfig) :=
  if String.eqb server_type "gmail" then
    Some ({| server := "imap.gmail.com"; port := 993; secure := true |},
          {| server := "smtp.gmail.com"; port := 587; secure := true |})
  else if String.eqb server_type "outlook" then
    Some ({| server := "outlook.office365.com"; port := 993; secure := true |},
          {| server := "smtp.office365.com"; port := 587; secure := true |})
  else None.

Definition quote : string := String "034" EmptyString.

Definition DEFAULT_FOLLOWUP_TEMPLATE : string :=
  newline ++ "Bonjour {DESTINATAIRE}," ++ newline
  ++ newline
  ++ "Je me permets de revenir vers vous concernant mon email du {DATE_ENVOI} à propos de "
  ++ quote ++ "{SUJET}" ++ quote ++ "." ++ newline
  ++ newline
  ++ "N'ayant pas reçu de réponse, je souhaitais m'assurer que vous aviez bien reçu mon message et que celui-ci avait retenu votre attention."
  ++ newline
  ++ newline
  ++ "Cordialement," ++ newline
  ++ "{EXPEDITEUR}" ++ newline.

(* ================================================================== *)
(** * The libraries and the servers *)
(* ================================================================== *)

(** What the code below takes from the Python libraries without our
    modelling it in full:
    - [str_format]: [template.format] with the variables as keyword
      arguments;
    - [make_msgid]: [email.utils.make_msgid(domain=...)];
    - [formatdate]: [email.utils.formatdate(localtime=True)]. *)
Record Library := {
  str_format : string -> list (string * string) -> outcome string;
  make_msgid : string -> string;
  formatdate : string
}.

(** The mail servers: what each call on them comes to. *)
Record Servers := {
  SMTP : string -> Z -> outcome unit;
  SMTP_starttls : outcome unit;
  SMTP_login : string -> string -> outcome unit;
  SMTP_send_message : Message -> outcome unit;
  SMTP_quit : outcome unit;
  IMAP4_SSL : string -> Z -> outcome unit;
  IMAP4_login : string -> string -> outcome unit;
  IMAP4_logout : outcome unit
}.

(** [str.format] with keyword arguments only, on the format strings whose
    replacement fields are plain names: [{{] and [}}] stand for a brace,
    [{name}] for the value of [name].  [None] is a format string beyond
    this fragment (a conversion, a format specification, an attribute or
    an index, a name that is not ASCII). *)
Module Format.

Fixpoint lookup (k : string) (d : list (string * string)) : option string :=
  match d with
  | [] => None
  | (k', v) :: d' => if String.eqb k k' then Some v else lookup k d'
  end.

Definition is_digit (c : ascii) : bool := in_range "0" "9" c.

Definition is_ascii (c : ascii) : bool := (N_of_ascii c <? 128)%N.

(** The value of the field [name], where [value_of] gives the keyword
    arguments: without positional arguments an empty or a numeric name is
    out of range. *)
Definition field (value_of : string -> option string) (name : string)
  : option (outcome string) :=
  if negb (all_chars is_ascii name)
     || negb (all_chars (fun c => negb (Ascii.eqb c ".")) name)
  then None
  else if all_chars is_digit name then
    if (String.length name <=? 18)%nat then Some (Raises IndexError) else None
  else
    match value_of name with
    | Some v => Some (Returns v)
    | None => Some (Raises (KeyError name))
    end.

(** The scan of the format string: in literal text while [name] is [None],
    in the replacement field whose name begins with [name] otherwise. *)
Fixpoint scan (value_of : string -> option string) (s : string)
    (name : option string) (out : string) : option (outcome string) :=
  match name with
  | None =>
      match s with
      | EmptyString => Some (Returns out)
      | String "{" (String "{" s') =>
          scan value_of s' None (out ++ "{")
      | String "{" EmptyString => Some (Raises ValueError)
      | String "{" s' => scan value_of s' (Some EmptyString) out
      | String "}" (String "}" s') =>
          scan value_of s' None (out ++ "}")
      | String "}" _ => Some (Raises ValueError)
      | String c s' => scan value_of s' None (out ++ String c EmptyString)
      end
  | Some n =>
      match s with
      | EmptyString => Some (Raises ValueError)
      | String "}" s' =>
          match field value_of n with
          | Some (Returns v) => scan value_of s' None (out ++ v)
          | Some (Raises e) => Some (Raises e)
          | None => None
          end
      | String "{" _ => Some (Raises ValueError)
      | String c s' =>
          if existsb (Ascii.eqb c) ["["; ":"; "!"]%char then None
          else scan value_of s' (Some (n ++ String c EmptyString)) out
      end
  end.

Definition format (template : string) (variables : list (string * string))
  : option (outcome string) :=
  scan (fun name => lookup name variables) template None EmptyString.

(** The library on this fragment. *)
Definition str_format (template : string) (variables : list (string * string))
  : outcome string :=
  match format template variables with
  | Some r => r
  | None => Raises (Exception' "a format string beyond the fragment")
  end.

End Format.

(* ================================================================== *)
(** * smtp_client.py *)
(* ================================================================== *)

(** [s.split(sep)] for a separator of one character. *)
Fixpoint split_on (sep : ascii) (s : string) (part : string) : list string :=
  match s with
  | EmptyString => [part]
  | String c s' =>
      if Ascii.eqb c sep then part :: split_on sep s' EmptyString
      else split_on sep s' (part ++ String c EmptyString)
  end.

(** [s.lstrip(chars)], [s.rstrip(chars)], [s.strip(chars)] *)
Fixpoint lstrip_chars (chars : list ascii) (s : string) : string :=
  match s with
  | String c s' =>
      if existsb (Ascii.eqb c) chars then lstrip_chars chars s' else s
  | EmptyString => EmptyString
  end.

Fixpoint rstrip_chars (chars : list ascii) (s : string) : string :=
  match s with
  | EmptyString => EmptyString
  | String c s' =>
      match rstrip_chars chars s' with
      | EmptyString =>
          if existsb (Ascii.eqb c) chars then EmptyString
          else String c EmptyString
      | r => String c r
      end
  end.

Definition strip_chars (chars : list ascii) (s : string) : string :=
  rstrip_chars chars (lstrip_chars chars s).

(** [sep.join(parts)] *)
Fixpoint join (sep : string) (parts : list string) : string :=
  match parts with
  | [] => EmptyString
  | [p] => p
  | p :: rest => p ++ sep ++ join sep rest
  end.

(** [sep.join(parts)] where a part may be [None]: [TypeError]. *)
Fixpoint all_str (parts : list (option string)) : option (list string) :=
  match parts with
  | [] => Some []
  | Some p :: rest =>
      match all_str rest with Some ps => Some (p :: ps) | None => None end
  | None :: _ => None
  end.

Definition join_optional (sep : string) (parts : list (option string))
  : outcome string :=
  match all_str parts with
  | Some ps => Returns (join sep ps)
  | None => Raises TypeError
  end.

Definition is_SMTPException (e : exception) : bool :=
  match e with SMTPException => true | _ => false end.

Definition is_ValueError (e : exception) : bool :=
  match e with ValueError => true | _ => false end.

Definition is_KeyError (e : exception) : bool :=
  match e with KeyError _ => true | _ => false end.

Definition is_IMAP4_error (e : exception) : bool :=
  match e with IMAP4_error_ => true | _ => false end.

(** [if x:] on an optional list, an optional string. *)
Definition nonempty_list {A} (x : option (list A)) : bool :=
  match x with Some (_ :: _) => true | _ => false end.

Module SMTPClient.

(** The attributes of an [SMTPClient]; [connection] tells whether
    [self.connection] holds a connection. *)
Record t := {
  connection : bool;
  username : option string;
  is_connected : bool
}.

(** [SMTPClient()] *)
Definition __init__ : t :=
  {| connection := false; username := None; is_connected := false |}.

Definition set_is_connected (b : bool) (self : t) : t :=
  {| connection := connection self;
     username := username self;
     is_connected := b |}.

Section Surroundings.

Variable P : Platform.
Variable L : Library.
Variable N : Servers.

(** [connect] *)
Definition connect (username password server_type : string) : Act t bool :=
  (Act.try_except_of (fun e => is_SMTPException e || is_ValueError e)
     (server_config <-
        match EMAIL_SERVERS server_type with
        | Some (_, smtp) => Act.ret smtp
        | None => Act.raise ValueError
        end ;;
      let opened := SMTP N (server server_config) (port server_config) in
      Act.tell (smtplib_SMTP (server server_config) (port server_config)
                  opened) ;;
      Act.lift opened ;;
      self <- Act.get ;;
      Act.put {| connection := true;
                 SMTPClient.username := SMTPClient.username self;
                 is_connected := is_connected self |} ;;
      (if secure server_config then
         Act.tell (starttls (SMTP_starttls N)) ;;
         Act.lift (SMTP_starttls N)
       else Act.ret tt) ;;
      Act.tell (smtp_login username password
                  (SMTP_login N username password)) ;;
      Act.lift (SMTP_login N username password) ;;
      Act.put {| connection := true;
                 SMTPClient.username := Some username;
                 is_connected := true |} ;;
      Act.log INFO (Successfully_connected_to_SMTP_server_for username) ;;
      Act.ret true)
     (fun e =>
        Act.log ERROR (SMTP_connection_error e) ;;
        self <- Act.get ;;
        Act.put (set_is_connected false self) ;;
        Act.ret false))%act.

(** [disconnect] *)
Definition disconnect : Act t unit :=
  (self <- Act.get ;;
   if connection self then
     Act.try_except_of is_SMTPException
       (Act.tell (quit (SMTP_quit N)) ;;
        Act.lift (SMTP_quit N) ;;
        self <- Act.get ;;
        Act.put (set_is_connected false self) ;;
        Act.log INFO Disconnected_from_SMTP_server)
       (fun e => Act.log ERROR (Error_disconnecting_from_SMTP_server e))
   else Act.ret tt)%act.

(** [send_email] *)
Definition send_email (to_email subject body : string)
    (cc bcc : option (list string)) (reply_to : option string)
    (references : option (list (option string)))
    (in_reply_to : option string) : Act t (option string) :=
  (self <- Act.get ;;
   if negb (is_connected self) then
     Act.log ERROR Not_connected_to_SMTP_server ;; Act.ret None
   else if negb (validate_email to_email) then
     Act.log ERROR (Invalid_recipient_email_address to_email) ;; Act.ret None
   else
     Act.try_except_of is_SMTPException
       (username <-
          match SMTPClient.username self with
          | Some u => Act.ret u
          | None => Act.raise (Exn AttributeError)
          end ;;
        domain <-
          match split_on "@" username EmptyString with
          | _ :: domain :: _ => Act.ret domain
          | _ => Act.raise IndexError
          end ;;
        let msg_id := make_msgid L domain in
        let cc_header :=
          match cc with
          | Some (a :: l) => Some (join ", " (a :: l))
          | _ => None
          end in
        let reply_to_header := if truthy reply_to then reply_to else None in
        references_header <-
          (if nonempty_list references then
             match references with
             | Some parts =>
                 r <- Act.lift (join_optional " " parts) ;; Act.ret (Some r)
             | None => Act.ret None
             end
           else Act.ret None) ;;
        let in_reply_to_header :=
          if truthy in_reply_to then in_reply_to else None in
        let recipients :=
          ([to_email]
           ++ match cc with Some l => l | None => [] end
           ++ match bcc with Some l => l | None => [] end)%list in
        let msg :=
          {| From := username;
             To := to_email;
             Subject := subject;
             Date := formatdate L;
             Message_ID_ := msg_id;
             Cc := cc_header;
             Reply_To := reply_to_header;
             References := references_header;
             In_Reply_To := in_reply_to_header;
             MIMEText_body := body;
             MIMEText_subtype :=
               if Str.contains "<html>" (str_lower P body) then "html"
               else "plain";
             to_addrs := recipients |} in
        Act.tell (send_message msg (SMTP_send_message N msg)) ;;
        Act.lift (SMTP_send_message N msg) ;;
        Act.log INFO (Email_sent_successfully_to to_email) ;;
        Act.ret (Some (strip_chars ["<"; ">"]%char msg_id)))
       (fun e => Act.log ERROR (Error_sending_email e) ;; Act.ret None))%act.

(** [send_followup]; [original_email] always has the keys ['to'],
    ['subject'] and ['message_id'], as [EmailManager.send_followup] builds
    it. *)
Definition send_followup (original_email : OriginalEmail)
    (followup_template : string) (template_vars : list (string * string))
  : Act t (option string) :=
  (Act.try_except_of (fun e => is_KeyError e || is_ValueError e)
     (body <- Act.lift (str_format L followup_template template_vars) ;;
      let references := [original_id original_email] in
      send_email (to original_email)
        ("Re: " ++ original_subject original_email) body None None None
        (Some references) (original_id original_email))
     (fun e =>
        Act.log ERROR (Error_preparing_followup_email e) ;; Act.ret None))%act.

End Surroundings.

End SMTPClient.

(* ================================================================== *)
(** * More of imap_client.py and email_manager.py *)
(* ================================================================== *)

Module IMAPClient'.

(** The attributes of an [IMAPClient]. *)
Record t := {
  connection : bool;
  username : option string;
  is_connected : bool
}.

(** [IMAPClient()] *)
Definition __init__ : t :=
  {| connection := false; username := None; is_connected := false |}.

Definition set_is_connected (b : bool) (self : t) : t :=
  {| connection := connection self;
     username := username self;
     is_connected := b |}.

Section Surroundings.

Variable N : Servers.

(** [connect] *)
Definition connect (username password server_type : string) : Act t bool :=
  (Act.try_except_of (fun e => is_IMAP4_error e || is_ValueError e)
     (server_config <-
        match EMAIL_SERVERS server_type with
        | Some (imap, _) => Act.ret imap
        | None => Act.raise ValueError
        end ;;
      let opened := IMAP4_SSL N (server server_config) (port server_config) in
      Act.tell (imaplib_IMAP4_SSL (server server_config) (port server_config)
                  opened) ;;
      Act.lift opened ;;
      self <- Act.get ;;
      Act.put {| connection := true;
                 IMAPClient'.username := IMAPClient'.username self;
                 is_connected := is_connected self |} ;;
      Act.tell (imap_login username password
                  (IMAP4_login N username password)) ;;
      Act.lift (IMAP4_login N username password) ;;
      Act.put {| connection := true;
                 IMAPClient'.username := Some username;
                 is_connected := true |} ;;
      Act.log INFO (Successfully_connected_to_IMAP_server_for username) ;;
      Act.ret true)
     (fun e =>
        Act.log ERROR (IMAP_connection_error e) ;;
        self <- Act.get ;;
        Act.put (set_is_connected false self) ;;
        Act.ret false))%act.

(** [disconnect] *)
Definition disconnect : Act t unit :=
  (self <- Act.get ;;
   if connection self then
     Act.try_except_of is_IMAP4_error
       (Act.tell (logout (IMAP4_logout N)) ;;
        Act.lift (IMAP4_logout N) ;;
        self <- Act.get ;;
        Act.put (set_is_connected false self) ;;
        Act.log INFO Disconnected_from_IMAP_server)
       (fun e => Act.log ERROR (Error_disconnecting_from_IMAP_server e))
   else Act.ret tt)%act.

End Surroundings.

End IMAPClient'.

(** The two clients that an [EmailManager] holds. *)
Record Clients := {
  imap : IMAPClient'.t;
  smtp : SMTPClient.t
}.

(** A method of [self.imap], of [self.smtp], called by the manager. *)
Definition on_imap {A} (m : Act IMAPClient'.t A) : Act Clients A :=
  fun self =>
    let '(r, i, l) := m (imap self) in (r, {| imap := i; smtp := smtp self |}, l).

Definition on_smtp {A} (m : Act SMTPClient.t A) : Act Clients A :=
  fun self =>
    let '(r, s, l) := m (smtp self) in (r, {| imap := imap self; smtp := s |}, l).

Module EmailManager'.

(** [get_followup_status] *)
Definition get_followup_status (followup_id : pyval)
  : Act World (option FollowupStatus) :=
  (Act.try_except
     (followup <-
        Act.engine (DatabaseManager.get_followup_by_email_id followup_id) ;;
      match followup with
      | None => Act.ret None
      | Some followup =>
          Act.ret
            (Some {| status_id := Followup.id followup;
                     status_status := Followup.status followup;
                     status_followup_count := Followup.followup_count followup;
                     status_last_check := Followup.last_check_date followup |})
      end)
     (fun e => Act.log ERROR (Error_getting_followup_status e) ;;
               Act.ret None))%act.

Section Surroundings.

Variable N : Servers.

(** [connect] *)
Definition connect (username password server_type : string)
  : Act Clients bool :=
  (imap_success <- on_imap (IMAPClient'.connect N username password server_type) ;;
   smtp_success <- on_smtp (SMTPClient.connect N username password server_type) ;;
   if imap_success && smtp_success then
     Act.log INFO Successfully_connected_to_email_servers ;; Act.ret true
   else
     Act.log ERROR Failed_to_connect_to_one_or_both_email_servers ;;
     Act.ret false)%act.

(** [disconnect] *)
Definition disconnect : Act Clients unit :=
  (on_imap (IMAPClient'.disconnect N) ;;
   on_smtp (SMTPClient.disconnect N) ;;
   Act.log INFO Disconnected_from_email_servers)%act.

End Surroundings.

End EmailManager'.

(* ================================================================== *)
(** * More observations: what reaches the SMTP server *)
(* ================================================================== *)

(** The messages handed to [send_message], each with what the call came
    to. *)
Definition messages (effects : list effect)
  : list (Message * outcome unit) :=
  flat_map (fun e => match e with
                     | send_message msg r => [(msg, r)]
                     | _ => []
                     end) effects.

(** The calls on the mail servers. *)
Definition is_server_call (e : effect) : bool :=
  match e with
  | smtplib_SMTP _ _ _ | starttls _ | smtp_login _ _ _ | send_message _ _
  | quit _ | imaplib_IMAP4_SSL _ _ _ | imap_login _ _ _ | logout _ => true
  | _ => false
  end.

Definition server_calls (effects : list effect) : list effect :=
  filter is_server_call effects.

(** A user name with a domain: [username.split('@')[1]] exists. *)
Definition domain_of (username : string) : option string :=
  match split_on "@" username EmptyString with
  | _ :: domain :: _ => Some domain
  | _ => None
  end.

(** The exception that a call on a mail server raised, if it raised. *)
Definition raised (call : effect) : option exception :=
  match call with
  | smtplib_SMTP _ _ (Raises e) | starttls (Raises e)
  | smtp_login _ _ (Raises e) | send_message _ (Raises e)
  | quit (Raises e) | imaplib_IMAP4_SSL _ _ (Raises e)
  | imap_login _ _ (Raises e) | logout (Raises e) => Some e
  | _ => None
  end.

(** Servers and clients to run the code above with. *)
Module Servers_cases.

(** Every call returns. *)
Definition up : Servers :=
  {| SMTP := fun _ _ => Returns tt;
     SMTP_starttls := Returns tt;
     SMTP_login := fun _ _ => Returns tt;
     SMTP_send_message := fun _ => Returns tt;
     SMTP_quit := Returns tt;
     IMAP4_SSL := fun _ _ => Returns tt;
     IMAP4_login := fun _ _ => Returns tt;
     IMAP4_logout := Returns tt |}.

(** The SMTP server refuses the login; the IMAP server accepts it. *)
Definition smtp_login_refused : Servers :=
  {| SMTP := fun _ _ => Returns tt;
     SMTP_starttls := Returns tt;
     SMTP_login := fun _ _ => Raises SMTPException;
     SMTP_send_message := fun _ => Returns tt;
     SMTP_quit := Returns tt;
     IMAP4_SSL := fun _ _ => Returns tt;
     IMAP4_login := fun _ _ => Returns tt;
     IMAP4_logout := Returns tt |}.

(** The clients of a new [EmailManager]. *)
Definition new_clients : Clients :=
  {| imap := IMAPClient'.__init__; smtp := SMTPClient.__init__ |}.

End Servers_cases.

(** The body that [DEFAULT_FOLLOWUP_TEMPLATE] stands for. *)
Definition default_followup_body
    (DESTINATAIRE DATE_ENVOI SUJET EXPEDITEUR : string) : string :=
  newline ++ "Bonjour " ++ DESTINATAIRE ++ "," ++ newline
  ++ newline
  ++ "Je me permets de revenir vers vous concernant mon email du "
  ++ DATE_ENVOI ++ " à propos de " ++ quote ++ SUJET ++ quote ++ "."
  ++ newline
  ++ newline
  ++ "N'ayant pas reçu de réponse, je souhaitais m'assurer que vous aviez bien reçu mon message et que celui-ci avait retenu votre attention."
  ++ newline
  ++ newline
  ++ "Cordialement," ++ newline
  ++ EXPEDITEUR ++ newline.

(** The names that [DEFAULT_FOLLOWUP_TEMPLATE] mentions. *)
Definition template_names : list string :=
  ["DESTINATAIRE"; "DATE_ENVOI"; "SUJET"; "EXPEDITEUR"].

(* ================================================================== *)
(** * Checks of the library models *)
(* ================================================================== *)

Example md5_empty :
  MD5.hexdigest EmptyString = "d41d8cd98f00b204e9800998ecf8427e".
Proof. vm_compute. reflexivity. Qed.

Example md5_abc :
  MD5.hexdigest "abc" = "900150983cd24fb0d6963f7d28e17f72".
Proof. vm_compute. reflexivity. Qed.

Example md5_fox :
  MD5.hexdigest "The quick brown fox jumps over the lazy dog"
  = "9e107d9d372bb6826bd81d3542a419d6".
Proof. vm_compute. reflexivity. Qed.

Example md5_two_blocks :
  MD5.hexdigest
    "aaaaaaaaaaaaaaaaaaaaaaaaaaaaaaaaaaaaaaaaaaaaaaaaaaaaaaaaaaaaaaaa"
  = "014842d480b571495a4a0363793f7367".
Proof. vm_compute. reflexivity. Qed.

Example str_of_Z_samples :
  Str.of_Z 0 = "0" /\ Str.of_Z 7 = "7" /\ Str.of_Z 1024 = "1024" /\
  Str.of_Z (-35) = "-35" /\ Str.pad 4 2024 = "2024" /\ Str.pad 2 7 = "07" /\
  Str.pad 6 1500 = "001500".
Proof. vm_compute. repeat split. Qed.

Example scenario_key :
  generate_email_id "alice@example.com" "Project update" Scenario.sent_at
  = Scenario.key.
Proof. vm_compute. reflexivity. Qed.

Example calculate_followup_date_samples :
  calculate_followup_date Scenario.sent_at 7 = Ok Scenario.due_at
  /\ calculate_followup_date (Datetime 2024 2 25 10 0 0 0) 7
     = Ok (Datetime 2024 3 3 10 0 0 0)
  /\ calculate_followup_date (Datetime 2023 12 28 23 59 59 5) 7
     = Ok (Datetime 2024 1 4 23 59 59 5)
  /\ calculate_followup_date (Datetime 9999 12 28 0 0 0 0) 7
     = Raise OverflowError.
Proof. vm_compute. repeat split. Qed.

Example sanitize_subject_samples :
  sanitize_subject Ascii_platform.platform "RE:  Project update "
  = "Project update"
  /\ sanitize_subject Ascii_platform.platform "Forward:hello" = "hello"
  /\ sanitize_subject Ascii_platform.platform "  Re: hello" = "Re: hello"
  /\ sanitize_subject Ascii_platform.platform "Ref: hello" = "Ref: hello".
Proof. vm_compute. repeat split. Qed.

(* ================================================================== *)
(** * Histories and tables *)
(* ================================================================== *)

Lemma since_app (w w' : World) (new : list event) :
  history w' = (history w ++ new)%list -> since w w' = new.
Proof.
  intros H. unfold since. rewrite H.
  rewrite skipn_app, skipn_all, Nat.sub_diag. reflexivity.
Qed.

Lemma exceptions_logged_app (a b : list event) :
  exceptions_logged a -> exceptions_logged b -> exceptions_logged (a ++ b).
Proof.
  intros (Ha1 & Ha2) (Hb1 & Hb2). split.
  - intros q e Hin. apply in_app_or in Hin. apply in_or_app.
    destruct Hin as [Hin | Hin]; [left; eapply Ha1 | right; eapply Hb1];
      eassumption.
  - intros o vars e Hin. apply in_app_or in Hin. apply in_or_app.
    destruct Hin as [Hin | Hin]; [left; eapply Ha2 | right; eapply Hb2];
      eassumption.
Qed.

Lemma benign_pass_event (e : event) : benign e -> pass_event e.
Proof.
  destruct e as [l m | s | | | | ]; simpl; try tauto.
  destruct s; simpl; tauto.
Qed.

Lemma Forall_benign_pass (l : list event) :
  Forall benign l -> Forall pass_event l.
Proof. intros H. eapply Forall_impl; [| exact H]. apply benign_pass_event. Qed.

Lemma pass_no_reconciliation (l : list event) :
  Forall pass_event l -> reconciliations l = 0%nat.
Proof.
  unfold reconciliations. induction 1 as [| e l' He Hl IH]; [reflexivity |].
  destruct e as [lv m | s | | | | ]; simpl; try exact IH.
  destruct s; simpl in He; try contradiction; exact IH.
Qed.

Lemma pass_no_timer_call (l : list event) :
  Forall pass_event l -> timer_calls l = [].
Proof.
  unfold timer_calls. induction 1 as [| e l' He Hl IH]; [reflexivity |].
  destruct e as [lv m | s | | | | ]; simpl; try exact IH.
  simpl in He. contradiction.
Qed.

Lemma pass_no_error_notification (l : list event) :
  Forall pass_event l -> error_notifications l = [].
Proof.
  unfold error_notifications. induction 1 as [| e l' He Hl IH]; [reflexivity |].
  destruct e as [lv m | s | | | s | ]; simpl; try exact IH.
  simpl in He. contradiction.
Qed.

Lemma pass_no_maximum_record (l : list event) :
  Forall pass_event l -> maximum_reached_records l = 0%nat.
Proof.
  unfold maximum_reached_records.
  induction 1 as [| e l' He Hl IH]; [reflexivity |].
  destruct e as [lv m | s | | | | ]; simpl; try exact IH.
  destruct lv; simpl; try exact IH.
  destruct m; simpl in *; try exact IH.
  contradiction.
Qed.

Lemma pass_writes_allowed (l : list event) :
  Forall pass_event l ->
  Forall (fun s => s = "sent" \/ s = "responded") (statuses_written l).
Proof.
  unfold statuses_written. induction 1 as [| e l' He Hl IH]; [constructor |].
  destruct e as [lv m | s | | | | ]; simpl; try exact IH.
  destruct s; simpl in He; try contradiction; try exact IH.
  simpl. constructor; assumption.
Qed.

Lemma nothing_sent_app (a b : list event) :
  nothing_sent a -> nothing_sent b -> nothing_sent (a ++ b).
Proof.
  unfold nothing_sent, smtp_calls, statuses_written.
  intros (Ha1 & Ha2) (Hb1 & Hb2). rewrite !flat_map_app, Ha1, Hb1.
  split; [reflexivity |].
  intros Hin. apply in_app_or in Hin. tauto.
Qed.

Lemma nothing_sent_benign (l : list event) :
  Forall benign l -> nothing_sent l.
Proof.
  unfold nothing_sent, smtp_calls, statuses_written.
  induction 1 as [| e l' He Hl (IH1 & IH2)]; [split; [reflexivity | intros []] |].
  destruct e as [lv m | s | | | | ]; simpl in *; try contradiction;
    try (split; assumption).
  destruct s; simpl in *; try contradiction. split; assumption.
Qed.

Lemma pass_no_batch_error (l : list event) (e : exn) :
  Forall pass_event l ->
  ~ In (Log ERROR (Error_processing_pending_followups e)) l.
Proof.
  intros H Hin. rewrite Forall_forall in H. apply H in Hin. exact Hin.
Qed.

Lemma statuses_written_app (a b : list event) :
  statuses_written (a ++ b) = (statuses_written a ++ statuses_written b)%list.
Proof. apply flat_map_app. Qed.

Lemma smtp_calls_app (a b : list event) :
  smtp_calls (a ++ b) = (smtp_calls a ++ smtp_calls b)%list.
Proof. apply flat_map_app. Qed.

Lemma followups_sent_app (a b : list event) :
  followups_sent (a ++ b) = (followups_sent a ++ followups_sent b)%list.
Proof. apply flat_map_app. Qed.

(** Benign events write no status and call no SMTP client. *)
Lemma benign_is_quiet (l : list event) :
  Forall benign l ->
  statuses_written l = [] /\ smtp_calls l = [] /\ followups_sent l = [].
Proof.
  unfold statuses_written, smtp_calls, followups_sent.
  induction 1 as [| e l' He Hl (IH1 & IH2 & IH3)]; [repeat split |].
  destruct e as [lv m | s | | | | ]; simpl in *; try contradiction;
    try (repeat split; assumption).
  destruct s; simpl in *; try contradiction. repeat split; assumption.
Qed.

Lemma forward_refl (rows : list Followup.t) : forward rows rows.
Proof. intros n r Hn. exists r. tauto. Qed.

Lemma forward_trans (a b c : list Followup.t) :
  forward a b -> forward b c -> forward a c.
Proof.
  intros Hab Hbc n r Hn.
  destruct (Hab n r Hn) as (r1 & Hn1 & Hid1 & Hk1 & Hs1).
  destruct (Hbc n r1 Hn1) as (r2 & Hn2 & Hid2 & Hk2 & Hs2).
  exists r2. repeat split; try congruence.
  destruct Hs2 as [Hs2 | [Hs2 | Hs2]]; [rewrite Hs2; exact Hs1 | tauto | tauto].
Qed.

Lemma forward_insert (rows : list Followup.t) (row : Followup.t) :
  forward rows (rows ++ [row]).
Proof.
  intros n r Hn. exists r. repeat split; try tauto.
  rewrite nth_error_app1; [exact Hn |].
  apply nth_error_Some. congruence.
Qed.

Lemma forward_update (env : Env) (followup_id : pyval) (status : string)
    (increment_count : bool) (rows : list Followup.t) :
  status = "sent" \/ status = "responded" ->
  forward rows (rows_after_update env followup_id status increment_count rows).
Proof.
  intros Hs. unfold rows_after_update.
  destruct (DatabaseManager.bind_parameter followup_id) as [p | e];
    [| apply forward_refl].
  intros n r Hn. rewrite nth_error_map, Hn. simpl.
  eexists. split; [reflexivity |].
  destruct (DatabaseManager.id_equals _ _ _); simpl; tauto.
Qed.

(** A row whose status is ["responded"] or ["failed"] is never
    ["pending"] again. *)
Lemma forward_never_back (rows rows' : list Followup.t) (n : nat)
    (r r' : Followup.t) :
  forward rows rows' ->
  nth_error rows n = Some r ->
  nth_error rows' n = Some r' ->
  Followup.status r = "responded" \/ Followup.status r = "failed" ->
  Followup.status r' <> "pending".
Proof.
  intros Hf Hn Hn' Hs.
  destruct (Hf n r Hn) as (r1 & Hn1 & _ & _ & H1).
  assert (r1 = r') by congruence. subst r1.
  destruct Hs as [Hs | Hs]; rewrite Hs in H1;
    destruct H1 as [H1 | [H1 | H1]]; rewrite H1; discriminate.
Qed.

(* ================================================================== *)
(** * What one run of each operation does *)
(* ================================================================== *)

Lemma bind_parameter_raises (v : pyval) (e : exn) :
  DatabaseManager.bind_parameter v = Raise e -> e = OverflowError.
Proof.
  destruct v; cbn; try discriminate.
  destruct (_ && _); [discriminate | congruence].
Qed.

Ltac logged_in Hin :=
  simpl in Hin;
  repeat (destruct Hin as [Hin | Hin];
          [ try discriminate; try (inversion Hin; subst; simpl; auto 10) | ]);
  try contradiction.

Ltac logged :=
  let Hin := fresh "Hin" in
  split; [intros ?q ?e Hin | intros ?o ?vars ?e Hin]; logged_in Hin.

Ltac run_done b :=
  exists b; eexists; repeat rewrite <- app_assoc; simpl;
  split; [reflexivity |]; split; [repeat constructor | logged].

(** [check_for_responses] returns a Boolean, whatever happens inside; it
    changes the table only when it returns [True], and then by the one
    [UPDATE ... 'responded' ... WHERE id = followup_id]. *)
Lemma check_for_responses_run (env : Env) (followup_id : pyval) (w : World) :
  exists (b : bool) rest,
    EmailManager.check_for_responses env followup_id w
    = (Ok b,
       {| followups :=
            if b then rows_after_update env followup_id "responded" false
                        (followups w)
            else followups w;
          sqlite_sequence := sqlite_sequence w;
          history :=
            (history w ++ Sql (SELECT_by_email_id followup_id) :: rest)%list |})
    /\ (if b then
          exists q ms,
            rest = [ Imap q (Fetched ms);
                     Sql (UPDATE_status followup_id "responded" false);
                     Log DEBUG (Updated_followup_status followup_id "responded");
                     Log INFO (Response_found_for_followup followup_id) ]
        else Forall benign rest)
    /\ exceptions_logged rest.
Proof.
  unfold EmailManager.check_for_responses, try_except, bind,
    DatabaseManager.get_followup_by_email_id, try_except_sqlite3_Error, bind,
    lift, get_followups, ret, log, emit.
  cbn.
  destruct (DatabaseManager.bind_parameter followup_id) as [p | e] eqn:Hb;
    [| apply bind_parameter_raises in Hb; subst e]; cbn;
    [| run_done false].
  destruct (find _ (followups w)) as [f |]; cbn; [| run_done false].
  unfold IMAPClient.check_for_replies.
  destruct (imap_is_connected env); cbn;
    [| unfold log, emit, bind, ret; cbn; run_done false].
  unfold bind, get_history, emit, ret, log, raise, emit. cbn.
  destruct (imap_search env _ _) as [ms | | e]; cbn;
    [| run_done false | run_done false].
  destruct (filter _ ms); cbn; [run_done false |].
  unfold DatabaseManager.update_followup_status, try_except_sqlite3_Error,
    bind, emit, lift, get_followups, set_followups, log, emit, ret.
  cbn. rewrite Hb. cbn.
  exists true. eexists. repeat rewrite <- app_assoc. cbn.
  unfold rows_after_update. rewrite Hb.
  split; [reflexivity |]. split; [do 2 eexists; reflexivity | logged].
Qed.

(** [send_followup] returns a Boolean too, and goes one of three ways:
    [False] with the table as it was; [True] after a response was found
    and recorded, the SMTP client not called; [True] after the SMTP client
    returned a message id, the record updated to ["sent"].  The client is
    reached only if [format_date] accepts what the TIMESTAMP cells come
    back as. *)
Lemma send_followup_run (env : Env) (followup_id : pyval) (w : World) :
  exists (b : bool) rows rest,
    EmailManager.send_followup env followup_id w
    = (Ok b,
       {| followups := rows;
          sqlite_sequence := sqlite_sequence w;
          history :=
            (history w ++ Sql (SELECT_by_email_id followup_id) :: rest)%list |})
    /\ Forall pass_event rest
    /\ exceptions_logged rest
    /\ (nothing_sent rest \/ dates_come_back_formattable (platform env))
    /\ ((b = false
         /\ rows = followups w
         /\ statuses_written rest = []
         /\ followups_sent rest = [])
        \/ (b = true
            /\ rows = rows_after_update env followup_id "responded" false
                        (followups w)
            /\ In (Log INFO (Response_already_received_for_followup followup_id))
                 rest
            /\ smtp_calls rest = [])
        \/ (b = true
            /\ rows = rows_after_update env followup_id "sent" true (followups w)
            /\ exists h o vars c m,
                 smtp_send_followup env h o vars = Message_ID (String c m))).
Proof.
  unfold EmailManager.send_followup, try_except, bind,
    DatabaseManager.get_followup_by_email_id, try_except_sqlite3_Error, bind,
    lift, get_followups, ret, log, emit.
  cbn -[EmailManager.check_for_responses].
  destruct (DatabaseManager.bind_parameter followup_id) as [p | e] eqn:Hb;
    [| apply bind_parameter_raises in Hb; subst e];
    cbn -[EmailManager.check_for_responses].
  2:{ exists false. do 2 eexists. repeat rewrite <- app_assoc. simpl.
      split; [reflexivity |]. split; [repeat constructor |].
      split; [logged |].
      split; [left; split; [reflexivity | intros []] |].
      left. repeat split; reflexivity. }
  destruct (find _ (followups w)) as [f |];
    cbn -[EmailManager.check_for_responses].
  2:{ exists false. do 2 eexists. repeat rewrite <- app_assoc. simpl.
      split; [reflexivity |]. split; [repeat constructor |].
      split; [logged |].
      split; [left; split; [reflexivity | intros []] |].
      left. repeat split; reflexivity. }
  match goal with
  | |- context [EmailManager.check_for_responses env followup_id ?w1] =>
      destruct (check_for_responses_run env followup_id w1)
        as (b & rest & Heq & Hrest & Hlog); rewrite Heq
  end.
  cbn. destruct b; cbn.
  - (* a response was found *)
    destruct Hrest as (q & ms & ->).
    exists true. do 2 eexists. repeat rewrite <- app_assoc. cbn.
    split; [reflexivity |].
    split; [repeat constructor; right; reflexivity |].
    split; [logged |].
    split; [left; split; [reflexivity |]; simpl; intros [H | []]; discriminate |].
    right. left. split; [reflexivity |]. split; [reflexivity |].
    split; [simpl; auto 10 | reflexivity].
  - (* no response: the template variables, then the SMTP client *)
    set (looked := (Sql (SELECT_by_email_id followup_id) :: rest)%list).
    assert (Hbenign : Forall benign looked)
      by (constructor; [exact I | exact Hrest]).
    destruct (benign_is_quiet Hbenign) as (Hq1 & Hq2 & Hq3).
    assert (Hlog' : exceptions_logged looked).
    { change (exceptions_logged
                ([Sql (SELECT_by_email_id followup_id)] ++ rest)%list).
      apply exceptions_logged_app; [logged | exact Hlog]. }
    assert (Hfalse : forall tail,
      Forall pass_event tail ->
      exceptions_logged tail ->
      nothing_sent tail \/ dates_come_back_formattable (platform env) ->
      statuses_written tail = [] ->
      followups_sent tail = [] ->
      Forall pass_event (looked ++ tail)
      /\ exceptions_logged (looked ++ tail)
      /\ (nothing_sent (looked ++ tail)
          \/ dates_come_back_formattable (platform env))
      /\ ((false = false
           /\ followups w = followups w
           /\ statuses_written (looked ++ tail) = []
           /\ followups_sent (looked ++ tail) = [])
          \/ (false = true
              /\ followups w
                 = rows_after_update env followup_id "responded" false
                     (followups w)
              /\ In (Log INFO
                       (Response_already_received_for_followup followup_id))
                   (looked ++ tail)
              /\ smtp_calls (looked ++ tail) = [])
          \/ (false = true
              /\ followups w
                 = rows_after_update env followup_id "sent" true (followups w)
              /\ exists h o vars c m,
                   smtp_send_followup env h o vars = Message_ID (String c m)))).
    { intros tail Hp Hl Hn Hs Hf.
      split; [apply Forall_app; split;
              [apply Forall_benign_pass; exact Hbenign | exact Hp] |].
      split; [apply exceptions_logged_app; assumption |].
      split; [destruct Hn as [Hn | Hn]; [left | right; exact Hn];
              apply nothing_sent_app;
              [apply nothing_sent_benign; exact Hbenign | exact Hn] |].
      left. rewrite statuses_written_app, followups_sent_app, Hq1, Hq3, Hs, Hf.
      repeat split; reflexivity. }
    destruct (format_date (timestamp_cell (platform env) (Followup.sent_date f)))
      as [d1 | e1] eqn:Hd1; cbn.
    2:{ exists false, (followups w),
          (looked ++ [Log ERROR (Error_sending_followup e1)])%list.
        split; [repeat rewrite <- app_assoc; reflexivity |].
        apply (Hfalse [Log ERROR (Error_sending_followup e1)]);
          [repeat constructor | logged
          | left; apply nothing_sent_benign; repeat constructor
          | reflexivity | reflexivity]. }
    assert (Hdates : dates_come_back_formattable (platform env))
      by (eexists; eexists; exact Hd1).
    destruct (format_date
                (timestamp_cell (platform env) (Followup.followup_date f)))
      as [d2 | e2]; cbn.
    2:{ exists false, (followups w),
          (looked ++ [Log ERROR (Error_sending_followup e2)])%list.
        split; [repeat rewrite <- app_assoc; reflexivity |].
        apply (Hfalse [Log ERROR (Error_sending_followup e2)]);
          [repeat constructor | logged
          | left; apply nothing_sent_benign; repeat constructor
          | reflexivity | reflexivity]. }
    unfold EmailManager.dispatch, EmailManager.smtp_send, bind, get_history,
      emit, ret, raise, log, emit.
    cbn.
    match goal with
    | |- context [smtp_send_followup env ?h ?o ?vars] =>
        set (o0 := o); set (vars0 := vars);
        destruct (smtp_send_followup env h o0 vars0) as [m | | e] eqn:Hsmtp
    end; cbn.
    + destruct m as [| c m]; cbn.
      * exists false, (followups w),
          (looked ++ [Smtp o0 vars0 (Message_ID EmptyString);
                    Log ERROR (Failed_to_send_followup_for_ID followup_id)])%list.
        split; [repeat rewrite <- app_assoc; reflexivity |].
        apply (Hfalse [Smtp o0 vars0 (Message_ID EmptyString);
                       Log ERROR (Failed_to_send_followup_for_ID followup_id)]);
          [repeat constructor | logged | right; exact Hdates
          | reflexivity | reflexivity].
      * unfold DatabaseManager.update_followup_status,
          try_except_sqlite3_Error, bind, emit, lift, get_followups,
          set_followups, log, emit, ret.
        cbn. rewrite Hb. cbn.
        exists true,
          (rows_after_update env followup_id "sent" true (followups w)),
          (looked ++ [Smtp o0 vars0 (Message_ID (String c m));
                    Sql (UPDATE_status followup_id "sent" true);
                    Log DEBUG (Updated_followup_status followup_id "sent");
                    Log INFO (Followup_sent_successfully_for_ID followup_id)])%list.
        split; [unfold rows_after_update; rewrite Hb;
                repeat rewrite <- app_assoc; reflexivity |].
        split; [apply Forall_app; split;
                [apply Forall_benign_pass; exact Hbenign
                | repeat constructor; left; reflexivity] |].
        split; [apply exceptions_logged_app; [exact Hlog' | logged] |].
        split; [right; exact Hdates |].
        right. right. split; [reflexivity |]. split; [reflexivity |].
        do 5 eexists. exact Hsmtp.
    + exists false, (followups w),
        (looked ++ [Smtp o0 vars0 Not_sent;
                  Log ERROR (Failed_to_send_followup_for_ID followup_id)])%list.
      split; [repeat rewrite <- app_assoc; reflexivity |].
      apply (Hfalse [Smtp o0 vars0 Not_sent;
                     Log ERROR (Failed_to_send_followup_for_ID followup_id)]);
        [repeat constructor | logged | right; exact Hdates
        | reflexivity | reflexivity].
    + exists false, (followups w),
        (looked ++ [Smtp o0 vars0 (Smtp_raises e);
                  Log ERROR (Error_sending_followup e)])%list.
      split; [repeat rewrite <- app_assoc; reflexivity |].
      apply (Hfalse [Smtp o0 vars0 (Smtp_raises e);
                     Log ERROR (Error_sending_followup e)]);
        [repeat constructor | logged | right; exact Hdates
        | reflexivity | reflexivity].
Qed.

(** [EmailManager.add_followup]: the three ways it can go. *)
Lemma add_followup_run (env : Env) (email_data : EmailData.t) (w : World) :
  let k := generate_email_id (EmailData.sender email_data)
             (EmailData.subject email_data) (EmailData.sent_date email_data) in
  match calculate_followup_date (EmailData.sent_date email_data)
          (EmailData.delay_days email_data) with
  | Raise e =>
      EmailManager.add_followup env email_data w
      = (Ok None,
         {| followups := followups w;
            sqlite_sequence := sqlite_sequence w;
            history := (history w ++ [Log ERROR (Error_adding_followup e)])%list |})
  | Ok followup_date =>
      if existsb (fun r => String.eqb (Followup.email_id r) k) (followups w)
      then
        EmailManager.add_followup env email_data w
        = (Ok None,
           {| followups := followups w;
              sqlite_sequence := sqlite_sequence w;
              history :=
                (history w ++
                 [ Sql (INSERT_followup k);
                   Log ERROR (Error_adding_followup IntegrityError);
                   Log ERROR (Error_adding_followup IntegrityError) ])%list |})
      else
        exists row,
          Followup.email_id row = k
          /\ Followup.status row = "pending"
          /\ Followup.followup_count row = 0
          /\ Followup.followup_date row = Calendar.isoformat " " followup_date
          /\ EmailManager.add_followup env email_data w
             = (Ok (Some (Followup.id row)),
                {| followups := (followups w ++ [row])%list;
                   sqlite_sequence := Followup.id row;
                   history :=
                     (history w ++
                      [ Sql (INSERT_followup k);
                        Log INFO (Added_new_followup_with_ID (Followup.id row));
                        Log INFO (Added_new_followup_with_ID (Followup.id row))
                      ])%list |})
  end.
Proof.
  intros k.
  unfold EmailManager.add_followup, try_except, bind, lift.
  destruct (calculate_followup_date _ _) as [fd | e]; cbn.
  - unfold DatabaseManager.add_followup, try_except_sqlite3_Error, bind, emit,
      get_followups, get_sqlite_sequence, set_table, raise, log, emit, ret.
    cbn. fold k.
    destruct (existsb _ (followups w)); cbn.
    + repeat rewrite <- app_assoc. reflexivity.
    + repeat rewrite <- app_assoc. cbn.
      match goal with
      | |- context [(followups w ++ [?row])%list] => exists row
      end.
      repeat (split; [reflexivity |]). reflexivity.
  - reflexivity.
Qed.

Lemma nothing_sent_or_app (P : Platform) (a b : list event) :
  nothing_sent a \/ dates_come_back_formattable P ->
  nothing_sent b \/ dates_come_back_formattable P ->
  nothing_sent (a ++ b) \/ dates_come_back_formattable P.
Proof.
  intros [Ha | Ha] [Hb | Hb]; try (right; assumption).
  left. apply nothing_sent_app; assumption.
Qed.

(** One pass: every pending record is looked up, whatever happened to the
    records before it, and the table only moves forward. *)
Lemma for_each_pending_run (env : Env) (pending : list Followup.t) :
  forall w,
  exists w' new,
    for_each pending
      (fun followup =>
         let followup_id := PyInt (Followup.id followup) in
         responded <- EmailManager.check_for_responses env followup_id ;;
         if responded : bool then ret tt
         else EmailManager.send_followup env followup_id ;; ret tt) w
    = (Ok tt, w')
    /\ history w' = (history w ++ new)%list
    /\ sqlite_sequence w' = sqlite_sequence w
    /\ forward (followups w) (followups w')
    /\ Forall pass_event new
    /\ exceptions_logged new
    /\ (nothing_sent new \/ dates_come_back_formattable (platform env))
    /\ (forall r, In r pending ->
                  In (Sql (SELECT_by_email_id (PyInt (Followup.id r)))) new).
Proof.
  induction pending as [| r pending IH]; intros w.
  - exists w, []. cbn. rewrite app_nil_r.
    split; [reflexivity |]. split; [reflexivity |]. split; [reflexivity |].
    split; [apply forward_refl |]. split; [constructor |].
    split; [split; [intros q e [] | intros o vars e []] |].
    split; [left; split; [reflexivity | intros []] | intros r []].
  - cbn -[EmailManager.check_for_responses EmailManager.send_followup].
    unfold bind at 1. unfold bind at 1.
    destruct (check_for_responses_run env (PyInt (Followup.id r)) w)
      as (b & rest & Heq & Hrest & Hlog).
    rewrite Heq.
    set (looked := (Sql (SELECT_by_email_id (PyInt (Followup.id r))) :: rest)%list).
    assert (Hlog' : exceptions_logged looked).
    { change (exceptions_logged
                ([Sql (SELECT_by_email_id (PyInt (Followup.id r)))] ++ rest)%list).
      apply exceptions_logged_app; [logged | exact Hlog]. }
    destruct b.
    + cbn -[for_each EmailManager.check_for_responses
              EmailManager.send_followup].
      match goal with
      | |- context [for_each pending ?body ?w1] =>
          destruct (IH w1)
            as (w' & new & Hrun & Hh & Hs & Hf & Hp & Hl & Hn & Hin)
      end.
      exists w', (looked ++ new)%list.
      split; [exact Hrun |].
      cbn in Hh, Hs, Hf.
      split; [rewrite Hh, <- app_assoc; reflexivity |].
      split; [exact Hs |].
      split; [eapply forward_trans; [| exact Hf]; apply forward_update; tauto |].
      destruct Hrest as (q & ms & Hrest).
      split; [apply Forall_app; split; [| exact Hp];
              subst looked rest; repeat constructor; right; reflexivity |].
      split; [apply exceptions_logged_app; assumption |].
      split.
      * apply nothing_sent_or_app; [| exact Hn].
        left. subst looked rest. split; [reflexivity |].
        simpl. intros [H | []]. discriminate H.
      * intros r0 [<- | Hr0]; [left; reflexivity |].
        apply in_or_app. right. apply Hin. exact Hr0.
    + cbn -[for_each EmailManager.check_for_responses
              EmailManager.send_followup].
      unfold bind at 1. unfold bind at 1.
      match goal with
      | |- context [EmailManager.send_followup env _ ?w1] =>
          destruct (send_followup_run env (PyInt (Followup.id r)) w1)
            as (b2 & rows2 & rest2 & Heq2 & Hp2 & Hlog2 & Hn2 & Hcases)
      end.
      rewrite Heq2.
      cbn -[for_each EmailManager.check_for_responses
              EmailManager.send_followup].
      match goal with
      | |- context [for_each pending ?body ?w1] =>
          destruct (IH w1)
            as (w' & new & Hrun & Hh & Hs & Hf & Hp & Hl & Hn & Hin)
      end.
      set (sent := (Sql (SELECT_by_email_id (PyInt (Followup.id r))) :: rest2)%list).
      exists w', (looked ++ sent ++ new)%list.
      split; [exact Hrun |].
      cbn in Hh, Hs, Hf, Hcases.
      split; [rewrite Hh; repeat rewrite <- app_assoc; reflexivity |].
      split; [exact Hs |].
      split.
      { eapply forward_trans; [| exact Hf].
        destruct Hcases as [(_ & -> & _) | [(_ & -> & _) | (_ & -> & _)]];
          [apply forward_refl | apply forward_update; tauto
          | apply forward_update; tauto]. }
      assert (Hsent_log : exceptions_logged sent).
      { change (exceptions_logged
                  ([Sql (SELECT_by_email_id (PyInt (Followup.id r)))]
                   ++ rest2)%list).
        apply exceptions_logged_app; [logged | exact Hlog2]. }
      split.
      { apply Forall_app. split.
        - constructor; [exact I | apply Forall_benign_pass; exact Hrest].
        - apply Forall_app. split; [| exact Hp].
          constructor; [exact I | exact Hp2]. }
      split; [repeat apply exceptions_logged_app; assumption |].
      split.
      { apply nothing_sent_or_app;
          [left; apply nothing_sent_benign; constructor; [exact I | exact Hrest] |].
        apply nothing_sent_or_app; [| exact Hn].
        destruct Hn2 as [Hn2 | Hn2]; [left | right; exact Hn2].
        change (nothing_sent
                  ([Sql (SELECT_by_email_id (PyInt (Followup.id r)))]
                   ++ rest2)%list).
        apply nothing_sent_app; [| exact Hn2].
        apply nothing_sent_benign. repeat constructor. }
      intros r0 [<- | Hr0]; [left; reflexivity |].
      apply in_or_app. right. apply in_or_app. right. apply Hin. exact Hr0.
Qed.

Lemma process_pending_followups_run (env : Env) (w : World) :
  exists w' new,
    EmailManager.process_pending_followups env w = (Ok tt, w')
    /\ history w' = (history w ++ Sql SELECT_pending :: new)%list
    /\ sqlite_sequence w' = sqlite_sequence w
    /\ forward (followups w) (followups w')
    /\ Forall pass_event new
    /\ exceptions_logged new
    /\ (nothing_sent new \/ dates_come_back_formattable (platform env))
    /\ (forall r, In r (DatabaseManager.pending env (followups w)) ->
                  In (Sql (SELECT_by_email_id (PyInt (Followup.id r)))) new).
Proof.
  unfold EmailManager.process_pending_followups, try_except,
    DatabaseManager.get_pending_followups, try_except_sqlite3_Error.
  unfold bind at 1. unfold bind at 1. unfold bind at 1.
  cbn -[for_each EmailManager.check_for_responses EmailManager.send_followup
          DatabaseManager.pending].
  match goal with
  | |- context [for_each ?p ?body ?w1] =>
      destruct (for_each_pending_run env p w1)
        as (w' & new & Hrun & Hh & Hs & Hf & Hp & Hl & Hn & Hin);
      assert (Hrun' : for_each p body w1 = (Ok tt, w')) by exact Hrun;
      rewrite Hrun'
  end.
  exists w', new. cbn in Hh, Hs, Hf.
  split; [reflexivity |].
  split; [rewrite Hh, <- app_assoc; reflexivity |].
  repeat split; solve [assumption | apply Hl].
Qed.

(* ================================================================== *)
(** * The lifecycle engine *)
(* ================================================================== *)

(** C2.  After a registration that succeeded, a second registration with the
    same sender, subject and sent date (whatever its recipient and delay)
    is rejected: [add_followup] returns [None], the table and the
    AUTOINCREMENT counter are as they were, so no second record exists and
    no existing record changed; and when the second registration's own
    follow-up date is computable, what rejected it is the store's
    [IntegrityError] on the duplicate key, logged by the store and by the
    engine. *)
Theorem C2_duplicate_registration_rejected
    (env env' : Env) (first second : EmailData.t) (w w1 : World)
    (followup_id : Z) :
  EmailManager.add_followup env first w = (Ok (Some followup_id), w1) ->
  EmailData.sender second = EmailData.sender first ->
  EmailData.subject second = EmailData.subject first ->
  EmailData.sent_date second = EmailData.sent_date first ->
  let again := EmailManager.add_followup env' second w1 in
  fst again = Ok None
  /\ followups (snd again) = followups w1
  /\ sqlite_sequence (snd again) = sqlite_sequence w1
  /\ inserts (since w1 (snd again))
     = match calculate_followup_date (EmailData.sent_date second)
               (EmailData.delay_days second) with
       | Ok _ => [generate_email_id (EmailData.sender first)
                    (EmailData.subject first) (EmailData.sent_date first)]
       | Raise _ => []
       end
  /\ (forall d,
        calculate_followup_date (EmailData.sent_date second)
          (EmailData.delay_days second) = Ok d ->
        since w1 (snd again)
        = [ Sql (INSERT_followup
                   (generate_email_id (EmailData.sender first)
                      (EmailData.subject first) (EmailData.sent_date first)));
            Log ERROR (Error_adding_followup IntegrityError);
            Log ERROR (Error_adding_followup IntegrityError) ]).
Proof.
  intros Hfirst Hsender Hsubject Hdate again.
  assert (Hdup :
    existsb (fun r => String.eqb (Followup.email_id r)
                        (generate_email_id (EmailData.sender first)
                           (EmailData.subject first)
                           (EmailData.sent_date first)))
      (followups w1) = true).
  { pose proof (add_followup_run env first w) as Hrun. cbv zeta in Hrun.
    destruct (calculate_followup_date _ _) as [d | e];
      [| rewrite Hrun in Hfirst; discriminate].
    destruct (existsb _ (followups w));
      [rewrite Hrun in Hfirst; discriminate |].
    destruct Hrun as (row & Hk & _ & _ & _ & Hrun).
    rewrite Hrun in Hfirst. injection Hfirst as _ <-. cbn.
    rewrite existsb_app. cbn. rewrite Hk, String.eqb_refl.
    rewrite orb_true_r. reflexivity. }
  pose proof (add_followup_run env' second w1) as Hrun. cbv zeta in Hrun.
  rewrite Hsender, Hsubject, Hdate in Hrun.
  subst again. rewrite Hdate.
  destruct (calculate_followup_date (EmailData.sent_date first)
              (EmailData.delay_days second)) as [d | e].
  - rewrite Hdup in Hrun. rewrite Hrun. cbn.
    repeat split; try reflexivity.
    + erewrite since_app; [| cbn; reflexivity]. reflexivity.
    + intros _ _. erewrite since_app; [| cbn; reflexivity]. reflexivity.
  - rewrite Hrun. cbn. repeat split; try reflexivity.
    + erewrite since_app; [| cbn; reflexivity]. reflexivity.
    + intros d Hd. discriminate.
Qed.

Lemma C2_witness :
  EmailManager.add_followup
    (Scenario.env Scenario.sent_at [] Scenario.delivered)
    Scenario.registration Scenario.empty
  = (Ok (Some 1), Scenario.registered)
  /\ fst (EmailManager.add_followup
            Scenario.due
            Scenario.registration_again Scenario.registered) = Ok None
  /\ followups
       (snd (EmailManager.add_followup
               Scenario.due
               Scenario.registration_again Scenario.registered))
     = followups Scenario.registered.
Proof.
  assert (H : EmailManager.add_followup
                (Scenario.env Scenario.sent_at [] Scenario.delivered)
                Scenario.registration Scenario.empty
              = (Ok (Some 1), Scenario.registered))
    by (vm_compute; reflexivity).
  split; [exact H |].
  pose proof (@C2_duplicate_registration_rejected
                (Scenario.env Scenario.sent_at [] Scenario.delivered)
                Scenario.due
                Scenario.registration Scenario.registration_again
                Scenario.empty Scenario.registered 1
                H eq_refl eq_refl eq_refl) as C.
  split; [exact (proj1 C) | exact (proj1 (proj2 C))].
Defined.

(** Both operations on an identifier that the lookup does not find: each
    executes the one [SELECT], writes one log record and returns [False].
    The record says "Followup not found", or names the [OverflowError] of
    an [int] that SQLite cannot take. *)
Lemma lookup_fails_run (env : Env) (followup_id : pyval) (w : World) :
  stored_record (followups w) followup_id = None ->
  EmailManager.check_for_responses env followup_id w
  = (Ok false,
     {| followups := followups w;
        sqlite_sequence := sqlite_sequence w;
        history :=
          (history w ++
           [ Sql (SELECT_by_email_id followup_id);
             Log ERROR
               match DatabaseManager.bind_parameter followup_id with
               | Ok _ => Followup_not_found followup_id
               | Raise e => Error_checking_for_responses e
               end ])%list |})
  /\ EmailManager.send_followup env followup_id w
     = (Ok false,
        {| followups := followups w;
           sqlite_sequence := sqlite_sequence w;
           history :=
             (history w ++
              [ Sql (SELECT_by_email_id followup_id);
                Log ERROR
                  match DatabaseManager.bind_parameter followup_id with
                  | Ok _ => Followup_not_found followup_id
                  | Raise e => Error_sending_followup e
                  end ])%list |}).
Proof.
  intros Hnone. unfold stored_record in Hnone.
  unfold EmailManager.check_for_responses, EmailManager.send_followup,
    try_except, bind, DatabaseManager.get_followup_by_email_id,
    try_except_sqlite3_Error, bind, lift, get_followups, ret, log, emit.
  cbn -[EmailManager.check_for_responses].
  destruct (DatabaseManager.bind_parameter followup_id) as [p | e] eqn:Hb;
    [| apply bind_parameter_raises in Hb; subst e];
    cbn -[EmailManager.check_for_responses].
  - rewrite Hnone. cbn. rewrite <- !app_assoc. split; reflexivity.
  - rewrite <- !app_assoc. split; reflexivity.
Qed.

(** C10.  For an identifier under which [get_followup_by_email_id] finds no
    row, [check_for_responses] and [send_followup] both return [False]
    (they return, they do not raise), leave the table and the counter as
    they were, and execute no [UPDATE] and hand nothing to the SMTP
    client. *)
Theorem C10_unknown_identifier_is_a_no_op
    (env : Env) (followup_id : pyval) (w : World) :
  stored_record (followups w) followup_id = None ->
  let checked := EmailManager.check_for_responses env followup_id w in
  let sent := EmailManager.send_followup env followup_id w in
  (fst checked = Ok false
   /\ followups (snd checked) = followups w
   /\ sqlite_sequence (snd checked) = sqlite_sequence w
   /\ statuses_written (since w (snd checked)) = []
   /\ smtp_calls (since w (snd checked)) = [])
  /\ (fst sent = Ok false
      /\ followups (snd sent) = followups w
      /\ sqlite_sequence (snd sent) = sqlite_sequence w
      /\ statuses_written (since w (snd sent)) = []
      /\ smtp_calls (since w (snd sent)) = []).
Proof.
  intros Hnone checked sent. subst checked sent.
  destruct (@lookup_fails_run env followup_id w Hnone) as (-> & ->). cbn.
  split; (repeat split; try reflexivity);
    (erewrite since_app; [| cbn; reflexivity]); reflexivity.
Qed.

Lemma C10_witness :
  stored_record (followups Scenario.registered) (PyInt 1) = None
  /\ fst (EmailManager.check_for_responses
            (Scenario.env Scenario.due_at [Scenario.genuine_reply]
               Scenario.delivered)
            (PyInt 1) Scenario.registered) = Ok false
  /\ fst (EmailManager.send_followup
            (Scenario.env Scenario.due_at [Scenario.genuine_reply]
               Scenario.delivered)
            (PyInt 1) Scenario.registered) = Ok false.
Proof.
  assert (H : stored_record (followups Scenario.registered) (PyInt 1) = None)
    by (vm_compute; reflexivity).
  split; [exact H |].
  pose proof (@C10_unknown_identifier_is_a_no_op
                (Scenario.env Scenario.due_at [Scenario.genuine_reply]
                   Scenario.delivered)
                (PyInt 1) Scenario.registered H) as C.
  split; [exact (proj1 (proj1 C)) | exact (proj1 (proj2 C))].
Defined.

(** The code of [send_followup] from the call of the SMTP client to the
    end, under the [except] clause of the function. *)
Lemma dispatch_under_failing_sender (env : Env) (followup_id : pyval)
    (followup : Followup.t) (template_vars : list (string * string))
    (w : World) :
  sender_fails env ->
  let tail :=
    try_except (EmailManager.dispatch env followup_id followup template_vars)
      (fun e => log ERROR (Error_sending_followup e) ;; ret false) w in
  fst tail = Ok false
  /\ followups (snd tail) = followups w
  /\ sqlite_sequence (snd tail) = sqlite_sequence w
  /\ statuses_written (since w (snd tail)) = []
  /\ List.length (smtp_calls (since w (snd tail))) = 1%nat.
Proof.
  intros Hfails tail. subst tail.
  unfold EmailManager.dispatch, EmailManager.smtp_send, try_except, bind,
    get_history, emit, ret, raise, log, emit.
  cbn.
  match goal with
  | |- context [smtp_send_followup env (history w) ?o template_vars] =>
      destruct (Hfails (history w) o template_vars) as [-> | [e ->]]
  end; cbn;
    (repeat split; try reflexivity;
     (erewrite since_app; [| cbn; rewrite <- app_assoc; reflexivity]);
     reflexivity).
Qed.

(** C5.  With a Mailbox Sender that reports failure or raises on every call:
    [send_followup] returns [False] and leaves the table as it was, so the
    record keeps its status and its [followup_count] and the next pass
    selects it again if it was pending -- unless a response was detected
    first, in which case it returns [True] and the sender was not asked.
    And the code that follows the call of the sender, under the function's
    [except] clause, answers [False] to a failed or raising send without
    executing any [UPDATE]. *)
Theorem C5_failed_send_leaves_the_record_as_it_was
    (env : Env) (followup_id : pyval) (w : World) :
  sender_fails env ->
  let sent := EmailManager.send_followup env followup_id w in
  ((fst sent = Ok false
    /\ followups (snd sent) = followups w
    /\ sqlite_sequence (snd sent) = sqlite_sequence w
    /\ (forall env',
          DatabaseManager.pending env' (followups (snd sent))
          = DatabaseManager.pending env' (followups w)))
   \/ (fst sent = Ok true
       /\ In (Log INFO (Response_already_received_for_followup followup_id))
            (since w (snd sent))
       /\ smtp_calls (since w (snd sent)) = []))
  /\ (forall followup template_vars w0,
        let tail :=
          try_except
            (EmailManager.dispatch env followup_id followup template_vars)
            (fun e => log ERROR (Error_sending_followup e) ;; ret false) w0 in
        fst tail = Ok false
        /\ followups (snd tail) = followups w0
        /\ sqlite_sequence (snd tail) = sqlite_sequence w0
        /\ statuses_written (since w0 (snd tail)) = []).
Proof.
  intros Hfails sent. subst sent. split.
  - destruct (send_followup_run env followup_id w)
      as (b & rows & rest & Heq & Hp & _ & _ & Hcases).
    rewrite Heq. cbn.
    destruct Hcases as [(-> & -> & _) | [(-> & -> & Hin & Hsmtp) | (_ & _ & Hid)]].
    + left. repeat split; reflexivity.
    + right. erewrite since_app; [| cbn; reflexivity].
      split; [reflexivity |]. split; [right; exact Hin | exact Hsmtp].
    + destruct Hid as (h & o & vars & c & m & Hid).
      destruct (Hfails h o vars) as [Hn | (e & He)]; congruence.
  - intros followup template_vars w0.
    pose proof (@dispatch_under_failing_sender env followup_id followup
                  template_vars w0 Hfails) as H.
    cbv zeta in H |- *. tauto.
Qed.

Lemma C5_witness :
  (sender_fails Scenario.sender_down
   /\ fst (EmailManager.send_followup Scenario.sender_down
             (PyStr Scenario.key) Scenario.registered) = Ok false
   /\ followups
        (snd (EmailManager.send_followup Scenario.sender_down
                (PyStr Scenario.key) Scenario.registered))
      = followups Scenario.registered)
  /\ (sender_fails Scenario.sender_down_detecting
      /\ fst (EmailManager.send_followup Scenario.sender_down_detecting
                (PyStr Scenario.key) Scenario.registered) = Ok false
      /\ followups
           (snd (EmailManager.send_followup Scenario.sender_down_detecting
                   (PyStr Scenario.key) Scenario.registered))
         = followups Scenario.registered).
Proof.
  assert (H1 : sender_fails Scenario.sender_down)
    by (intros h o vars; left; reflexivity).
  assert (H2 : sender_fails Scenario.sender_down_detecting)
    by (intros h o vars; left; reflexivity).
  split.
  - split; [exact H1 |].
    destruct (@C5_failed_send_leaves_the_record_as_it_was
                Scenario.sender_down (PyStr Scenario.key)
                Scenario.registered H1)
      as [[(Hf & Hrows & _) | (Ht & _)] _].
    + split; [exact Hf | exact Hrows].
    + vm_compute in Ht. discriminate Ht.
  - split; [exact H2 |].
    destruct (@C5_failed_send_leaves_the_record_as_it_was
                Scenario.sender_down_detecting (PyStr Scenario.key)
                Scenario.registered H2)
      as [[(Hf & Hrows & _) | (Ht & _)] _].
    + split; [exact Hf | exact Hrows].
    + vm_compute in Ht. discriminate Ht.
Defined.

Lemma forward_lifecycle_step (w w' : World) :
  forward (followups w) (followups w') ->
  Forall (fun s => s = "sent" \/ s = "responded")
    (statuses_written (since w w')) ->
  lifecycle_step w w'.
Proof.
  intros Hf Hs. split; [exact Hf |]. split; [| exact Hs].
  intros n r Hn Hterminal.
  destruct (Hf n r Hn) as (r' & Hn' & Hid & _ & _).
  exists r'. split; [exact Hn' |]. split; [exact Hid |].
  eapply forward_never_back; eassumption.
Qed.

(** C9.  Each operation of the engine -- [add_followup] (register),
    [check_for_responses], [send_followup] and [process_pending_followups]
    (reconcile) -- moves statuses forward only: every row is still there
    under its [id], with its status unchanged or now ["sent"] or
    ["responded"]; a row that was ["responded"] or ["failed"] is not
    ["pending"] afterwards; and every [UPDATE] the operation executes
    writes ["sent"] or ["responded"]. *)
Theorem C9_status_moves_forward_only (env : Env) :
  (forall email_data w,
      lifecycle_step w (snd (EmailManager.add_followup env email_data w)))
  /\ (forall followup_id w,
        lifecycle_step w
          (snd (EmailManager.check_for_responses env followup_id w)))
  /\ (forall followup_id w,
        lifecycle_step w (snd (EmailManager.send_followup env followup_id w)))
  /\ (forall w,
        lifecycle_step w (snd (EmailManager.process_pending_followups env w))).
Proof.
  split; [| split; [| split]].
  - intros email_data w. apply forward_lifecycle_step.
    + pose proof (add_followup_run env email_data w) as Hrun. cbv zeta in Hrun.
      destruct (calculate_followup_date _ _);
        [| rewrite Hrun; apply forward_refl].
      destruct (existsb _ (followups w)); [rewrite Hrun; apply forward_refl |].
      destruct Hrun as (row & _ & _ & _ & _ & ->). apply forward_insert.
    + pose proof (add_followup_run env email_data w) as Hrun. cbv zeta in Hrun.
      destruct (calculate_followup_date _ _);
        [| rewrite Hrun; erewrite since_app; [| cbn; reflexivity]; constructor].
      destruct (existsb _ (followups w));
        [rewrite Hrun; erewrite since_app; [| cbn; reflexivity]; constructor |].
      destruct Hrun as (row & _ & _ & _ & _ & ->).
      erewrite since_app; [| cbn; reflexivity]. constructor.
  - intros followup_id w.
    destruct (check_for_responses_run env followup_id w)
      as (b & rest & -> & Hrest & _).
    apply forward_lifecycle_step; cbn.
    + destruct b; [apply forward_update; tauto | apply forward_refl].
    + erewrite since_app; [| cbn; reflexivity].
      apply pass_writes_allowed.
      constructor; [exact I |].
      destruct b; [destruct Hrest as (q & ms & ->);
                   repeat constructor; right; reflexivity
                  | apply Forall_benign_pass; exact Hrest].
  - intros followup_id w.
    destruct (send_followup_run env followup_id w)
      as (b & rows & rest & -> & Hp & _ & _ & Hcases).
    apply forward_lifecycle_step; cbn.
    + destruct Hcases as [(_ & -> & _) | [(_ & -> & _) | (_ & -> & _)]];
        [apply forward_refl | apply forward_update; tauto
        | apply forward_update; tauto].
    + erewrite since_app; [| cbn; reflexivity].
      apply pass_writes_allowed.
      constructor; [exact I | exact Hp].
  - intros w.
    destruct (process_pending_followups_run env w)
      as (w' & new & -> & Hh & _ & Hf & Hp & _).
    apply forward_lifecycle_step; cbn.
    + exact Hf.
    + erewrite since_app; [| exact Hh].
      change (Forall (fun s => s = "sent" \/ s = "responded")
                (statuses_written new)).
      apply pass_writes_allowed. exact Hp.
Qed.

(** The row that a lookup finds, by the parameter it binds. *)
Lemma stored_record_found (rows : list Followup.t) (followup_id : pyval)
    (f : Followup.t) :
  stored_record rows followup_id = Some f ->
  exists p,
    DatabaseManager.bind_parameter followup_id = Ok p
    /\ find (fun r => DatabaseManager.email_id_equals (Followup.email_id r) p)
         rows = Some f.
Proof.
  unfold stored_record.
  destruct (DatabaseManager.bind_parameter followup_id) as [p | e];
    [| discriminate].
  intros H. exists p. split; [reflexivity | exact H].
Qed.

(** No [UPDATE] touches what a record was registered with. *)
Lemma as_registered_update (env : Env) (followup_id : pyval) (status : string)
    (increment_count : bool) (rows : list Followup.t) :
  map as_registered
    (rows_after_update env followup_id status increment_count rows)
  = map as_registered rows.
Proof.
  unfold rows_after_update.
  destruct (DatabaseManager.bind_parameter followup_id) as [p | e];
    [| reflexivity].
  rewrite map_map. apply map_ext. intros r.
  destruct (DatabaseManager.id_equals _ _ _); reflexivity.
Qed.

(** Two tables that hold the same registrations answer a lookup with the
    same registration. *)
Lemma stored_record_as_registered (rows rows' : list Followup.t)
    (followup_id : pyval) :
  map as_registered rows = map as_registered rows' ->
  match stored_record rows followup_id, stored_record rows' followup_id with
  | Some f, Some f' => as_registered f = as_registered f'
  | None, None => True
  | _, _ => False
  end.
Proof.
  unfold stored_record.
  destruct (DatabaseManager.bind_parameter followup_id) as [p | e];
    [| intros _; exact I].
  revert rows'.
  induction rows as [| r rows IH]; intros [| r' rows'] Hmap;
    try discriminate Hmap; [exact I |].
  pose proof (f_equal (@hd_error _) Hmap) as Hr.
  pose proof (f_equal (@tl _) Hmap) as Hrows.
  cbn [map hd_error tl] in Hr, Hrows.
  assert (Hr' : as_registered r = as_registered r') by congruence.
  clear Hr. rename Hr' into Hr.
  cbn [find].
  assert (Hkey : Followup.email_id r = Followup.email_id r')
    by (unfold as_registered in Hr; congruence).
  rewrite Hkey.
  destruct (DatabaseManager.email_id_equals (Followup.email_id r') p);
    [exact Hr | apply IH; exact Hrows].
Qed.

Lemma followup_attempted_as_registered (env : Env)
    (rows rows' : list Followup.t) (followup_id : pyval) (sent : list event) :
  map as_registered rows = map as_registered rows' ->
  followup_attempted env rows followup_id sent ->
  followup_attempted env rows' followup_id sent.
Proof.
  intros Hmap. unfold followup_attempted.
  pose proof (@stored_record_as_registered rows rows' followup_id Hmap) as H.
  destruct (stored_record rows followup_id) as [f |],
           (stored_record rows' followup_id) as [f' |];
    try contradiction; [| exact (fun x => x)].
  unfold as_registered in H. unfold original_email_of.
  injection H as _ _ _ Hrec Hsub Hsd Hfd Hmeta.
  rewrite Hrec, Hsub, Hsd, Hfd, Hmeta. exact (fun x => x).
Qed.

(** [send_followup] attempts the follow-up of the record it is called
    for. *)
Lemma send_followup_attempt (env : Env) (followup_id : pyval) (w : World) :
  exists (b : bool) rows rest,
    EmailManager.send_followup env followup_id w
    = (Ok b,
       {| followups := rows;
          sqlite_sequence := sqlite_sequence w;
          history :=
            (history w ++ Sql (SELECT_by_email_id followup_id) :: rest)%list |})
    /\ followup_attempted env (followups w) followup_id rest.
Proof.
  unfold followup_attempted.
  destruct (stored_record (followups w) followup_id) as [f |] eqn:Hfound.
  2:{ destruct (@lookup_fails_run env followup_id w Hfound) as (_ & Hrun).
      exists false. do 2 eexists. split; [exact Hrun |].
      eexists. reflexivity. }
  destruct (@stored_record_found _ _ _ Hfound) as (p & Hb & Hfind).
  unfold EmailManager.send_followup, try_except, bind,
    DatabaseManager.get_followup_by_email_id, try_except_sqlite3_Error, bind,
    lift, get_followups, ret, log, emit.
  cbn -[EmailManager.check_for_responses smtp_calls In format_date].
  rewrite Hb. cbn -[EmailManager.check_for_responses smtp_calls In format_date].
  rewrite Hfind.
  cbn -[EmailManager.check_for_responses smtp_calls In format_date].
  match goal with
  | |- context [EmailManager.check_for_responses env followup_id ?w1] =>
      destruct (check_for_responses_run env followup_id w1)
        as (b & rest & Heq & Hrest & _); rewrite Heq
  end.
  cbn -[smtp_calls In format_date].
  destruct b; cbn -[smtp_calls In format_date].
  - destruct Hrest as (q & ms & ->).
    exists true. do 2 eexists. repeat rewrite <- app_assoc.
    cbn -[smtp_calls In format_date].
    split; [reflexivity |]. left. simpl. auto 10.
  - set (looked := (Sql (SELECT_by_email_id followup_id) :: rest)%list).
    assert (Hbenign : Forall benign looked)
      by (constructor; [exact I | exact Hrest]).
    destruct (benign_is_quiet Hbenign) as (_ & Hquiet & _).
    destruct (format_date (timestamp_cell (platform env) (Followup.sent_date f)))
      as [d1 | e1] eqn:Hd1; cbn -[smtp_calls In format_date].
    2:{ exists false, (followups w),
          (looked ++ [Log ERROR (Error_sending_followup e1)])%list.
        split; [repeat rewrite <- app_assoc; reflexivity |].
        right. right. exists e1.
        split; [apply in_or_app; right; left; reflexivity |].
        split; [rewrite smtp_calls_app, Hquiet; reflexivity |].
        left. reflexivity. }
    destruct (format_date
                (timestamp_cell (platform env) (Followup.followup_date f)))
      as [d2 | e2] eqn:Hd2; cbn -[smtp_calls In format_date].
    2:{ exists false, (followups w),
          (looked ++ [Log ERROR (Error_sending_followup e2)])%list.
        split; [repeat rewrite <- app_assoc; reflexivity |].
        right. right. exists e2.
        split; [apply in_or_app; right; left; reflexivity |].
        split; [rewrite smtp_calls_app, Hquiet; reflexivity |].
        right. reflexivity. }
    unfold EmailManager.dispatch, EmailManager.smtp_send, bind, get_history,
      emit, ret, raise, log, emit.
    cbn -[smtp_calls In format_date].
    fold (original_email_of f).
    match goal with
    | |- context [smtp_send_followup env ?h (original_email_of f) ?vars] =>
        set (vars0 := vars);
        destruct (smtp_send_followup env h (original_email_of f) vars0)
          as [m | | e]
    end; cbn -[smtp_calls In format_date].
    + destruct m as [| c m]; cbn -[smtp_calls In format_date].
      * exists false, (followups w),
          (looked ++ [Smtp (original_email_of f) vars0 (Message_ID EmptyString);
                    Log ERROR (Failed_to_send_followup_for_ID followup_id)])%list.
        split; [repeat rewrite <- app_assoc; reflexivity |].
        right. left.
        split; [rewrite smtp_calls_app, Hquiet; reflexivity |].
        right. left. apply in_or_app. right. right. left. reflexivity.
      * unfold DatabaseManager.update_followup_status,
          try_except_sqlite3_Error, bind, emit, lift, get_followups,
          set_followups, log, emit, ret.
        cbn -[smtp_calls In format_date]. rewrite Hb.
        cbn -[smtp_calls In format_date].
        exists true. eexists.
        exists (looked ++ [Smtp (original_email_of f) vars0
                             (Message_ID (String c m));
                    Sql (UPDATE_status followup_id "sent" true);
                    Log DEBUG (Updated_followup_status followup_id "sent");
                    Log INFO (Followup_sent_successfully_for_ID followup_id)])%list.
        split; [repeat rewrite <- app_assoc; reflexivity |].
        right. left.
        split; [rewrite smtp_calls_app, Hquiet; reflexivity |].
        left. apply in_or_app. right. right. left. reflexivity.
    + exists false, (followups w),
        (looked ++ [Smtp (original_email_of f) vars0 Not_sent;
                  Log ERROR (Failed_to_send_followup_for_ID followup_id)])%list.
      split; [repeat rewrite <- app_assoc; reflexivity |].
      right. left.
      split; [rewrite smtp_calls_app, Hquiet; reflexivity |].
      right. left. apply in_or_app. right. right. left. reflexivity.
    + exists false, (followups w),
        (looked ++ [Smtp (original_email_of f) vars0 (Smtp_raises e);
                  Log ERROR (Error_sending_followup e)])%list.
      split; [repeat rewrite <- app_assoc; reflexivity |].
      right. left.
      split; [rewrite smtp_calls_app, Hquiet; reflexivity |].
      right. right. exists e. apply in_or_app. right. right. left. reflexivity.
Qed.

(** The loop of a pass, record by record: each record has its turn, in
    the order of the batch and whatever the turns before it came to. *)
Lemma for_each_pending_turns (env : Env) (rows : list Followup.t)
    (pending : list Followup.t) :
  forall w,
  map as_registered (followups w) = map as_registered rows ->
  exists w' turns,
    for_each pending
      (fun followup =>
         let followup_id := PyInt (Followup.id followup) in
         responded <- EmailManager.check_for_responses env followup_id ;;
         if responded : bool then ret tt
         else EmailManager.send_followup env followup_id ;; ret tt) w
    = (Ok tt, w')
    /\ history w' = (history w ++ List.concat turns)%list
    /\ Forall2 (record_processed env rows) pending turns.
Proof.
  induction pending as [| r pending IH]; intros w Hrows.
  - exists w, []. cbn. rewrite app_nil_r.
    split; [reflexivity |]. split; [reflexivity | constructor].
  - cbn -[EmailManager.check_for_responses EmailManager.send_followup].
    unfold bind at 1. unfold bind at 1.
    destruct (check_for_responses_run env (PyInt (Followup.id r)) w)
      as (b & rest & Heq & Hrest & _).
    rewrite Heq.
    destruct b.
    + cbn -[for_each EmailManager.check_for_responses
              EmailManager.send_followup].
      match goal with
      | |- context [for_each pending ?body ?w1] =>
          destruct (IH w1) as (w' & turns & Hrun & Hh & Hturns);
            [cbn [followups]; rewrite as_registered_update; exact Hrows |]
      end.
      destruct Hrest as (q & ms & ->).
      exists w',
        ([ Sql (SELECT_by_email_id (PyInt (Followup.id r)));
           Imap q (Fetched ms);
           Sql (UPDATE_status (PyInt (Followup.id r)) "responded" false);
           Log DEBUG (Updated_followup_status (PyInt (Followup.id r))
                        "responded");
           Log INFO (Response_found_for_followup (PyInt (Followup.id r))) ]
         :: turns).
      split; [exact Hrun |].
      cbn [history] in Hh.
      split; [rewrite Hh; cbn [List.concat]; rewrite <- !app_assoc;
              reflexivity |].
      constructor; [| exact Hturns].
      left. exists q, ms. reflexivity.
    + cbn -[for_each EmailManager.check_for_responses
              EmailManager.send_followup].
      unfold bind at 1. unfold bind at 1.
      match goal with
      | |- context [EmailManager.send_followup env _ ?w1] =>
          destruct (send_followup_run env (PyInt (Followup.id r)) w1)
            as (b2 & rows2 & rest2 & Heq2 & Hp2 & _ & _ & Hcases);
          destruct (send_followup_attempt env (PyInt (Followup.id r)) w1)
            as (b3 & rows3 & rest3 & Heq3 & Hattempt)
      end.
      rewrite Heq2 in Heq3. injection Heq3 as _ _ Hsame.
      apply app_inv_head in Hsame. injection Hsame as <-.
      rewrite Heq2.
      cbn -[for_each EmailManager.check_for_responses
              EmailManager.send_followup].
      cbn in Hcases. cbn [followups] in Hattempt.
      match goal with
      | |- context [for_each pending ?body ?w1] =>
          destruct (IH w1) as (w' & turns & Hrun & Hh & Hturns)
      end.
      { cbn [followups].
        destruct Hcases as [(_ & -> & _) | [(_ & -> & _) | (_ & -> & _)]];
          [exact Hrows
          | rewrite as_registered_update; exact Hrows
          | rewrite as_registered_update; exact Hrows]. }
      exists w',
        ((Sql (SELECT_by_email_id (PyInt (Followup.id r))) :: rest ++
          Sql (SELECT_by_email_id (PyInt (Followup.id r))) :: rest2)
         :: turns)%list.
      split; [exact Hrun |].
      cbn [history] in Hh.
      split; [rewrite Hh; cbn [List.concat]; repeat rewrite <- app_assoc;
              cbn [app]; repeat rewrite <- app_assoc; reflexivity |].
      constructor; [| exact Hturns].
      right. exists rest, rest2.
      split; [reflexivity |]. split; [exact Hrest |]. split; [exact Hp2 |].
      eapply followup_attempted_as_registered; [| exact Hattempt].
      exact Hrows.
Qed.

Lemma process_pending_followups_turns (env : Env) (w : World) :
  exists w' turns,
    EmailManager.process_pending_followups env w = (Ok tt, w')
    /\ history w' = (history w ++ Sql SELECT_pending :: List.concat turns)%list
    /\ Forall2 (record_processed env (followups w))
         (DatabaseManager.pending env (followups w)) turns.
Proof.
  unfold EmailManager.process_pending_followups, try_except,
    DatabaseManager.get_pending_followups, try_except_sqlite3_Error.
  unfold bind at 1. unfold bind at 1. unfold bind at 1.
  cbn -[for_each EmailManager.check_for_responses EmailManager.send_followup
          DatabaseManager.pending].
  match goal with
  | |- context [for_each ?p ?body ?w1] =>
      destruct (@for_each_pending_turns env (followups w) p w1 eq_refl)
        as (w' & turns & Hrun & Hh & Hturns);
      assert (Hrun' : for_each p body w1 = (Ok tt, w')) by exact Hrun;
      rewrite Hrun'
  end.
  exists w', turns. cbn in Hh.
  split; [reflexivity |].
  split; [rewrite Hh, <- app_assoc; reflexivity | exact Hturns].
Qed.

(** C6.  One pass of [process_pending_followups] never ends in an
    exception, and its events after the query for the pending rows are
    the turns of the records that the query returned, one turn for each
    record and in the order of the batch, whatever was raised in the turns
    before: in its turn the record is looked up by [check_for_responses],
    and unless a response is recorded it is looked up again by
    [send_followup], which attempts the follow-up of the record stored
    under that identifier (the SMTP client is handed its message, or a
    response turns up, or [format_date] raised and the exception is
    logged).  Every exception that the mailbox or the SMTP client raised
    on the way was logged by the operation that met it, and the handler
    around the whole batch was never reached. *)
Theorem C6_one_bad_record_never_aborts_the_batch (env : Env) (w : World) :
  let pass := EmailManager.process_pending_followups env w in
  fst pass = Ok tt
  /\ (exists turns,
        since w (snd pass) = Sql SELECT_pending :: List.concat turns
        /\ Forall2 (record_processed env (followups w))
             (DatabaseManager.pending env (followups w)) turns)
  /\ (forall r,
        In r (DatabaseManager.pending env (followups w)) ->
        In (Sql (SELECT_by_email_id (PyInt (Followup.id r))))
          (since w (snd pass)))
  /\ exceptions_logged (since w (snd pass))
  /\ (forall e,
        ~ In (Log ERROR (Error_processing_pending_followups e))
            (since w (snd pass))).
Proof.
  intros pass. subst pass.
  destruct (process_pending_followups_turns env w)
    as (w2 & turns & Heq2 & Hh2 & Hturns).
  destruct (process_pending_followups_run env w)
    as (w' & new & Heq & Hh & _ & _ & Hp & Hl & _ & Hin).
  rewrite Heq in Heq2. injection Heq2 as <-.
  rewrite Heq. cbn [fst snd].
  split; [reflexivity |].
  split; [exists turns; split;
          [apply since_app; exact Hh2 | exact Hturns] |].
  erewrite since_app; [| exact Hh].
  split; [| split].
  - intros r Hr. right. apply Hin. exact Hr.
  - change (exceptions_logged ([Sql SELECT_pending] ++ new)%list).
    apply exceptions_logged_app; [logged | exact Hl].
  - intros e [Hin' | Hin']; [discriminate |].
    eapply pass_no_batch_error; eassumption.
Qed.

(** The batch of [Batch]: the mailbox raises for the first record, at both
    looks, and the SMTP client raises for it; each exception is logged and
    the record stays ["pending"].  The second record has its turn all the
    same: its follow-up is sent and recorded. *)
Lemma C6_witness :
  let pass := EmailManager.process_pending_followups Batch.env Batch.table in
  map Followup.id
    (DatabaseManager.pending Batch.env (followups Batch.table)) = [1; 2]
  /\ fst pass = Ok tt
  /\ In (Log ERROR (Error_checking_for_responses Batch.connection_reset))
       (since Batch.table (snd pass))
  /\ In (Log ERROR (Error_sending_followup Batch.recipient_refused))
       (since Batch.table (snd pass))
  /\ smtp_calls (since Batch.table (snd pass))
     = [ original_email_of (Batch.record 1 "bob@example.org" "Quarterly report");
         original_email_of
           (Batch.record 2 "carol@example.net" "Project update") ]
  /\ map (fun r => (Followup.id r, Followup.status r, Followup.followup_count r))
       (followups (snd pass))
     = [(1, "pending", 0); (2, "sent", 1)].
Proof.
  intros pass.
  destruct (C6_one_bad_record_never_aborts_the_batch Batch.env Batch.table)
    as (Hok & _ & _ & (Himap & Hsmtp) & _).
  fold pass in Hok, Himap, Hsmtp.
  split; [vm_compute; reflexivity |].
  split; [exact Hok |].
  split; [| split; [| split]].
  - apply (Himap "Quarterly report"). vm_compute. auto 10.
  - apply (Hsmtp
             (original_email_of
                (Batch.record 1 "bob@example.org" "Quarterly report"))
             [ ("DESTINATAIRE", "bob@example.org");
               ("SUJET", "Quarterly report");
               ("DATE_ENVOI", "01/01/2024 10:00");
               ("DATE_RELANCE", "08/01/2024 10:00");
               ("EXPEDITEUR", "alice@example.com") ]).
    vm_compute. auto 20.
  - vm_compute. reflexivity.
  - vm_compute. reflexivity.
Defined.

(* ================================================================== *)
(** * Row identifiers are never keys *)
(* ================================================================== *)

Lemma digits_S (fuel : nat) (n : Z) (acc : string) :
  Str.digits (S fuel) n acc
  = if n / 10 =? 0 then String (Str.digit (n mod 10)) acc
    else Str.digits fuel (n / 10) (String (Str.digit (n mod 10)) acc).
Proof. reflexivity. Qed.

Lemma digits_length (fuel : nat) :
  forall (k : nat) (n : Z) (acc : string),
    (0 < k)%nat -> 0 <= n < 10 ^ Z.of_nat k ->
    (String.length (Str.digits (S fuel) n acc) <= k + String.length acc)%nat.
Proof.
  induction fuel as [| fuel IH]; intros k n acc Hk Hn; rewrite digits_S.
  - destruct (n / 10 =? 0); cbn [Str.digits String.length]; lia.
  - destruct (n / 10 =? 0) eqn:Hq; [cbn [String.length]; lia |].
    apply Z.eqb_neq in Hq.
    destruct k as [| [| k]]; [lia | |].
    + exfalso. apply Hq. apply Z.div_small.
      change (10 ^ Z.of_nat 1) with 10 in Hn. lia.
    + specialize (IH (S k) (n / 10) (String (Str.digit (n mod 10)) acc)).
      cbn [String.length] in IH.
      assert (H10 : 10 ^ Z.of_nat (S (S k)) = 10 * 10 ^ Z.of_nat (S k))
        by (rewrite (Nat2Z.inj_succ (S k)), Z.pow_succ_r; lia).
      assert (Hdiv : 0 <= n / 10 < 10 ^ Z.of_nat (S k)).
      { split; [apply Z.div_pos; lia |].
        apply Z.div_lt_upper_bound; lia. }
      specialize (IH ltac:(lia) Hdiv). lia.
Qed.

(** [str(n)] of a 64-bit integer has at most 20 characters. *)
Lemma of_Z_length (n : Z) :
  - 2 ^ 63 <= n < 2 ^ 63 -> (String.length (Str.of_Z n) <= 20)%nat.
Proof.
  intros Hn. unfold Str.of_Z.
  change (2 ^ 63) with 9223372036854775808 in Hn.
  destruct (n <? 0) eqn:Hneg.
  - apply Z.ltb_lt in Hneg. cbn [String.length].
    pose proof (@digits_length (Z.to_nat (Z.log2 (- n))) 19 (- n) EmptyString
                  ltac:(lia)) as H.
    cbn [String.length] in H.
    assert (Hb : 0 <= - n < 10 ^ Z.of_nat 19)
      by (change (10 ^ Z.of_nat 19) with 10000000000000000000; lia).
    specialize (H Hb). lia.
  - apply Z.ltb_ge in Hneg.
    pose proof (@digits_length (Z.to_nat (Z.log2 n)) 19 n EmptyString
                  ltac:(lia)) as H.
    cbn [String.length] in H.
    assert (Hb : 0 <= n < 10 ^ Z.of_nat 19)
      by (change (10 ^ Z.of_nat 19) with 10000000000000000000; lia).
    specialize (H Hb). lia.
Qed.

(** An MD5 digest in hexadecimal has 32 characters. *)
Lemma hexdigest_length (s : string) :
  String.length (MD5.hexdigest s) = 32%nat.
Proof.
  unfold MD5.hexdigest. destruct (MD5.digest _) as [a b c d].
  unfold MD5.hexword, MD5.hexbyte. cbn [String.length]. reflexivity.
Qed.

Lemma generate_email_id_length (sender subject : string) (date : datetime) :
  String.length (generate_email_id sender subject date) = 32%nat.
Proof. apply hexdigest_length. Qed.

Lemma keyed_by_digests_add_followup (env : Env) (email_data : EmailData.t)
    (w : World) :
  keyed_by_digests (followups w) ->
  keyed_by_digests (followups (snd (EmailManager.add_followup env email_data w))).
Proof.
  intros Hk.
  pose proof (add_followup_run env email_data w) as Hrun. cbv zeta in Hrun.
  destruct (calculate_followup_date _ _); [| rewrite Hrun; exact Hk].
  destruct (existsb _ (followups w)); [rewrite Hrun; exact Hk |].
  destruct Hrun as (row & Hkey & _ & _ & _ & ->). cbn.
  apply Forall_app. split; [exact Hk |].
  constructor; [| constructor].
  rewrite Hkey. apply generate_email_id_length.
Qed.

(** In such a table no row is found under a row identifier: the text of
    a 64-bit integer is shorter than a digest. *)
Lemma no_record_under_a_row_id (rows : list Followup.t) (n : Z) :
  keyed_by_digests rows -> stored_record rows (PyInt n) = None.
Proof.
  intros Hk. unfold stored_record, DatabaseManager.bind_parameter.
  destruct ((- 2 ^ 63 <=? n) && (n <? 2 ^ 63)) eqn:Hrange; [| reflexivity].
  apply andb_true_iff in Hrange. destruct Hrange as (Hlo & Hhi).
  apply Z.leb_le in Hlo. apply Z.ltb_lt in Hhi.
  pose proof (of_Z_length (conj Hlo Hhi)) as Hlen.
  induction Hk as [| r rows Hr Hrows IH]; [reflexivity |].
  cbn. destruct (String.eqb (Followup.email_id r) (Str.of_Z n)) eqn:Heq;
    [| exact IH].
  apply String.eqb_eq in Heq. rewrite Heq in Hr. lia.
Qed.

Lemma loop_over_digests (env : Env) (pending : list Followup.t) :
  forall w,
    keyed_by_digests (followups w) ->
    exists w',
      for_each pending
        (fun followup =>
           let followup_id := PyInt (Followup.id followup) in
           responded <- EmailManager.check_for_responses env followup_id ;;
           if responded : bool then ret tt
           else EmailManager.send_followup env followup_id ;; ret tt) w
      = (Ok tt, w')
      /\ followups w' = followups w.
Proof.
  induction pending as [| r pending IH]; intros w Hk;
    [exists w; split; reflexivity |].
  cbn -[EmailManager.check_for_responses EmailManager.send_followup].
  unfold bind at 1. unfold bind at 1.
  destruct (@lookup_fails_run env (PyInt (Followup.id r)) w
              (no_record_under_a_row_id (Followup.id r) Hk)) as (-> & _).
  cbn -[for_each EmailManager.check_for_responses EmailManager.send_followup].
  unfold bind at 1. unfold bind at 1.
  match goal with
  | |- context [EmailManager.send_followup env _ ?w1] =>
      destruct (@lookup_fails_run env (PyInt (Followup.id r)) w1
                  (no_record_under_a_row_id (Followup.id r) Hk)) as (_ & ->)
  end.
  cbn -[for_each EmailManager.check_for_responses EmailManager.send_followup].
  match goal with
  | |- context [for_each pending ?body ?w2] =>
      destruct (IH w2 Hk) as (w' & Hrun & Hrows)
  end.
  exists w'. split; [exact Hrun | exact Hrows].
Qed.

(** So on such a table a pass changes nothing, whatever the mailbox
    holds: no response is recorded and no follow-up is sent. *)
Lemma pass_over_digests_changes_nothing (env : Env) (w : World) :
  keyed_by_digests (followups w) ->
  followups (snd (EmailManager.process_pending_followups env w)) = followups w.
Proof.
  intros Hk.
  unfold EmailManager.process_pending_followups, try_except,
    DatabaseManager.get_pending_followups, try_except_sqlite3_Error.
  unfold bind at 1. unfold bind at 1. unfold bind at 1.
  cbn -[for_each EmailManager.check_for_responses EmailManager.send_followup
          DatabaseManager.pending].
  match goal with
  | |- context [for_each ?p ?body ?w1] =>
      destruct (@loop_over_digests env p w1 Hk) as (w' & Hrun & Hrows);
      assert (Hrun' : for_each p body w1 = (Ok tt, w')) by exact Hrun;
      rewrite Hrun'
  end.
  exact Hrows.
Qed.

(** Asked by row identifier, as a pass asks, [check_for_responses] on such
    a table answers [False] whatever the mailbox holds. *)
Lemma check_by_row_id_detects_nothing (env : Env) (n : Z) (w : World) :
  keyed_by_digests (followups w) ->
  fst (EmailManager.check_for_responses env (PyInt n) w) = Ok false
  /\ followups (snd (EmailManager.check_for_responses env (PyInt n) w))
     = followups w.
Proof.
  intros Hk.
  destruct (@lookup_fails_run env (PyInt n) w
              (no_record_under_a_row_id n Hk)) as (-> & _).
  split; reflexivity.
Qed.

(** Asked by key, [check_for_responses] leaves the table as it was
    whenever the key does not spell a number: its [UPDATE ... WHERE id = ?]
    matches no row. *)
Lemma check_by_key_marks_nothing (env : Env) (key : string) (w : World) :
  text_as_integer (platform env) key = None ->
  followups (snd (EmailManager.check_for_responses env (PyStr key) w))
  = followups w.
Proof.
  intros Hkey.
  destruct (check_for_responses_run env (PyStr key) w)
    as (b & rest & -> & _).
  cbn. destruct b; [| reflexivity].
  unfold rows_after_update. cbn. rewrite Hkey.
  induction (followups w) as [| r rows IH]; [reflexivity |].
  cbn. rewrite IH. reflexivity.
Qed.

Lemma filter_nonempty_existsb {A} (f : A -> bool) (l : list A) :
  existsb f l = true <-> filter f l <> [].
Proof.
  induction l as [| a l IH]; cbn.
  - split; [discriminate | intros H; destruct (H eq_refl)].
  - destruct (f a); cbn; [split; [discriminate | reflexivity] | exact IH].
Qed.

(** When [check_for_responses] returns [True]: the identifier is found in
    the column [email_id], the client is connected, and the search yields
    a message that references the record's key and is not classified
    automatic. *)
Lemma check_for_responses_true_iff (env : Env) (followup_id : pyval)
    (w : World) :
  fst (EmailManager.check_for_responses env followup_id w) = Ok true
  <-> exists followup,
        stored_record (followups w) followup_id = Some followup
        /\ imap_is_connected env = true
        /\ exists messages,
             imap_search env
               (history w ++ [Sql (SELECT_by_email_id followup_id)])%list
               (sanitize_subject (platform env) (Followup.subject followup))
             = Fetched messages
             /\ existsb (IMAPClient.is_reply (platform env)
                           (Followup.email_id followup)) messages = true.
Proof.
  unfold stored_record.
  unfold EmailManager.check_for_responses, try_except, bind,
    DatabaseManager.get_followup_by_email_id, try_except_sqlite3_Error, bind,
    lift, get_followups, ret, log, emit.
  cbn.
  destruct (DatabaseManager.bind_parameter followup_id) as [p | e] eqn:Hb;
    [| apply bind_parameter_raises in Hb; subst e]; cbn.
  2:{ split; [discriminate | intros (f & Hf & _); discriminate]. }
  destruct (find _ (followups w)) as [f |]; cbn.
  2:{ split; [discriminate | intros (f & Hf & _); discriminate]. }
  unfold IMAPClient.check_for_replies.
  destruct (imap_is_connected env); cbn.
  2:{ split; [discriminate | intros (f' & _ & Hc & _); discriminate]. }
  unfold bind, get_history, emit, ret, log, raise, emit. cbn.
  destruct (imap_search env _ _) as [ms | | e] eqn:Hs; cbn.
  - destruct (filter _ ms) eqn:Hfl; cbn.
    + split; [discriminate |].
      intros (f' & Hf' & _ & ms' & Hms' & Hex).
      injection Hf' as <-. rewrite Hs in Hms'. injection Hms' as <-.
      apply filter_nonempty_existsb in Hex. congruence.
    + unfold DatabaseManager.update_followup_status,
        try_except_sqlite3_Error, bind, emit, lift, get_followups,
        set_followups, log, emit, ret.
      cbn. rewrite Hb. cbn.
      split; [| reflexivity]. intros _.
      exists f. split; [reflexivity |]. split; [reflexivity |].
      exists ms. split; [exact Hs |].
      apply filter_nonempty_existsb. rewrite Hfl. discriminate.
  - split; [discriminate |].
    intros (f' & Hf' & _ & ms' & Hms' & _).
    injection Hf' as <-. rewrite Hs in Hms'. discriminate.
  - split; [discriminate |].
    intros (f' & Hf' & _ & ms' & Hms' & _).
    injection Hf' as <-. rewrite Hs in Hms'. discriminate.
Qed.

Lemma text_is_not_formattable (P : Platform) :
  timestamps_come_back_as_text P -> ~ dates_come_back_formattable P.
Proof.
  intros Htext (s & d & H). rewrite Htext in H. discriminate H.
Qed.

(** With TIMESTAMP cells coming back as text, [send_followup] never sends:
    [format_date] raises on the text before the SMTP client is called. *)
Lemma send_followup_never_sends (env : Env) (followup_id : pyval) (w : World) :
  timestamps_come_back_as_text (platform env) ->
  nothing_sent (since w (snd (EmailManager.send_followup env followup_id w))).
Proof.
  intros Htext.
  destruct (send_followup_run env followup_id w)
    as (b & rows & rest & -> & _ & _ & [Hn | Hd] & _);
    [| destruct (text_is_not_formattable Htext Hd)].
  erewrite since_app; [| cbn; reflexivity].
  change (nothing_sent ([Sql (SELECT_by_email_id followup_id)] ++ rest)%list).
  apply nothing_sent_app; [| exact Hn].
  apply nothing_sent_benign. repeat constructor.
Qed.

(** Nor does a pass: nothing is handed to the SMTP client and no status
    becomes ["sent"]. *)
Lemma no_pass_ever_sends (env : Env) (w : World) :
  timestamps_come_back_as_text (platform env) ->
  nothing_sent
    (since w (snd (EmailManager.process_pending_followups env w))).
Proof.
  intros Htext.
  destruct (process_pending_followups_run env w)
    as (w' & new & -> & Hh & _ & _ & _ & _ & [Hn | Hd] & _);
    [| destruct (text_is_not_formattable Htext Hd)].
  cbn. erewrite since_app; [| exact Hh].
  destruct Hn as (Hn1 & Hn2). split; assumption.
Qed.

(** C1 (on the code: no follow-up is sent).  The record registered with a
    delay of 7 days is due when the clock reads [sent_at + 7 days]: the
    query for pending rows returns it.  No reply is in the mailbox and the
    SMTP client would deliver.  One pass of [process_pending_followups]
    passes the row's [id], 1, to [check_for_responses] and to
    [send_followup], which look it up in the column [email_id]: both
    answer "not found".  Nothing is handed to the SMTP client, and the
    record is still ["pending"] with [followup_count] 0. *)
Theorem C1_reconcile_sends_no_followup :
  let env := Scenario.env Scenario.due_at [] Scenario.delivered in
  let pass := EmailManager.process_pending_followups env Scenario.registered in
  calculate_followup_date Scenario.sent_at 7 = Ok (now env)
  /\ map Followup.id
       (DatabaseManager.pending env (followups Scenario.registered)) = [1]
  /\ fst pass = Ok tt
  /\ since Scenario.registered (snd pass)
     = [ Sql SELECT_pending;
         Sql (SELECT_by_email_id (PyInt 1));
         Log ERROR (Followup_not_found (PyInt 1));
         Sql (SELECT_by_email_id (PyInt 1));
         Log ERROR (Followup_not_found (PyInt 1)) ]
  /\ smtp_calls (since Scenario.registered (snd pass)) = []
  /\ map (fun r => (Followup.status r, Followup.followup_count r))
       (followups (snd pass)) = [("pending", 0)].
Proof. vm_compute. repeat split. Qed.

(** Called with the record's key instead, [send_followup] finds the
    record, finds no reply, and stops at [format_date]. *)
Example send_followup_by_key :
  let env := Scenario.env Scenario.due_at [] Scenario.delivered in
  let sent :=
    EmailManager.send_followup env (PyStr Scenario.key) Scenario.registered in
  fst sent = Ok false
  /\ since Scenario.registered (snd sent)
     = [ Sql (SELECT_by_email_id (PyStr Scenario.key));
         Sql (SELECT_by_email_id (PyStr Scenario.key));
         Imap "Project update" (Fetched []);
         Log ERROR (Error_sending_followup AttributeError) ]
  /\ followups (snd sent) = followups Scenario.registered.
Proof. vm_compute. repeat split. Qed.

(** Were the TIMESTAMP cells read back as [datetime]s, [send_followup]
    called with the key would reach the SMTP client: a delivered follow-up
    returns [True], but its [UPDATE ... 'sent' ... WHERE id = key] matches
    no row and the record stays ["pending"] with count 0; a failed send
    returns [False]. *)
Example send_followup_with_type_detection :
  let delivering :=
    Scenario.env_on Scenario.detecting Scenario.due_at [] Scenario.delivered in
  let failing :=
    Scenario.env_on Scenario.detecting Scenario.due_at [] Not_sent in
  let sent :=
    EmailManager.send_followup delivering (PyStr Scenario.key)
      Scenario.registered in
  let failed :=
    EmailManager.send_followup failing (PyStr Scenario.key)
      Scenario.registered in
  fst sent = Ok true
  /\ followups_sent (since Scenario.registered (snd sent))
     = [ {| to := "bob@example.org";
            original_subject := "Project update";
            original_id := Some "<orig-1@example.com>" |} ]
  /\ statuses_written (since Scenario.registered (snd sent)) = ["sent"]
  /\ map (fun r => (Followup.status r, Followup.followup_count r))
       (followups (snd sent)) = [("pending", 0)]
  /\ fst failed = Ok false
  /\ List.length (smtp_calls (since Scenario.registered (snd failed))) = 1%nat
  /\ followups (snd failed) = followups Scenario.registered.
Proof. vm_compute. repeat split. Qed.

(** C3 (on the code: a genuine reply does not mark the record).  The
    mailbox search yields one message that references the record's key
    and is not automatic.  Called with the row's [id], as the pass calls
    it, [check_for_responses] finds no record and returns [False]; called
    with the key it returns [True], but its [UPDATE ... WHERE id = key]
    matches no row.  Either way the record stays ["pending"]. *)
Theorem C3_genuine_reply_does_not_mark_the_record :
  let env :=
    Scenario.env Scenario.due_at [Scenario.genuine_reply] Scenario.delivered in
  let by_id :=
    EmailManager.check_for_responses env (PyInt 1) Scenario.registered in
  let by_key :=
    EmailManager.check_for_responses env (PyStr Scenario.key)
      Scenario.registered in
  map (fun r => (Followup.id r, Followup.email_id r, Followup.status r))
    (followups Scenario.registered) = [(1, Scenario.key, "pending")]
  /\ IMAPClient.is_reply (platform env) Scenario.key Scenario.genuine_reply
     = true
  /\ fst by_id = Ok false
  /\ map Followup.status (followups (snd by_id)) = ["pending"]
  /\ fst by_key = Ok true
  /\ statuses_written (since Scenario.registered (snd by_key)) = ["responded"]
  /\ map Followup.status (followups (snd by_key)) = ["pending"].
Proof. vm_compute. repeat split. Qed.

(** [_is_auto_reply], spelled out: a marker name, in lower case as the
    list has it, is literally a key of [headers], or the lower-cased body
    contains a lower-cased pattern. *)
Lemma _is_auto_reply_iff (P : Platform) (email_info : EmailInfo.t) :
  IMAPClient._is_auto_reply P email_info = true
  <-> (exists header,
          In header IMAPClient.auto_reply_headers
          /\ In header (map fst (EmailInfo.headers email_info)))
      \/ (exists pattern,
             In pattern AUTO_REPLY_PATTERNS
             /\ Str.contains (str_lower P pattern)
                  (str_lower P (EmailInfo.body email_info)) = true).
Proof.
  unfold IMAPClient._is_auto_reply, IMAPClient.has_key.
  rewrite orb_true_iff, !existsb_exists.
  split; (intros [(x & Hx & H) | H]; [left | right; exact H]); exists x;
    (split; [exact Hx |]).
  - apply existsb_exists in H. destruct H as (kv & Hkv & Heq).
    apply String.eqb_eq in Heq. subst x. apply in_map. exact Hkv.
  - apply existsb_exists. apply in_map_iff in H.
    destruct H as (kv & <- & Hkv). exists kv.
    split; [exact Hkv | apply String.eqb_refl].
Qed.

(** What the code classifies as automatic, the specification does too. *)
Lemma _is_auto_reply_is_automatic (P : Platform) (email_info : EmailInfo.t) :
  IMAPClient._is_auto_reply P email_info = true ->
  Spec.is_automatic P email_info = true.
Proof.
  unfold IMAPClient._is_auto_reply, Spec.is_automatic, Spec.has_marker,
    IMAPClient.has_key.
  rewrite !orb_true_iff. intros [H | H]; [left | right; exact H].
  apply existsb_exists in H. destruct H as (marker & Hm & H).
  apply existsb_exists in H. destruct H as (kv & Hkv & Heq).
  apply String.eqb_eq in Heq.
  apply existsb_exists. exists marker. split; [exact Hm |].
  apply existsb_exists. exists kv. split; [exact Hkv |].
  rewrite Heq. apply String.eqb_refl.
Qed.

(** C4 (on the code: the marker headers are matched by exact name).  A
    message that references the key and carries the header
    [Auto-Submitted: auto-replied], spelled as RFC 3834 spells it, and no
    configured phrase: automatic by the marker header once case is
    ignored, but [_is_auto_reply] looks for the key ["auto-submitted"] in
    the dictionary of headers and answers [False]; [check_for_replies]
    keeps the message as a reply and [check_for_responses] returns
    [True] on it. *)
Theorem C4_marker_header_in_another_case_is_missed :
  let P := Ascii_platform.platform in
  let env :=
    Scenario.env Scenario.due_at [Scenario.vacation_notice] Scenario.delivered in
  Spec.has_marker P (EmailInfo.headers Scenario.vacation_notice) = true
  /\ Spec.is_automatic P Scenario.vacation_notice = true
  /\ IMAPClient._is_auto_reply P Scenario.vacation_notice = false
  /\ IMAPClient.is_reply P Scenario.key Scenario.vacation_notice = true
  /\ fst (IMAPClient.check_for_replies env Scenario.key "Project update"
            Scenario.registered)
     = Ok [Scenario.vacation_notice]
  /\ fst (EmailManager.check_for_responses env (PyStr Scenario.key)
            Scenario.registered) = Ok true.
Proof. vm_compute. repeat split. Qed.

(** With the marker's name in lower case, or with a configured phrase in
    the body, the same message is classified automatic. *)
Example auto_reply_detected :
  let P := Ascii_platform.platform in
  let lowered :=
    {| EmailInfo.subject := EmailInfo.subject Scenario.vacation_notice;
       EmailInfo.from := EmailInfo.from Scenario.vacation_notice;
       EmailInfo.body := EmailInfo.body Scenario.vacation_notice;
       EmailInfo.message_id := EmailInfo.message_id Scenario.vacation_notice;
       EmailInfo.in_reply_to := EmailInfo.in_reply_to Scenario.vacation_notice;
       EmailInfo.references := EmailInfo.references Scenario.vacation_notice;
       EmailInfo.headers := [("auto-submitted", "auto-replied")] |} in
  let phrased :=
    {| EmailInfo.subject := EmailInfo.subject Scenario.genuine_reply;
       EmailInfo.from := EmailInfo.from Scenario.genuine_reply;
       EmailInfo.body := "I am OUT OF OFFICE until Friday.";
       EmailInfo.message_id := EmailInfo.message_id Scenario.genuine_reply;
       EmailInfo.in_reply_to := EmailInfo.in_reply_to Scenario.genuine_reply;
       EmailInfo.references := EmailInfo.references Scenario.genuine_reply;
       EmailInfo.headers := EmailInfo.headers Scenario.genuine_reply |} in
  IMAPClient._is_auto_reply P lowered = true
  /\ IMAPClient._is_auto_reply P phrased = true
  /\ IMAPClient.is_reply P Scenario.key phrased = false.
Proof. vm_compute. repeat split. Qed.

(* ================================================================== *)
(** * The scheduler *)
(* ================================================================== *)

Lemma error_notifications_app (a b : list event) :
  error_notifications (a ++ b) = (error_notifications a ++ error_notifications b)%list.
Proof. apply flat_map_app. Qed.

Lemma timer_calls_app (a b : list event) :
  timer_calls (a ++ b) = (timer_calls a ++ timer_calls b)%list.
Proof. apply flat_map_app. Qed.

Lemma reconciliations_app (a b : list event) :
  reconciliations (a ++ b) = (reconciliations a + reconciliations b)%nat.
Proof. unfold reconciliations. rewrite filter_app, length_app. reflexivity. Qed.

Lemma maximum_reached_records_app (a b : list event) :
  maximum_reached_records (a ++ b)
  = (maximum_reached_records a + maximum_reached_records b)%nat.
Proof.
  unfold maximum_reached_records. rewrite filter_app, length_app. reflexivity.
Qed.

(** One check cycle, by what the engine did in it. *)
Lemma check_emails_step (process_pending_followups : M unit) (env : Env)
    (self : Scheduler.t) (w : World) :
  let cycle := Scheduler.check_emails process_pending_followups env self w in
  match process_pending_followups (entering w) with
  | (Ok _, w2) =>
      cycle
      = (Ok (Scheduler.set_error_count 0
               (Scheduler.set_last_check (now env) self)),
         {| followups := followups w2;
            sqlite_sequence := sqlite_sequence w2;
            history :=
              (history w2 ++
               [ Emit (check_completed true);
                 Log DEBUG Email_check_cycle_completed_successfully ])%list |})
  | (Raise e, w2) =>
      let count := Scheduler._error_count self + 1 in
      let reached := Scheduler._max_errors self <=? count in
      cycle
      = (Ok {| Scheduler.is_running := Scheduler.is_running self && negb reached;
               Scheduler.timer_active :=
                 if reached && Scheduler.is_running self then false
                 else Scheduler.timer_active self;
               Scheduler.timer_interval := Scheduler.timer_interval self;
               Scheduler._last_check := Scheduler._last_check self;
               Scheduler._error_count := count;
               Scheduler._max_errors := Scheduler._max_errors self |},
         {| followups := followups w2;
            sqlite_sequence := sqlite_sequence w2;
            history :=
              (history w2 ++
               [ Log ERROR (Error_during_email_check e);
                 Emit (check_completed false);
                 Emit (error_occurred e) ] ++
               (if reached then
                  Log ERROR Maximum_error_count_reached_stopping_scheduler
                  :: (if Scheduler.is_running self
                      then [Timer QTimer_stop; Log INFO Scheduler_stopped]
                      else [Log WARNING Scheduler_is_not_running])
                else []))%list |})
  end.
Proof.
  intros cycle. subst cycle.
  unfold Scheduler.check_emails, entering, try_except, bind, log, emit, ret.
  cbn.
  destruct (process_pending_followups _) as [[[] | e] w2]; cbn.
  - rewrite <- app_assoc. reflexivity.
  - unfold Scheduler.stop, Scheduler.timer_stop, Scheduler.set_error_count,
      Scheduler.set_is_running, bind, log, emit, ret.
    cbn.
    destruct (Scheduler._max_errors self <=? Scheduler._error_count self + 1);
      cbn; [| repeat rewrite <- app_assoc; rewrite andb_true_r; reflexivity].
    destruct (Scheduler.is_running self); cbn;
      repeat rewrite <- app_assoc; reflexivity.
Qed.

(** A stopped timer does not fire. *)
Lemma periods_inactive (process_pending_followups : M unit) (env : Env)
    (n : nat) (self : Scheduler.t) (w : World) :
  Scheduler.timer_active self = false ->
  Scheduler.periods process_pending_followups env n self w = (Ok self, w).
Proof.
  intros Hoff. induction n as [| n IH]; [reflexivity |].
  cbn. unfold bind, Scheduler.timeout. rewrite Hoff. cbn. exact IH.
Qed.

(** [k] failing cycles in a row that end on the maximum error count. *)
Lemma failing_periods (process_pending_followups : M unit) (env : Env) :
  always_raises process_pending_followups ->
  engine_events_only process_pending_followups ->
  forall (k : nat) (self : Scheduler.t) (w : World),
    Scheduler.is_running self = true ->
    Scheduler.timer_active self = true ->
    (0 < k)%nat ->
    Scheduler._error_count self + Z.of_nat k = Scheduler._max_errors self ->
    exists self' w' new,
      Scheduler.periods process_pending_followups env k self w = (Ok self', w')
      /\ history w' = (history w ++ new)%list
      /\ Scheduler.is_running self' = false
      /\ Scheduler.timer_active self' = false
      /\ Scheduler._error_count self' = Scheduler._max_errors self
      /\ List.length (error_notifications new) = k
      /\ timer_calls new = [QTimer_stop]
      /\ maximum_reached_records new = 1%nat.
Proof.
  intros Hraises Hevents k.
  induction k as [| k IH]; intros self w Hrun Htimer Hk Hcount; [lia |].
  cbn [Scheduler.periods]. unfold bind at 1. unfold Scheduler.timeout.
  rewrite Htimer.
  pose proof (check_emails_step process_pending_followups env self w) as Hstep.
  cbv zeta in Hstep.
  destruct (Hraises (entering w)) as (e & He).
  destruct (Hevents (entering w)) as (mid & Hmid & Hmid_err & Hmid_timer & Hmid_max).
  destruct (process_pending_followups (entering w)) as [r w2].
  cbn in He, Hmid. subst r. rewrite Hstep. clear Hstep.
  rewrite Hrun.
  destruct k as [| k].
  - (* the last failure: the count reaches the maximum *)
    assert (Hreached :
      (Scheduler._max_errors self <=? Scheduler._error_count self + 1) = true)
      by (apply Z.leb_le; lia).
    rewrite Hreached. cbn.
    do 3 eexists. split; [reflexivity |]. cbn.
    split; [rewrite Hmid; cbn; repeat rewrite <- app_assoc; reflexivity |].
    split; [reflexivity |]. split; [reflexivity |]. split; [lia |].
    rewrite !error_notifications_app, !timer_calls_app,
      !maximum_reached_records_app, Hmid_err, Hmid_timer, Hmid_max.
    cbn. repeat split; reflexivity.
  - (* an earlier failure: the scheduler goes on *)
    assert (Hreached :
      (Scheduler._max_errors self <=? Scheduler._error_count self + 1) = false)
      by (apply Z.leb_gt; lia).
    rewrite Hreached. cbn [andb negb].
    match goal with
    | |- context [Scheduler.periods _ _ _ ?self1 ?w1] =>
        destruct (IH self1 w1) as
          (self' & w' & new & Hper & Hh & Hoff & Htoff & Hc & Herr & Htim & Hmax);
          [reflexivity | exact Htimer | lia | cbn; lia |]
    end.
    exists self', w'. eexists. split; [exact Hper |].
    split; [rewrite Hh; cbn; rewrite Hmid; cbn;
            repeat rewrite <- app_assoc; reflexivity |].
    split; [exact Hoff |]. split; [exact Htoff |].
    split; [exact Hc |].
    rewrite !error_notifications_app, !timer_calls_app,
      !maximum_reached_records_app, Hmid_err, Hmid_timer, Hmid_max.
    cbn.
    rewrite Herr, Htim, Hmax.
    cbn. repeat split; reflexivity.
Qed.

(** C7, as the code has it.  One check cycle, for any engine held by the scheduler:
    if the engine's pass returns, the error count is reset to 0 and
    [check_completed(True)] is emitted; if it raises, the count is
    incremented, [check_completed(False)] and one [error_occurred] are
    emitted, and once the count has reached [_max_errors] the cycle calls
    [stop]: a running scheduler stops its timer and is no longer running.
    Reaching the maximum adds a log record and no signal.  So a running
    scheduler whose engine raises in every cycle is stopped after
    [_max_errors] cycles, having emitted one [error_occurred] per failed
    cycle, called [stop] on its timer once and logged the maximum once;
    its timer does not fire again. *)
Theorem C7_error_escalation (process_pending_followups : M unit)
    (env : Env) (self : Scheduler.t) (w : World) :
  (let cycle := Scheduler.check_emails process_pending_followups env self w in
   match process_pending_followups (entering w) with
   | (Ok _, w2) =>
       fst cycle = Ok (Scheduler.set_error_count 0
                         (Scheduler.set_last_check (now env) self))
       /\ since w2 (snd cycle)
          = [ Emit (check_completed true);
              Log DEBUG Email_check_cycle_completed_successfully ]
   | (Raise e, w2) =>
       let reached :=
         Scheduler._max_errors self <=? Scheduler._error_count self + 1 in
       exists self',
         fst cycle = Ok self'
         /\ Scheduler._error_count self' = Scheduler._error_count self + 1
         /\ Scheduler.is_running self'
            = Scheduler.is_running self && negb reached
         /\ Scheduler.timer_active self'
            = (if reached && Scheduler.is_running self then false
               else Scheduler.timer_active self)
         /\ error_notifications (since w2 (snd cycle)) = [e]
         /\ since w2 (snd cycle)
            = ([ Log ERROR (Error_during_email_check e);
                 Emit (check_completed false);
                 Emit (error_occurred e) ] ++
               (if reached then
                  Log ERROR Maximum_error_count_reached_stopping_scheduler
                  :: (if Scheduler.is_running self
                      then [Timer QTimer_stop; Log INFO Scheduler_stopped]
                      else [Log WARNING Scheduler_is_not_running])
                else []))%list
   end)
  /\ (always_raises process_pending_followups ->
      engine_events_only process_pending_followups ->
      Scheduler.is_running self = true ->
      Scheduler.timer_active self = true ->
      Scheduler._error_count self = 0 ->
      0 < Scheduler._max_errors self ->
      let n := Z.to_nat (Scheduler._max_errors self) in
      let run := Scheduler.periods process_pending_followups env n self w in
      exists self',
        fst run = Ok self'
        /\ Scheduler.is_running self' = false
        /\ Scheduler.timer_active self' = false
        /\ Scheduler._error_count self' = Scheduler._max_errors self
        /\ List.length (error_notifications (since w (snd run))) = n
        /\ timer_calls (since w (snd run)) = [QTimer_stop]
        /\ maximum_reached_records (since w (snd run)) = 1%nat
        /\ (forall m,
              Scheduler.periods process_pending_followups env m self' (snd run)
              = (Ok self', snd run))).
Proof.
  split.
  - intros cycle. subst cycle.
    pose proof (check_emails_step process_pending_followups env self w) as Hstep.
    cbv zeta in Hstep.
    destruct (process_pending_followups (entering w)) as [[[] | e] w2];
      rewrite Hstep; cbn.
    + split; [reflexivity |].
      erewrite since_app; [| cbn; reflexivity]. reflexivity.
    + eexists. split; [reflexivity |]. cbn.
      split; [reflexivity |]. split; [reflexivity |]. split; [reflexivity |].
      erewrite since_app; [| cbn; reflexivity].
      split; [| reflexivity].
      destruct (Scheduler._max_errors self <=? Scheduler._error_count self + 1);
        [destruct (Scheduler.is_running self) |]; reflexivity.
  - intros Hraises Hevents Hrun Htimer Hzero Hmax n run. subst n run.
    destruct (@failing_periods process_pending_followups env Hraises Hevents
                (Z.to_nat (Scheduler._max_errors self)) self w Hrun Htimer)
      as (self' & w' & new & Hper & Hh & Hoff & Htoff & Hc & Herr & Htim & Hm);
      [lia | lia |].
    rewrite Hper. cbn. exists self'.
    erewrite since_app; [| exact Hh].
    repeat (split; [first [reflexivity | assumption] |]).
    intros m. apply periods_inactive. exact Htoff.
Qed.

Lemma C7_witness :
  always_raises Scenario.broken_engine
  /\ engine_events_only Scenario.broken_engine
  /\ exists self',
       fst Scenario.three_failures = Ok self'
       /\ Scheduler.is_running self' = false
       /\ Scheduler.timer_active self' = false.
Proof.
  assert (Hraises : always_raises Scenario.broken_engine)
    by (intros w; eexists; reflexivity).
  assert (Hevents : engine_events_only Scenario.broken_engine)
    by (intros w; exists []; cbn; rewrite app_nil_r; repeat split; reflexivity).
  split; [exact Hraises |]. split; [exact Hevents |].
  destruct (proj2 (@C7_error_escalation Scenario.broken_engine Scenario.due
                     Scenario.running Scenario.empty)
              Hraises Hevents eq_refl eq_refl eq_refl eq_refl)
    as (self' & Hrun & Hoff & Htoff & _).
  exists self'. split; [exact Hrun |]. split; [exact Hoff | exact Htoff].
Defined.

(** Against C7 as the specification words it (exactly one fatal-error
    notification).  Three cycles in a row fail, with [_max_errors] at 3:
    the scheduler stops itself, and the notifications it has emitted by
    then are three [error_occurred] signals, one per failed cycle and all
    alike, not one. *)
Lemma C7_counterexample :
  Scheduler._max_errors Scenario.running = 3
  /\ match fst Scenario.three_failures with
     | Ok self' => Scheduler.is_running self' = false
     | Raise _ => False
     end
  /\ error_notifications (history (snd Scenario.three_failures))
     = [ Exception_ "connection lost";
         Exception_ "connection lost";
         Exception_ "connection lost" ]
  /\ List.length (error_notifications (history (snd Scenario.three_failures)))
     <> 1%nat.
Proof.
  vm_compute. repeat split. intros H. discriminate H.
Qed.

(** The engine of the application adds no event of the scheduler, and
    its pass never ends in an exception: with it, no check cycle fails. *)
Lemma application_engine (env : Env) :
  engine_events_only (EmailManager.process_pending_followups env)
  /\ forall w, fst (EmailManager.process_pending_followups env w) = Ok tt.
Proof.
  split; intros w;
    destruct (process_pending_followups_run env w)
      as (w' & new & -> & Hh & _ & _ & Hp & _); cbn; [| reflexivity].
  exists (Sql SELECT_pending :: new). split; [exact Hh |].
  change (Sql SELECT_pending :: new) with ([Sql SELECT_pending] ++ new)%list.
  rewrite error_notifications_app, timer_calls_app,
    maximum_reached_records_app.
  rewrite (pass_no_error_notification Hp), (pass_no_timer_call Hp),
    (pass_no_maximum_record Hp).
  repeat split; reflexivity.
Qed.

(** A forced check of a running scheduler, with the engine of the
    application. *)
Lemma force_check_running (env : Env) (self : Scheduler.t) (w : World) :
  Scheduler.is_running self = true ->
  exists w' mid,
    Forall pass_event mid
    /\ Scheduler.force_check (EmailManager.process_pending_followups env) env
         self w
       = (Ok {| Scheduler.is_running := true;
                Scheduler.timer_active := true;
                Scheduler.timer_interval := Scheduler.timer_interval self;
                Scheduler._last_check := Some (now env);
                Scheduler._error_count := 0;
                Scheduler._max_errors := Scheduler._max_errors self |},
          {| followups := followups w';
             sqlite_sequence := sqlite_sequence w';
             history :=
               (history w ++
                [ Timer QTimer_stop; Emit check_started;
                  Log DEBUG Starting_email_check_cycle; Sql SELECT_pending ] ++
                mid ++
                [ Emit (check_completed true);
                  Log DEBUG Email_check_cycle_completed_successfully;
                  Timer (QTimer_start None);
                  Log INFO Forced_email_check_initiated ])%list |}).
Proof.
  intros Hrun. unfold Scheduler.force_check. rewrite Hrun.
  unfold bind at 1. unfold Scheduler.timer_stop at 1. unfold bind at 1.
  cbn -[Scheduler.check_emails EmailManager.process_pending_followups].
  unfold bind at 1.
  match goal with
  | |- context [Scheduler.check_emails ?ppf env ?self1 ?w1] =>
      pose proof (check_emails_step ppf env self1 w1) as Hstep;
      cbv zeta in Hstep;
      destruct (process_pending_followups_run env (entering w1))
        as (w' & mid & Hpass & Hh & _ & _ & Hp & _);
      rewrite Hpass in Hstep; rewrite Hstep; clear Hstep
  end.
  cbn. cbn in Hh. exists w', mid. split; [exact Hp |].
  rewrite Hrun, Hh. repeat rewrite <- app_assoc. reflexivity.
Qed.

(** C8, as the code has it.  [force_check] with the engine of the application.
    While the scheduler is not running it performs no reconciliation: it
    logs a warning and changes nothing else, neither the scheduler nor the
    table.  While the scheduler is running it stops the timer, performs
    exactly one reconciliation, and starts the timer again with the
    interval it had; the scheduler is running afterwards, its error count
    is 0. *)
Theorem C8_force_check (env : Env) (self : Scheduler.t) (w : World) :
  let forced :=
    Scheduler.force_check (EmailManager.process_pending_followups env) env
      self w in
  let new := since w (snd forced) in
  history (snd forced) = (history w ++ new)%list
  /\ if Scheduler.is_running self then
       reconciliations new = 1%nat
       /\ timer_calls new = [QTimer_stop; QTimer_start None]
       /\ fst forced
          = Ok {| Scheduler.is_running := true;
                  Scheduler.timer_active := true;
                  Scheduler.timer_interval := Scheduler.timer_interval self;
                  Scheduler._last_check := Some (now env);
                  Scheduler._error_count := 0;
                  Scheduler._max_errors := Scheduler._max_errors self |}
     else
       reconciliations new = 0%nat
       /\ timer_calls new = []
       /\ fst forced = Ok self
       /\ followups (snd forced) = followups w
       /\ new = [Log WARNING Cannot_force_check_scheduler_is_not_running].
Proof.
  intros forced new. subst new forced.
  destruct (Scheduler.is_running self) eqn:Hrun.
  - destruct (force_check_running env self w Hrun) as (w' & mid & Hp & ->).
    erewrite since_app; [| reflexivity].
    split; [reflexivity |].
    rewrite !reconciliations_app, !timer_calls_app.
    rewrite (pass_no_reconciliation Hp), (pass_no_timer_call Hp).
    repeat split; reflexivity.
  - unfold Scheduler.force_check. rewrite Hrun.
    cbn. erewrite since_app; [| cbn; reflexivity].
    repeat split; reflexivity.
Qed.

(** Against C8 as the specification words it (one reconciliation while
    not running).  A scheduler that was never started, a record that is
    due: [force_check] logs that it cannot force a check and returns; it
    did not query the pending rows, so it performed no reconciliation, not
    one. *)
Lemma C8_counterexample :
  Scheduler.is_running Scheduler.__init__ = false
  /\ map Followup.id
       (DatabaseManager.pending Scenario.due (followups Scenario.registered))
     = [1]
  /\ since Scenario.registered (snd Scenario.forced_while_stopped)
     = [Log WARNING Cannot_force_check_scheduler_is_not_running]
  /\ reconciliations
       (since Scenario.registered (snd Scenario.forced_while_stopped))
     <> 1%nat.
Proof.
  vm_compute. repeat split. intros H. discriminate H.
Qed.

(** Forced while running, the same scheduler does reconcile once. *)
Example force_check_while_running :
  let env := Scenario.env Scenario.due_at [] Scenario.delivered in
  let forced :=
    Scheduler.force_check (EmailManager.process_pending_followups env) env
      Scenario.running Scenario.registered in
  reconciliations (since Scenario.registered (snd forced)) = 1%nat
  /\ timer_calls (since Scenario.registered (snd forced))
     = [QTimer_stop; QTimer_start None].
Proof. vm_compute. repeat split. Qed.

(** Started, the scheduler arms its timer and runs one cycle at once. *)
Example start_runs_one_cycle :
  let started :=
    Scheduler.start (EmailManager.process_pending_followups Scenario.due)
      Scenario.due Scheduler.__init__ Scenario.registered in
  fst started
  = Ok {| Scheduler.is_running := true;
          Scheduler.timer_active := true;
          Scheduler.timer_interval := 1800000;
          Scheduler._last_check := Some Scenario.due_at;
          Scheduler._error_count := 0;
          Scheduler._max_errors := 3 |}
  /\ reconciliations (since Scenario.registered (snd started)) = 1%nat
  /\ timer_calls (since Scenario.registered (snd started))
     = [QTimer_start (Some 1800000)].
Proof. vm_compute. repeat split. Qed.

(** A bad record in a batch: the store holds a row whose [email_id] is
    the text ["1"], so that the lookup by the row's [id] finds it, and the
    mailbox raises when asked about it.  The exception is logged and the
    second record of the batch is looked up all the same. *)
Example bad_record_isolated :
  let row (i : Z) (k : string) :=
    {| Followup.id := i;
       Followup.email_id := k;
       Followup.sender := "alice@example.com";
       Followup.recipient := "bob@example.org";
       Followup.subject := "Project update";
       Followup.sent_date := "2024-01-01 10:00:00";
       Followup.followup_date := "2024-01-08 10:00:00";
       Followup.delay_days := 7;
       Followup.status := "pending";
       Followup.followup_count := 0;
       Followup.last_check_date := None;
       Followup.metadata :=
         {| original_message_id := None;
            template_name := "default";
            custom_variables := [] |};
       Followup.created_at := "2024-01-01 10:00:00" |} in
  let w :=
    {| followups := [row 1 "1"; row 2 Scenario.key];
       sqlite_sequence := 2;
       history := [] |} in
  let env :=
    {| platform := Ascii_platform.platform;
       now := Scenario.due_at;
       imap_is_connected := true;
       imap_search := fun _ _ => Imap_raises (Exception_ "socket closed");
       smtp_send_followup := fun _ _ _ => Scenario.delivered |} in
  EmailManager.process_pending_followups env w
  = (Ok tt,
     {| followups := followups w;
        sqlite_sequence := 2;
        history :=
          [ Sql SELECT_pending;
            Sql (SELECT_by_email_id (PyInt 1));
            Imap "Project update" (Imap_raises (Exception_ "socket closed"));
            Log ERROR (Error_checking_for_responses (Exception_ "socket closed"));
            Sql (SELECT_by_email_id (PyInt 1));
            Sql (SELECT_by_email_id (PyInt 1));
            Imap "Project update" (Imap_raises (Exception_ "socket closed"));
            Log ERROR (Error_checking_for_responses (Exception_ "socket closed"));
            Log ERROR (Error_sending_followup AttributeError);
            Sql (SELECT_by_email_id (PyInt 2));
            Log ERROR (Followup_not_found (PyInt 2));
            Sql (SELECT_by_email_id (PyInt 2));
            Log ERROR (Followup_not_found (PyInt 2)) ] |}).
Proof. vm_compute. reflexivity. Qed.

(** A forced check that fails on the maximum error count: [check_emails]
    stops the scheduler, and [force_check] then starts the timer again.
    The scheduler is not running, its timer is. *)
Example forced_failure_rearms_the_timer :
  let at_the_brink :=
    {| Scheduler.is_running := true;
       Scheduler.timer_active := true;
       Scheduler.timer_interval := 1800000;
       Scheduler._last_check := Some Scenario.sent_at;
       Scheduler._error_count := 2;
       Scheduler._max_errors := 3 |} in
  fst (Scheduler.force_check Scenario.broken_engine Scenario.due at_the_brink
         Scenario.empty)
  = Ok {| Scheduler.is_running := false;
          Scheduler.timer_active := true;
          Scheduler.timer_interval := 1800000;
          Scheduler._last_check := Some Scenario.sent_at;
          Scheduler._error_count := 3;
          Scheduler._max_errors := 3 |}.
Proof. vm_compute. reflexivity. Qed.

(* ================================================================== *)
(** * Registration and lookup *)
(* ================================================================== *)

Lemma find_app_none {A} (f : A -> bool) (l l' : list A) :
  existsb f l = false -> find f (l ++ l') = find f l'.
Proof.
  induction l as [| a l IH]; [reflexivity |].
  cbn. destruct (f a); [discriminate |]. exact IH.
Qed.

Lemma max_id_bound (rows : list Followup.t) :
  Forall (fun r => Followup.id r <= DatabaseManager.max_id rows) rows.
Proof.
  induction rows as [| r rows IH]; constructor.
  - unfold DatabaseManager.max_id. cbn [fold_right]. lia.
  - eapply Forall_impl; [| exact IH]. intros a Ha. cbn beta in Ha.
    unfold DatabaseManager.max_id in *. cbn [fold_right]. lia.
Qed.

(** X1.  A registration that succeeds is found again under its key.
    [add_followup] returned [followup_id]: the table has one row more, the
    last; [get_followup_by_email_id] finds that row under the digest of
    (sender, subject, sent date); the row carries the registered sender,
    recipient, subject and delay, the sent date and the follow-up date
    [sent_date + delay_days] as [isoformat(" ")] text, status ["pending"],
    [followup_count] 0 and no [last_check_date]; and its [id], the value
    returned, is above the AUTOINCREMENT counter and above every [id] in the
    table before. *)
Theorem registration_is_found_under_its_key
    (env : Env) (email_data : EmailData.t) (w w1 : World) (followup_id : Z) :
  EmailManager.add_followup env email_data w = (Ok (Some followup_id), w1) ->
  let key :=
    generate_email_id (EmailData.sender email_data)
      (EmailData.subject email_data) (EmailData.sent_date email_data) in
  let found := DatabaseManager.get_followup_by_email_id (PyStr key) w1 in
  exists row followup_date,
    calculate_followup_date (EmailData.sent_date email_data)
      (EmailData.delay_days email_data) = Ok followup_date
    /\ followups w1 = (followups w ++ [row])%list
    /\ fst found = Ok (Some row)
    /\ followups (snd found) = followups w1
    /\ Followup.id row = followup_id
    /\ Followup.email_id row = key
    /\ Followup.sender row = EmailData.sender email_data
    /\ Followup.recipient row = EmailData.recipient email_data
    /\ Followup.subject row = EmailData.subject email_data
    /\ Followup.delay_days row = EmailData.delay_days email_data
    /\ Followup.sent_date row
       = Calendar.isoformat " " (EmailData.sent_date email_data)
    /\ Followup.followup_date row = Calendar.isoformat " " followup_date
    /\ Followup.status row = "pending"
    /\ Followup.followup_count row = 0
    /\ Followup.last_check_date row = None
    /\ sqlite_sequence w < followup_id
    /\ Forall (fun r => Followup.id r < followup_id) (followups w)
    /\ sqlite_sequence w1 = followup_id.
Proof.
  intros Hadd key found. subst found.
  unfold EmailManager.add_followup, try_except, bind, lift in Hadd.
  destruct (calculate_followup_date _ _) as [fd | e]; cbn in Hadd;
    [| discriminate].
  unfold DatabaseManager.add_followup, try_except_sqlite3_Error, bind, emit,
    get_followups, get_sqlite_sequence, set_table, raise, log, emit, ret
    in Hadd.
  cbn in Hadd. fold key in Hadd.
  destruct (existsb _ (followups w)) eqn:Hnew; cbn in Hadd; [discriminate |].
  injection Hadd as Hid Hw1. subst w1.
  match goal with
  | |- context [(followups w ++ [?r])%list] => exists r
  end.
  exists fd. cbn.
  split; [reflexivity |]. split; [reflexivity |].
  unfold DatabaseManager.get_followup_by_email_id, try_except_sqlite3_Error,
    bind, emit, lift, get_followups, ret.
  cbn.
  rewrite find_app_none by exact Hnew.
  cbn. rewrite String.eqb_refl. cbn.
  repeat (split; [first [reflexivity | exact Hid] |]).
  split; [lia |].
  split; [| exact Hid].
  eapply Forall_impl; [| apply max_id_bound]. intros a Ha. cbn beta in Ha.
  unfold DatabaseManager.max_id in Ha. lia.
Qed.

Lemma registration_is_found_under_its_key_witness :
  EmailManager.add_followup
    (Scenario.env Scenario.sent_at [] Scenario.delivered)
    Scenario.registration Scenario.empty
  = (Ok (Some 1), Scenario.registered)
  /\ exists row,
       fst (DatabaseManager.get_followup_by_email_id (PyStr Scenario.key)
              Scenario.registered) = Ok (Some row)
       /\ Followup.id row = 1
       /\ Followup.followup_date row = "2024-01-08 10:00:00".
Proof.
  assert (H : EmailManager.add_followup
                (Scenario.env Scenario.sent_at [] Scenario.delivered)
                Scenario.registration Scenario.empty
              = (Ok (Some 1), Scenario.registered))
    by (vm_compute; reflexivity).
  split; [exact H |].
  destruct (@registration_is_found_under_its_key
              (Scenario.env Scenario.sent_at [] Scenario.delivered)
              Scenario.registration Scenario.empty Scenario.registered 1 H)
    as (row & fd & Hfd & _ & Hfound & _ & Hid & _ & _ & _ & _ & _ & _ & Hdate & _).
  exists row. split; [exact Hfound |]. split; [exact Hid |].
  rewrite Hdate.
  assert (Hd : fd = Scenario.due_at)
    by (vm_compute in Hfd; injection Hfd as <-; reflexivity).
  rewrite Hd. vm_compute. reflexivity.
Defined.

(* ================================================================== *)
(** * The invariants of the table *)
(* ================================================================== *)









(* ================================================================== *)
(** * Updating a status *)
(* ================================================================== *)

(** X3.  [update_followup_status] never answers [False], and its answer
    does not tell whether a row was updated.  With an [int] that SQLite
    takes (64 bits) it returns [True]: the rows whose [id] is that number
    get the new status, the incremented or kept [followup_count] and
    [CURRENT_TIMESTAMP] as [last_check_date]; every other row is as it was;
    and when no row has that [id] the table is unchanged and the answer is
    [True] all the same.  With an [int] beyond 64 bits the [OverflowError]
    of the binding is not a [sqlite3.Error]: it leaves the function, the
    table unchanged. *)
Theorem update_followup_status_never_answers_False
    (env : Env) (followup_id : pyval) (status : string)
    (increment_count : bool) (w : World) :
  let r :=
    DatabaseManager.update_followup_status env followup_id status
      increment_count w in
  fst r <> Ok false
  /\ sqlite_sequence (snd r) = sqlite_sequence w
  /\ List.length (followups (snd r)) = List.length (followups w)
  /\ match followup_id with
     | PyInt k =>
         if (- 2 ^ 63 <=? k) && (k <? 2 ^ 63) then
           fst r = Ok true
           /\ (forall n row,
                 nth_error (followups w) n = Some row ->
                 nth_error (followups (snd r)) n
                 = Some (if Followup.id row =? k
                         then DatabaseManager.updated env status
                                increment_count row
                         else row))
           /\ ((forall row, In row (followups w) -> Followup.id row <> k) ->
               followups (snd r) = followups w)
         else
           fst r = Raise OverflowError /\ followups (snd r) = followups w
     | _ => fst r = Ok true
     end.
Proof.
  intros r. subst r.
  unfold DatabaseManager.update_followup_status, try_except_sqlite3_Error,
    bind, emit, lift, get_followups, set_followups, log, emit, ret.
  destruct followup_id as [| k | s | d];
    [| unfold DatabaseManager.bind_parameter;
       destruct ((- 2 ^ 63 <=? k) && (k <? 2 ^ 63)) | |]; cbn.
  - split; [intros H; discriminate H |]. split; [reflexivity |].
    split; [apply length_map | reflexivity].
  - split; [intros H; discriminate H |]. split; [reflexivity |].
    split; [apply length_map |].
    split; [reflexivity |]. split.
    + intros n row Hn. rewrite nth_error_map, Hn. reflexivity.
    + intros Hnone.
      rewrite <- (map_id (followups w)) at 2.
      apply map_ext_in. intros row Hrow.
      destruct (Followup.id row =? k) eqn:Hk; [| reflexivity].
      apply Z.eqb_eq in Hk. apply Hnone in Hrow. contradiction.
  - split; [intros H; discriminate H |]. repeat split; reflexivity.
  - split; [intros H; discriminate H |]. split; [reflexivity |].
    split; [apply length_map | reflexivity].
  - split; [intros H; discriminate H |]. split; [reflexivity |].
    split; [apply length_map | reflexivity].
Qed.

(** On the registered record: by its row identifier the update reaches the
    row; by a number that no row has it reaches none and returns [True]. *)
Example update_followup_status_samples :
  let hit :=
    DatabaseManager.update_followup_status Scenario.due (PyInt 1) "sent" true
      Scenario.registered in
  let miss :=
    DatabaseManager.update_followup_status Scenario.due (PyInt 2) "sent" true
      Scenario.registered in
  fst hit = Ok true
  /\ map (fun r => (Followup.status r, Followup.followup_count r,
                    Followup.last_check_date r)) (followups (snd hit))
     = [("sent", 1, Some "2024-01-08 10:00:00")]
  /\ fst miss = Ok true
  /\ followups (snd miss) = followups Scenario.registered
  /\ fst (DatabaseManager.update_followup_status Scenario.due
            (PyInt (2 ^ 63)) "sent" true Scenario.registered)
     = Raise OverflowError.
Proof. vm_compute. repeat split. Qed.

(* ================================================================== *)
(** * The query for the pending records *)
(* ================================================================== *)

Lemma ascii_compare_refl (c : ascii) : Ascii.compare c c = Eq.
Proof. unfold Ascii.compare. apply N.compare_refl. Qed.

Lemma ascii_compare_eq (a b : ascii) : Ascii.compare a b = Eq -> a = b.
Proof. apply Ascii.compare_eq_iff. Qed.

Lemma ascii_compare_lt_trans (a b c : ascii) :
  Ascii.compare a b = Lt -> Ascii.compare b c = Lt -> Ascii.compare a c = Lt.
Proof.
  unfold Ascii.compare. rewrite !N.compare_lt_iff. apply N.lt_trans.
Qed.

Lemma string_compare_refl (s : string) : String.compare s s = Eq.
Proof.
  induction s as [| c s IH]; [reflexivity |].
  cbn. rewrite ascii_compare_refl. exact IH.
Qed.

Lemma string_compare_lt_trans (s1 : string) :
  forall s2 s3,
    String.compare s1 s2 = Lt -> String.compare s2 s3 = Lt ->
    String.compare s1 s3 = Lt.
Proof.
  induction s1 as [| c1 s1 IH]; intros [| c2 s2] [| c3 s3]; cbn;
    try discriminate; try reflexivity.
  destruct (Ascii.compare c1 c2) eqn:H12; try discriminate;
    destruct (Ascii.compare c2 c3) eqn:H23; try discriminate; intros Ha Hb.
  - apply ascii_compare_eq in H12, H23. subst c2 c3.
    rewrite ascii_compare_refl. eapply IH; eassumption.
  - apply ascii_compare_eq in H12. subst c2. rewrite H23. reflexivity.
  - apply ascii_compare_eq in H23. subst c3. rewrite H12. reflexivity.
  - rewrite (ascii_compare_lt_trans _ _ _ H12 H23). reflexivity.
Qed.

Lemma string_leb_trans (s1 s2 s3 : string) :
  String.leb s1 s2 = true -> String.leb s2 s3 = true ->
  String.leb s1 s3 = true.
Proof.
  unfold String.leb.
  destruct (String.compare s1 s2) eqn:H12; try discriminate;
    destruct (String.compare s2 s3) eqn:H23; try discriminate; intros _ _.
  - apply String.compare_eq_iff in H12, H23. subst.
    rewrite string_compare_refl. reflexivity.
  - apply String.compare_eq_iff in H12. subst. rewrite H23. reflexivity.
  - apply String.compare_eq_iff in H23. subst. rewrite H12. reflexivity.
  - rewrite (string_compare_lt_trans _ _ _ H12 H23). reflexivity.
Qed.

Lemma string_ltb_leb (s1 s2 : string) :
  String.ltb s1 s2 = true -> String.leb s1 s2 = true.
Proof.
  unfold String.ltb, String.leb. destruct (String.compare s1 s2);
    try discriminate; reflexivity.
Qed.

Lemma string_not_ltb_leb (s1 s2 : string) :
  String.ltb s1 s2 = false -> String.leb s2 s1 = true.
Proof.
  unfold String.ltb, String.leb. rewrite (String.compare_antisym s1 s2).
  destruct (String.compare s2 s1); cbn; try discriminate; reflexivity.
Qed.

Lemma insert_by_date_perm (r : Followup.t) (sorted : list Followup.t) :
  Permutation (DatabaseManager.insert_by_date r sorted) (r :: sorted).
Proof.
  induction sorted as [| r' rest IH]; cbn; [reflexivity |].
  destruct (String.ltb _ _); [reflexivity |].
  rewrite IH. apply perm_swap.
Qed.

Lemma insert_by_date_sorted (r : Followup.t) (sorted : list Followup.t) :
  StronglySorted by_followup_date sorted ->
  StronglySorted by_followup_date (DatabaseManager.insert_by_date r sorted).
Proof.
  induction 1 as [| r' rest Hs IH Hall]; cbn.
  - constructor; constructor.
  - destruct (String.ltb _ _) eqn:Hlt.
    + constructor; [constructor; assumption |].
      apply string_ltb_leb in Hlt.
      constructor; [exact Hlt |].
      eapply Forall_impl; [| exact Hall].
      intros a Ha. unfold by_followup_date in *.
      eapply string_leb_trans; eassumption.
    + constructor; [exact IH |].
      apply string_not_ltb_leb in Hlt.
      rewrite Forall_forall. intros a Ha.
      apply (Permutation_in _ (insert_by_date_perm r rest)) in Ha.
      destruct Ha as [<- | Ha]; [exact Hlt |].
      rewrite Forall_forall in Hall. apply Hall. exact Ha.
Qed.

Lemma order_by_followup_date_spec (rows : list Followup.t) :
  Permutation (DatabaseManager.order_by_followup_date rows) rows
  /\ StronglySorted by_followup_date
       (DatabaseManager.order_by_followup_date rows).
Proof.
  unfold DatabaseManager.order_by_followup_date.
  assert (H : forall acc,
    StronglySorted by_followup_date acc ->
    Permutation
      (fold_left (fun sorted r => DatabaseManager.insert_by_date r sorted)
         rows acc) (rows ++ acc)
    /\ StronglySorted by_followup_date
         (fold_left (fun sorted r => DatabaseManager.insert_by_date r sorted)
            rows acc)).
  { induction rows as [| r rows IH]; intros acc Hacc; cbn.
    - split; [reflexivity | exact Hacc].
    - destruct (IH (DatabaseManager.insert_by_date r acc)
                  (insert_by_date_sorted r Hacc)) as (Hp & Hs).
      split; [| exact Hs].
      rewrite Hp. rewrite insert_by_date_perm.
      symmetry. apply Permutation_middle. }
  destruct (H [] (SSorted_nil _)) as (Hp & Hs).
  rewrite app_nil_r in Hp. split; assumption.
Qed.

(** X4.  [get_pending_followups] returns, and changes nothing: its result
    holds exactly the rows that are due -- status ["pending"] and a
    follow-up date whose text is not above the text of [CURRENT_TIMESTAMP]
    -- each as often as the table holds it, in ascending order of the text
    of the follow-up date. *)
Theorem get_pending_followups_returns_the_due_rows_in_order
    (env : Env) (w : World) :
  let r := DatabaseManager.get_pending_followups env w in
  exists selected,
    fst r = Ok selected
    /\ followups (snd r) = followups w
    /\ sqlite_sequence (snd r) = sqlite_sequence w
    /\ Permutation selected (filter (is_due env) (followups w))
    /\ (forall row,
          In row selected <-> In row (followups w) /\ is_due env row = true)
    /\ StronglySorted by_followup_date selected.
Proof.
  intros r. subst r.
  unfold DatabaseManager.get_pending_followups, try_except_sqlite3_Error,
    bind, emit, get_followups, ret.
  cbn -[DatabaseManager.pending].
  exists (DatabaseManager.pending env (followups w)).
  split; [reflexivity |]. split; [reflexivity |]. split; [reflexivity |].
  unfold DatabaseManager.pending.
  destruct (order_by_followup_date_spec
              (filter (is_due env) (followups w))) as (Hp & Hs).
  split; [exact Hp |]. split; [| exact Hs].
  intros row. rewrite <- filter_In. split; intros Hin.
  - eapply Permutation_in; [exact Hp | exact Hin].
  - eapply Permutation_in; [symmetry; exact Hp | exact Hin].
Qed.

(* ================================================================== *)
(** * Starting and stopping the scheduler *)
(* ================================================================== *)

(** [start] on a scheduler that is not running, with the engine of the
    application. *)
Lemma start_stopped (env : Env) (self : Scheduler.t) (w : World) :
  Scheduler.is_running self = false ->
  exists w' mid,
    Forall pass_event mid
    /\ Scheduler.start (EmailManager.process_pending_followups env) env self w
       = (Ok {| Scheduler.is_running := true;
                Scheduler.timer_active := true;
                Scheduler.timer_interval := check_interval * 1000;
                Scheduler._last_check := Some (now env);
                Scheduler._error_count := 0;
                Scheduler._max_errors := Scheduler._max_errors self |},
          {| followups := followups w';
             sqlite_sequence := sqlite_sequence w';
             history :=
               (history w ++
                [ Timer (QTimer_start (Some (check_interval * 1000)));
                  Log INFO Scheduler_started_successfully;
                  Emit check_started;
                  Log DEBUG Starting_email_check_cycle; Sql SELECT_pending ] ++
                mid ++
                [ Emit (check_completed true);
                  Log DEBUG Email_check_cycle_completed_successfully ])%list |}).
Proof.
  intros Hrun. unfold Scheduler.start. rewrite Hrun. cbn [negb].
  unfold bind at 1. unfold Scheduler.timer_start at 1. unfold bind at 1.
  cbn -[Scheduler.check_emails EmailManager.process_pending_followups
          check_interval Z.mul].
  match goal with
  | |- context [Scheduler.check_emails ?ppf env ?self1 ?w1] =>
      pose proof (check_emails_step ppf env self1 w1) as Hstep;
      cbv zeta in Hstep;
      destruct (process_pending_followups_run env (entering w1))
        as (w' & mid & Hpass & Hh & _ & _ & Hp & _);
      rewrite Hpass in Hstep; rewrite Hstep; clear Hstep
  end.
  cbn -[check_interval Z.mul]. cbn in Hh. exists w', mid.
  split; [exact Hp |].
  rewrite Hh. repeat rewrite <- app_assoc. reflexivity.
Qed.

(** X5.  [start] and [stop], with the engine of the application.  On a
    scheduler that is not running -- never started, stopped by hand, or one
    that stopped itself on its maximum error count -- [start] arms the
    timer with 1 800 000 ms whatever interval it had, resets the error
    count to 0, and runs exactly one reconciliation at once; the scheduler
    is running afterwards.  On a running scheduler [start] only logs a
    warning.  [stop] on a running scheduler stops the timer and nothing
    else: the error count and the time of the last check stay; on a
    scheduler that is not running it only logs a warning. *)
Theorem start_and_stop (env : Env) (self : Scheduler.t) (w : World) :
  let started :=
    Scheduler.start (EmailManager.process_pending_followups env) env self w in
  let stopped := Scheduler.stop self w in
  if Scheduler.is_running self then
    started
    = (Ok self,
       {| followups := followups w;
          sqlite_sequence := sqlite_sequence w;
          history :=
            (history w ++ [Log WARNING Scheduler_is_already_running])%list |})
    /\ stopped
       = (Ok {| Scheduler.is_running := false;
                Scheduler.timer_active := false;
                Scheduler.timer_interval := Scheduler.timer_interval self;
                Scheduler._last_check := Scheduler._last_check self;
                Scheduler._error_count := Scheduler._error_count self;
                Scheduler._max_errors := Scheduler._max_errors self |},
          {| followups := followups w;
             sqlite_sequence := sqlite_sequence w;
             history :=
               (history w ++
                [Timer QTimer_stop; Log INFO Scheduler_stopped])%list |})
  else
    fst started
    = Ok {| Scheduler.is_running := true;
            Scheduler.timer_active := true;
            Scheduler.timer_interval := 1800000;
            Scheduler._last_check := Some (now env);
            Scheduler._error_count := 0;
            Scheduler._max_errors := Scheduler._max_errors self |}
    /\ reconciliations (since w (snd started)) = 1%nat
    /\ timer_calls (since w (snd started)) = [QTimer_start (Some 1800000)]
    /\ error_notifications (since w (snd started)) = []
    /\ stopped
       = (Ok self,
          {| followups := followups w;
             sqlite_sequence := sqlite_sequence w;
             history :=
               (history w ++ [Log WARNING Scheduler_is_not_running])%list |}).
Proof.
  intros started stopped. subst started stopped.
  destruct (Scheduler.is_running self) eqn:Hrun.
  - unfold Scheduler.start, Scheduler.stop, Scheduler.timer_stop,
      Scheduler.set_is_running, bind, log, emit, ret.
    rewrite Hrun. cbn. rewrite <- app_assoc. split; reflexivity.
  - destruct (start_stopped env self w Hrun) as (w' & mid & Hp & ->).
    change (check_interval * 1000) with 1800000.
    cbn [fst snd].
    erewrite since_app; [| reflexivity].
    split; [reflexivity |].
    rewrite !reconciliations_app, !timer_calls_app, !error_notifications_app.
    rewrite (pass_no_reconciliation Hp), (pass_no_timer_call Hp),
      (pass_no_error_notification Hp).
    split; [reflexivity |]. split; [reflexivity |]. split; [reflexivity |].
    unfold Scheduler.stop. rewrite Hrun. reflexivity.
Qed.

(** A scheduler that stopped itself after three failed cycles is started
    again by hand: it runs, its error count is back to 0. *)
Example restart_after_the_maximum_error_count :
  match fst Scenario.three_failures with
  | Ok halted =>
      Scheduler.is_running halted = false
      /\ Scheduler._error_count halted = 3
      /\ match fst (Scheduler.start
                      (EmailManager.process_pending_followups Scenario.due)
                      Scenario.due halted Scenario.registered) with
         | Ok again =>
             Scheduler.is_running again = true
             /\ Scheduler.timer_active again = true
             /\ Scheduler._error_count again = 0
         | Raise _ => False
         end
  | Raise _ => False
  end.
Proof. vm_compute. repeat split. Qed.

(* ================================================================== *)
(** * A mailbox that cannot be searched *)
(* ================================================================== *)

(** [check_for_responses] on a stored record while the mailbox cannot be
    searched. *)
Lemma check_for_responses_unreachable (env : Env) (followup_id : pyval)
    (f : Followup.t) (w : World) :
  mailbox_unreachable env ->
  stored_record (followups w) followup_id = Some f ->
  exists rest,
    EmailManager.check_for_responses env followup_id w
    = (Ok false,
       {| followups := followups w;
          sqlite_sequence := sqlite_sequence w;
          history :=
            (history w ++ Sql (SELECT_by_email_id followup_id) :: rest)%list |})
    /\ (rest = [Log ERROR Not_connected_to_IMAP_server]
        \/ rest = [ Imap (sanitize_subject (platform env) (Followup.subject f))
                      IMAP4_error;
                    Log ERROR Error_checking_for_replies ]).
Proof.
  intros Hdown Hfound.
  destruct (@stored_record_found _ _ _ Hfound) as (p & Hb & Hfind).
  unfold EmailManager.check_for_responses, try_except, bind,
    DatabaseManager.get_followup_by_email_id, try_except_sqlite3_Error, bind,
    lift, get_followups, ret, log, emit.
  cbn. rewrite Hb. cbn. rewrite Hfind. cbn.
  unfold IMAPClient.check_for_replies.
  destruct (imap_is_connected env) eqn:Hconn; cbn.
  - destruct Hdown as [Hdown | Hdown]; [congruence |].
    unfold bind, get_history, emit, ret, log, raise, emit. cbn.
    rewrite Hdown. cbn.
    eexists. repeat rewrite <- app_assoc. cbn.
    split; [reflexivity |]. right. reflexivity.
  - unfold log, emit, bind, ret. cbn.
    eexists. repeat rewrite <- app_assoc. cbn.
    split; [reflexivity |]. left. reflexivity.
Qed.

(** [send_followup] on a stored record while the mailbox cannot be
    searched, the dates formattable and the SMTP client delivering. *)
Lemma send_followup_unreachable (env : Env) (followup_id : pyval)
    (followup : Followup.t) (w : World) (DATE_ENVOI DATE_RELANCE : string) :
  mailbox_unreachable env ->
  stored_record (followups w) followup_id = Some followup ->
  format_date (timestamp_cell (platform env)
                 (Followup.sent_date followup)) = Ok DATE_ENVOI ->
  format_date (timestamp_cell (platform env)
                 (Followup.followup_date followup)) = Ok DATE_RELANCE ->
  sender_delivers env ->
  exists rest vars msg_id,
    EmailManager.send_followup env followup_id w
    = (Ok true,
       {| followups :=
            rows_after_update env followup_id "sent" true (followups w);
          sqlite_sequence := sqlite_sequence w;
          history :=
            (history w ++
             [ Sql (SELECT_by_email_id followup_id);
               Sql (SELECT_by_email_id followup_id) ] ++
             rest ++
             [ Smtp {| to := Followup.recipient followup;
                       original_subject := Followup.subject followup;
                       original_id :=
                         original_message_id (Followup.metadata followup) |}
                 vars (Message_ID msg_id);
               Sql (UPDATE_status followup_id "sent" true);
               Log DEBUG (Updated_followup_status followup_id "sent");
               Log INFO (Followup_sent_successfully_for_ID followup_id) ])%list |})
    /\ Forall benign rest.
Proof.
  intros Hdown Hfound Hd1 Hd2 Hsmtp.
  destruct (@stored_record_found _ _ _ Hfound) as (p & Hb & Hfind).
  unfold EmailManager.send_followup, try_except, bind,
    DatabaseManager.get_followup_by_email_id, try_except_sqlite3_Error, bind,
    lift, get_followups, ret, log, emit.
  cbn -[EmailManager.check_for_responses].
  rewrite Hb. cbn -[EmailManager.check_for_responses].
  rewrite Hfind. cbn -[EmailManager.check_for_responses].
  match goal with
  | |- context [EmailManager.check_for_responses env followup_id ?w1] =>
      destruct (@check_for_responses_unreachable env followup_id followup w1
                  Hdown Hfound) as (rest2 & Hcheck2 & Hrest2)
  end.
  rewrite Hcheck2. cbn.
  rewrite Hd1. cbn. rewrite Hd2. cbn.
  unfold EmailManager.dispatch, EmailManager.smtp_send, bind, get_history,
    emit, ret, raise, log, emit.
  cbn.
  match goal with
  | |- context [smtp_send_followup env ?h ?o ?vars] =>
      destruct (Hsmtp h o vars) as (c & m & ->)
  end.
  cbn.
  unfold DatabaseManager.update_followup_status, try_except_sqlite3_Error,
    bind, emit, lift, get_followups, set_followups, log, emit, ret.
  cbn. rewrite Hb. cbn.
  exists rest2. do 2 eexists.
  unfold rows_after_update. rewrite Hb.
  repeat rewrite <- app_assoc. cbn.
  split; [reflexivity |].
  destruct Hrest2 as [-> | ->]; repeat constructor.
Qed.

(** X6.  A mailbox that cannot be searched counts as a mailbox without a
    reply.  While the IMAP client is not connected, or while every search
    ends in [imaplib.IMAP4.error], [check_for_responses] on a stored record
    logs the failure and returns [False] as it does when nobody answered,
    the record unchanged; and [send_followup], where the dates of the row
    can be formatted and the SMTP client delivers, hands the follow-up to
    the SMTP client once, executes the update to ["sent"] and returns
    [True]: the follow-up goes out without the replies having been
    looked at. *)
Theorem unreachable_mailbox_counts_as_no_reply
    (env : Env) (followup_id : pyval) (followup : Followup.t) (w : World) :
  mailbox_unreachable env ->
  stored_record (followups w) followup_id = Some followup ->
  let checked := EmailManager.check_for_responses env followup_id w in
  let sent := EmailManager.send_followup env followup_id w in
  (fst checked = Ok false
   /\ followups (snd checked) = followups w
   /\ (In (Log ERROR Not_connected_to_IMAP_server) (since w (snd checked))
       \/ In (Log ERROR Error_checking_for_replies) (since w (snd checked))))
  /\ (forall DATE_ENVOI DATE_RELANCE,
        format_date (timestamp_cell (platform env)
                       (Followup.sent_date followup)) = Ok DATE_ENVOI ->
        format_date (timestamp_cell (platform env)
                       (Followup.followup_date followup)) = Ok DATE_RELANCE ->
        sender_delivers env ->
        fst sent = Ok true
        /\ smtp_calls (since w (snd sent))
           = [ {| to := Followup.recipient followup;
                  original_subject := Followup.subject followup;
                  original_id :=
                    original_message_id (Followup.metadata followup) |} ]
        /\ statuses_written (since w (snd sent)) = ["sent"]
        /\ followups (snd sent)
           = rows_after_update env followup_id "sent" true (followups w)).
Proof.
  intros Hdown Hfound checked sent. subst checked sent.
  destruct (@check_for_responses_unreachable env followup_id followup w
              Hdown Hfound)
    as (rest & Hcheck & Hrest).
  split.
  - rewrite Hcheck. cbn.
    split; [reflexivity |]. split; [reflexivity |].
    erewrite since_app; [| cbn; reflexivity].
    destruct Hrest as [-> | ->]; [left | right]; cbn; auto.
  - intros d1 d2 Hd1 Hd2 Hsmtp.
    destruct (@send_followup_unreachable env followup_id followup w d1 d2
                Hdown Hfound Hd1 Hd2 Hsmtp)
      as (rest2 & vars & msg_id & -> & Hbenign).
    cbn [fst snd followups].
    split; [reflexivity |].
    erewrite since_app; [| reflexivity].
    destruct (benign_is_quiet Hbenign) as (Hq1 & Hq2 & _).
    rewrite !smtp_calls_app, !statuses_written_app, Hq1, Hq2.
    cbn. repeat split; reflexivity.
Qed.

Lemma unreachable_mailbox_counts_as_no_reply_witness :
  let env :=
    {| platform := Scenario.detecting;
       now := Scenario.due_at;
       imap_is_connected := false;
       imap_search := fun _ _ => Fetched [Scenario.genuine_reply];
       smtp_send_followup := fun _ _ _ => Scenario.delivered |} in
  fst (EmailManager.check_for_responses env (PyStr Scenario.key)
         Scenario.registered) = Ok false
  /\ fst (EmailManager.send_followup env (PyStr Scenario.key)
            Scenario.registered) = Ok true
  /\ statuses_written
       (since Scenario.registered
          (snd (EmailManager.send_followup env (PyStr Scenario.key)
                  Scenario.registered))) = ["sent"].
Proof.
  intros env.
  assert (Hdown : mailbox_unreachable env) by (left; reflexivity).
  assert (Hrow : exists row,
            stored_record (followups Scenario.registered) (PyStr Scenario.key)
            = Some row
            /\ format_date (timestamp_cell (platform env)
                              (Followup.sent_date row)) = Ok "01/01/2024 10:00"
            /\ format_date (timestamp_cell (platform env)
                              (Followup.followup_date row))
               = Ok "08/01/2024 10:00").
  { let found :=
      eval vm_compute in
        (stored_record (followups Scenario.registered) (PyStr Scenario.key)) in
    match found with Some ?row => exists row end.
    split; [| split]; vm_compute; reflexivity. }
  destruct Hrow as (row & Hfound & Hd1 & Hd2).
  destruct (@unreachable_mailbox_counts_as_no_reply env (PyStr Scenario.key)
              row Scenario.registered Hdown Hfound) as ((Hc & _) & Hsend).
  split; [exact Hc |].
  destruct (Hsend _ _ Hd1 Hd2) as (Ht & _ & Hs & _).
  - intros h o vars. do 2 eexists. reflexivity.
  - split; [exact Ht | exact Hs].
Defined.

(* ================================================================== *)
(** * Keys *)
(* ================================================================== *)

Lemma string_append_assoc (a b c : string) :
  ((a ++ b) ++ c)%string = (a ++ (b ++ c))%string.
Proof.
  induction a as [| x a IH]; [reflexivity |].
  cbn. rewrite IH. reflexivity.
Qed.

(** A registration is rejected when the table holds its key. *)
Lemma add_followup_on_a_stored_key (env : Env) (email_data : EmailData.t)
    (w : World) :
  existsb (fun r => String.eqb (Followup.email_id r)
                      (generate_email_id (EmailData.sender email_data)
                         (EmailData.subject email_data)
                         (EmailData.sent_date email_data)))
    (followups w) = true ->
  fst (EmailManager.add_followup env email_data w) = Ok None
  /\ followups (snd (EmailManager.add_followup env email_data w)) = followups w
  /\ sqlite_sequence (snd (EmailManager.add_followup env email_data w))
     = sqlite_sequence w.
Proof.
  intros Hdup.
  pose proof (add_followup_run env email_data w) as Hrun. cbv zeta in Hrun.
  destruct (calculate_followup_date _ _) as [d | e].
  - rewrite Hdup in Hrun. rewrite Hrun. repeat split; reflexivity.
  - rewrite Hrun. repeat split; reflexivity.
Qed.

(** After a registration that succeeded the table holds its key. *)
Lemma add_followup_stores_the_key (env : Env) (email_data : EmailData.t)
    (w w1 : World) (followup_id : Z) :
  EmailManager.add_followup env email_data w = (Ok (Some followup_id), w1) ->
  existsb (fun r => String.eqb (Followup.email_id r)
                      (generate_email_id (EmailData.sender email_data)
                         (EmailData.subject email_data)
                         (EmailData.sent_date email_data)))
    (followups w1) = true.
Proof.
  intros Hfirst.
  pose proof (add_followup_run env email_data w) as Hrun. cbv zeta in Hrun.
  destruct (calculate_followup_date _ _) as [d | e];
    [| rewrite Hrun in Hfirst; discriminate].
  destruct (existsb _ (followups w));
    [rewrite Hrun in Hfirst; discriminate |].
  destruct Hrun as (row & Hk & _ & _ & _ & Hrun).
  rewrite Hrun in Hfirst. injection Hfirst as _ <-. cbn.
  rewrite existsb_app. cbn. rewrite Hk, String.eqb_refl.
  rewrite orb_true_r. reflexivity.
Qed.

(** X7.  The key is the digest of the plain concatenation of sender, subject
    and sent date, so it does not tell where the sender ends and the
    subject begins: two registrations with the same sent date whose sender
    followed by subject read the same have the same key, however the two
    fields differ, and the second is rejected as a duplicate of the first,
    the table unchanged. *)
Theorem registrations_with_the_same_concatenation_collide
    (env env' : Env) (first second : EmailData.t) (w w1 : World)
    (followup_id : Z) :
  EmailManager.add_followup env first w = (Ok (Some followup_id), w1) ->
  (EmailData.sender second ++ EmailData.subject second)%string
  = (EmailData.sender first ++ EmailData.subject first)%string ->
  EmailData.sent_date second = EmailData.sent_date first ->
  generate_email_id (EmailData.sender second) (EmailData.subject second)
    (EmailData.sent_date second)
  = generate_email_id (EmailData.sender first) (EmailData.subject first)
      (EmailData.sent_date first)
  /\ fst (EmailManager.add_followup env' second w1) = Ok None
  /\ followups (snd (EmailManager.add_followup env' second w1)) = followups w1
  /\ sqlite_sequence (snd (EmailManager.add_followup env' second w1))
     = sqlite_sequence w1.
Proof.
  intros Hfirst Hconcat Hdate.
  assert (Hkey :
    generate_email_id (EmailData.sender second) (EmailData.subject second)
      (EmailData.sent_date second)
    = generate_email_id (EmailData.sender first) (EmailData.subject first)
        (EmailData.sent_date first)).
  { unfold generate_email_id.
    rewrite <- !string_append_assoc, Hconcat, Hdate. reflexivity. }
  split; [exact Hkey |].
  apply add_followup_on_a_stored_key. rewrite Hkey.
  eapply add_followup_stores_the_key. exact Hfirst.
Qed.

Lemma registrations_with_the_same_concatenation_collide_witness :
  EmailData.sender Cases.shifted_registration
  <> EmailData.sender Scenario.registration
  /\ EmailData.subject Cases.shifted_registration
     <> EmailData.subject Scenario.registration
  /\ fst (EmailManager.add_followup Scenario.due Cases.shifted_registration
            Scenario.registered) = Ok None.
Proof.
  split; [intros H; discriminate H |].
  split; [intros H; discriminate H |].
  assert (H : EmailManager.add_followup
                (Scenario.env Scenario.sent_at [] Scenario.delivered)
                Scenario.registration Scenario.empty
              = (Ok (Some 1), Scenario.registered))
    by (vm_compute; reflexivity).
  exact (proj1 (proj2
           (@registrations_with_the_same_concatenation_collide
              (Scenario.env Scenario.sent_at [] Scenario.delivered)
              Scenario.due Scenario.registration Cases.shifted_registration
              Scenario.empty Scenario.registered 1 H eq_refl eq_refl))).
Defined.

(* ================================================================== *)
(** * The calendar *)
(* ================================================================== *)

Lemma all_from_spec (n : nat) (p : Z -> bool) :
  forall k,
    Dates.all_from n k p = true ->
    forall i, k <= i < k + Z.of_nat n -> p i = true.
Proof.
  induction n as [| n IH]; intros k H i Hi; [lia |].
  cbn [Dates.all_from] in H. apply andb_true_iff in H. destruct H as (H0 & H).
  destruct (Z.eq_dec i k) as [-> | Hne]; [exact H0 |].
  apply (IH (k + 1)); [exact H | lia].
Qed.

(** The 146 097 days of the 400-year cycle, checked one by one. *)
Lemma days_of_the_cycle :
  Dates.all_from (Z.to_nat 146097) 0 Dates.day_of_cycle_ok = true.
Proof. vm_cast_no_check (@eq_refl bool true). Qed.

(** The dates of the years 1..400, checked one by one. *)
Lemma dates_of_the_cycle :
  Dates.all_from (Z.to_nat 148800) 0 Dates.date_of_cycle_ok = true.
Proof. vm_cast_no_check (@eq_refl bool true). Qed.

Lemma is_leap_shift (y q : Z) :
  Calendar._is_leap (y + 400 * q) = Calendar._is_leap y.
Proof.
  unfold Calendar._is_leap.
  replace (y + 400 * q) with (y + (100 * q) * 4) at 1 by lia.
  replace (y + 400 * q) with (y + (4 * q) * 100) at 1 by lia.
  replace (y + 400 * q) with (y + q * 400) by lia.
  rewrite !Z.mod_add by lia. reflexivity.
Qed.

Lemma days_before_year_shift (y q : Z) :
  Calendar._days_before_year (y + 400 * q)
  = Calendar._days_before_year y + 146097 * q.
Proof.
  unfold Calendar._days_before_year. cbv zeta.
  replace (y + 400 * q - 1) with (y - 1 + 400 * q) by lia.
  replace ((y - 1 + 400 * q) / 4) with ((y - 1) / 4 + 100 * q)
    by (replace (y - 1 + 400 * q) with (y - 1 + (100 * q) * 4) by lia;
        rewrite Z.div_add by lia; reflexivity).
  replace ((y - 1 + 400 * q) / 100) with ((y - 1) / 100 + 4 * q)
    by (replace (y - 1 + 400 * q) with (y - 1 + (4 * q) * 100) by lia;
        rewrite Z.div_add by lia; reflexivity).
  replace ((y - 1 + 400 * q) / 400) with ((y - 1) / 400 + q)
    by (replace (y - 1 + 400 * q) with (y - 1 + q * 400) by lia;
        rewrite Z.div_add by lia; reflexivity).
  lia.
Qed.

Lemma ymd2ord_shift (y m d q : Z) :
  Calendar._ymd2ord (y + 400 * q) m d = Calendar._ymd2ord y m d + 146097 * q.
Proof.
  unfold Calendar._ymd2ord, Calendar._days_before_month.
  rewrite days_before_year_shift, is_leap_shift. lia.
Qed.

Lemma days_in_month_shift (y m q : Z) :
  Dates._days_in_month (y + 400 * q) m = Dates._days_in_month y m.
Proof. unfold Dates._days_in_month. rewrite is_leap_shift. reflexivity. Qed.

Lemma ord2ymd_shift (q r : Z) :
  0 <= r < 146097 ->
  Calendar._ord2ymd (146097 * q + r + 1)
  = let '(y, m, d) := Calendar._ord2ymd (r + 1) in (y + 400 * q, m, d).
Proof.
  intros Hr. unfold Calendar._ord2ymd. cbv zeta.
  unfold Calendar._DI400Y.
  replace (146097 * q + r + 1 - 1) with (r + q * 146097) by lia.
  replace (r + 1 - 1) with r by lia.
  rewrite Z.div_add, Z.mod_add by lia.
  rewrite (Z.div_small r 146097), (Z.mod_small r 146097) by lia.
  rewrite Z.add_0_l.
  set (n100 := r / Calendar._DI100Y).
  set (r1 := r mod Calendar._DI100Y).
  set (n4 := r1 / Calendar._DI4Y).
  set (r2 := r1 mod Calendar._DI4Y).
  set (n1 := r2 / 365).
  set (r3 := r2 mod 365).
  destruct ((n1 =? 4) || (n100 =? 4)); [f_equal; f_equal; lia |].
  match goal with
  | |- (if ?c then _ else _) = _ => destruct c
  end; f_equal; f_equal; lia.
Qed.

Ltac to_props H :=
  repeat first
    [ rewrite andb_true_iff in H | rewrite orb_true_iff in H
    | rewrite Z.leb_le in H | rewrite Z.ltb_lt in H | rewrite Z.eqb_eq in H ].

Ltac to_props_goal :=
  repeat first
    [ rewrite andb_true_iff | rewrite orb_true_iff
    | rewrite Z.leb_le | rewrite Z.ltb_lt | rewrite Z.eqb_eq ].

Lemma day_of_cycle (r : Z) :
  0 <= r < 146097 -> Dates.day_of_cycle_ok r = true.
Proof.
  intros Hr. apply (@all_from_spec _ _ _ days_of_the_cycle).
  rewrite Z2Nat.id; lia.
Qed.

Lemma date_of_cycle (k : Z) :
  0 <= k < 148800 -> Dates.date_of_cycle_ok k = true.
Proof.
  intros Hk. apply (@all_from_spec _ _ _ dates_of_the_cycle).
  rewrite Z2Nat.id; lia.
Qed.

(** From an ordinal to its date and back. *)
Lemma ordinal_round_trip (n : Z) :
  1 <= n <= Calendar._MAXORDINAL ->
  let '(y, m, d) := Calendar._ord2ymd n in
  Calendar._ymd2ord y m d = n /\ Dates.valid_date y m d = true.
Proof.
  unfold Calendar._MAXORDINAL. intros Hn.
  pose proof (Z.div_mod (n - 1) 146097 ltac:(lia)) as Hdm.
  pose proof (Z.mod_pos_bound (n - 1) 146097 ltac:(lia)) as Hr.
  set (q := (n - 1) / 146097) in *. set (r := (n - 1) mod 146097) in *.
  assert (Hq : 0 <= q <= 24).
  { split; [apply Z.div_pos; lia |].
    apply Z.lt_succ_r. apply Z.div_lt_upper_bound; lia. }
  replace n with (146097 * q + r + 1) by lia.
  rewrite ord2ymd_shift by exact Hr.
  pose proof (@day_of_cycle r Hr) as Hok. unfold Dates.day_of_cycle_ok in Hok.
  destruct (Calendar._ord2ymd (r + 1)) as [[y m] d].
  to_props Hok.
  rewrite ymd2ord_shift.
  split; [lia |].
  unfold Dates.valid_date. rewrite days_in_month_shift.
  to_props_goal. lia.
Qed.

Lemma days_in_month_bounds (y m : Z) :
  1 <= m <= 12 -> 28 <= Dates._days_in_month y m <= 31.
Proof.
  intros Hm. unfold Dates._days_in_month.
  assert (Hcases : m = 1 \/ m = 2 \/ m = 3 \/ m = 4 \/ m = 5 \/ m = 6 \/ m = 7
                   \/ m = 8 \/ m = 9 \/ m = 10 \/ m = 11 \/ m = 12) by lia.
  repeat (destruct Hcases as [-> | Hcases]); try subst m;
    destruct (Calendar._is_leap y);
    cbv [Z.to_nat Pos.to_nat Pos.iter_op Nat.add nth Calendar._DAYS_IN_MONTH
         Z.eqb Pos.eqb andb];
    lia.
Qed.

(** From a date to its ordinal and back. *)
Lemma date_round_trip (y m d : Z) :
  Dates.valid_date y m d = true ->
  Calendar._ord2ymd (Calendar._ymd2ord y m d) = (y, m, d)
  /\ 1 <= Calendar._ymd2ord y m d <= Calendar._MAXORDINAL.
Proof.
  unfold Dates.valid_date, Calendar._MAXORDINAL. intros H. to_props H.
  pose proof (@days_in_month_bounds y m ltac:(lia)) as Hdim.
  pose proof (Z.div_mod (y - 1) 400 ltac:(lia)) as Hdm.
  pose proof (Z.mod_pos_bound (y - 1) 400 ltac:(lia)) as Hr.
  set (q := (y - 1) / 400) in *. set (y0 := (y - 1) mod 400 + 1).
  assert (Hy : y = y0 + 400 * q) by (subst y0; lia).
  assert (Hy0 : 1 <= y0 <= 400) by (subst y0; lia).
  assert (Hq : 0 <= q <= 24).
  { split; [apply Z.div_pos; lia |].
    apply Z.lt_succ_r. apply Z.div_lt_upper_bound; lia. }
  clearbody y0 q. clear Hdm Hr. subst y.
  rewrite days_in_month_shift in *.
  set (k := (y0 - 1) * 372 + (m - 1) * 31 + (d - 1)).
  assert (Hk : 0 <= k < 148800) by (subst k; lia).
  pose proof (@date_of_cycle k Hk) as Hok. unfold Dates.date_of_cycle_ok in Hok.
  assert (Hk1 : k / 372 + 1 = y0).
  { rewrite <- (Z.div_unique k 372 (y0 - 1) ((m - 1) * 31 + (d - 1)));
      subst k; lia. }
  assert (Hk2 : k mod 372 = (m - 1) * 31 + (d - 1)).
  { symmetry. apply (Z.mod_unique k 372 (y0 - 1)); subst k; lia. }
  assert (Hk3 : k mod 31 + 1 = d).
  { rewrite <- (Z.mod_unique k 31 (12 * (y0 - 1) + (m - 1)) (d - 1));
      subst k; lia. }
  assert (Hk4 : (k mod 372) / 31 + 1 = m).
  { rewrite Hk2.
    rewrite <- (Z.div_unique ((m - 1) * 31 + (d - 1)) 31 (m - 1) (d - 1)); lia. }
  cbv zeta in Hok. rewrite Hk1, Hk3, Hk4 in Hok.
  assert (Hd : (d <=? Dates._days_in_month y0 m) = true) by (apply Z.leb_le; lia).
  rewrite Hd in Hok.
  rewrite ymd2ord_shift.
  set (n0 := Calendar._ymd2ord y0 m d) in *.
  destruct (Calendar._ord2ymd n0) as [[y' m'] d'] eqn:Hord.
  unfold Calendar._DI400Y in Hok. to_props Hok.
  destruct Hok as ((Hlo & Hhi) & (Hy' & Hm') & Hd').
  subst y' m' d'.
  split.
  - replace (n0 + 146097 * q) with (146097 * q + (n0 - 1) + 1) by lia.
    rewrite ord2ymd_shift by lia.
    replace (n0 - 1 + 1) with n0 by lia. rewrite Hord. reflexivity.
  - split; [lia |].
    destruct (Z.eq_dec q 24) as [-> | Hne]; [| lia].
    pose proof (@day_of_cycle (n0 - 1) ltac:(lia)) as Hday.
    unfold Dates.day_of_cycle_ok in Hday.
    replace (n0 - 1 + 1) with n0 in Hday by lia. rewrite Hord in Hday.
    to_props Hday. lia.
Qed.

Lemma valid_date_of_valid (d : datetime) :
  Dates.valid d = true ->
  Dates.valid_date (year d) (month d) (day d) = true.
Proof.
  unfold Dates.valid. rewrite !andb_true_iff. tauto.
Qed.

Lemma toordinal_injective (a b : datetime) :
  Dates.valid a = true -> Dates.valid b = true ->
  Calendar.toordinal a = Calendar.toordinal b ->
  year a = year b /\ month a = month b /\ day a = day b.
Proof.
  unfold Calendar.toordinal. intros Ha Hb Heq.
  apply valid_date_of_valid in Ha, Hb.
  destruct (@date_round_trip _ _ _ Ha) as (Hra & _).
  destruct (@date_round_trip _ _ _ Hb) as (Hrb & _).
  rewrite Heq in Hra. rewrite Hra in Hrb.
  injection Hrb as -> -> ->. repeat split; reflexivity.
Qed.

(** X8.  [calculate_followup_date] is exact.  For a [datetime] and a delay
    whose sum stays within the years 1..9999 it returns the one [datetime]
    that lies [delay_days] days after [sent_date] at the same time of day:
    its ordinal is the ordinal of [sent_date] plus [delay_days], hour,
    minute, second and microsecond are those of [sent_date], it is a value
    that [datetime] accepts, and no other such value is; with a delay of 0
    it is [sent_date] itself.  Outside the years 1..9999 the sum raises
    [OverflowError]. *)
Theorem calculate_followup_date_is_exact
    (sent_date : datetime) (delay_days : Z) :
  Dates.valid sent_date = true ->
  let o := Calendar.toordinal sent_date + delay_days in
  if (1 <=? o) && (o <=? 3652059) then
    exists followup_date,
      calculate_followup_date sent_date delay_days = Ok followup_date
      /\ Dates.valid followup_date = true
      /\ Calendar.toordinal followup_date = o
      /\ Dates.seconds followup_date
         = Dates.seconds sent_date + 86400 * delay_days
      /\ hour followup_date = hour sent_date
      /\ minute followup_date = minute sent_date
      /\ second followup_date = second sent_date
      /\ microsecond followup_date = microsecond sent_date
      /\ (forall d,
            Dates.valid d = true ->
            Calendar.toordinal d = o ->
            hour d = hour sent_date ->
            minute d = minute sent_date ->
            second d = second sent_date ->
            microsecond d = microsecond sent_date ->
            d = followup_date)
      /\ (delay_days = 0 -> followup_date = sent_date)
  else calculate_followup_date sent_date delay_days = Raise OverflowError.
Proof.
  intros Hvalid o. unfold calculate_followup_date. fold o.
  replace (0 <? o) with (1 <=? o)
    by (destruct (Z.leb_spec 1 o), (Z.ltb_spec 0 o); reflexivity || lia).
  change Calendar._MAXORDINAL with 3652059.
  destruct ((1 <=? o) && (o <=? 3652059)) eqn:Hrange; [| reflexivity].
  to_props Hrange.
  pose proof (@ordinal_round_trip o Hrange) as Hround.
  destruct (Calendar._ord2ymd o) as [[y m] d] eqn:Hord.
  destruct Hround as (Hback & Hdate).
  eexists. split; [reflexivity |].
  assert (Hv : Dates.valid
                 (Datetime y m d (hour sent_date) (minute sent_date)
                    (second sent_date) (microsecond sent_date)) = true).
  { unfold Dates.valid in *.
    cbn [year month day hour minute second microsecond].
    rewrite Hdate. rewrite !andb_true_iff in *. tauto. }
  split; [exact Hv |].
  split; [exact Hback |].
  split.
  { unfold Dates.seconds. cbn [hour minute second].
    unfold Calendar.toordinal at 1. cbn [year month day].
    rewrite Hback. subst o. lia. }
  repeat (split; [reflexivity |]).
  assert (Huniq : forall d0,
            Dates.valid d0 = true ->
            Calendar.toordinal d0 = o ->
            hour d0 = hour sent_date ->
            minute d0 = minute sent_date ->
            second d0 = second sent_date ->
            microsecond d0 = microsecond sent_date ->
            d0 = Datetime y m d (hour sent_date) (minute sent_date)
                   (second sent_date) (microsecond sent_date)).
  { intros d0 Hv0 Ho Hh Hmi Hs Hus.
    assert (Heq : Calendar.toordinal d0
                  = Calendar.toordinal
                      (Datetime y m d (hour sent_date) (minute sent_date)
                         (second sent_date) (microsecond sent_date)))
      by (rewrite Ho; symmetry; exact Hback).
    destruct (@toordinal_injective _ _ Hv0 Hv Heq) as (H1 & H2 & H3).
    destruct d0; cbn in *. congruence. }
  split; [exact Huniq |].
  intros Hzero. symmetry. apply Huniq; try reflexivity; [exact Hvalid |].
  subst o. lia.
Qed.

Lemma calculate_followup_date_is_exact_witness :
  Dates.valid Scenario.sent_at = true
  /\ exists followup_date,
       calculate_followup_date Scenario.sent_at 7 = Ok followup_date
       /\ Calendar.toordinal followup_date
          = Calendar.toordinal Scenario.sent_at + 7.
Proof.
  assert (Hv : Dates.valid Scenario.sent_at = true) by reflexivity.
  split; [exact Hv |].
  pose proof (@calculate_followup_date_is_exact Scenario.sent_at 7 Hv) as H.
  cbv zeta in H.
  change ((1 <=? Calendar.toordinal Scenario.sent_at + 7)
          && (Calendar.toordinal Scenario.sent_at + 7 <=? 3652059))
    with true in H.
  destruct H as (d & Hd & _ & Ho & _).
  exists d. split; [exact Hd | exact Ho].
Defined.

(** [datetime + timedelta]: the sum, counted in seconds. *)
Lemma plus_spec (d : datetime) (days secs : Z) :
  Dates.valid d = true ->
  let total := Dates.seconds d + 86400 * days + secs in
  if (86400 <=? total) && (total <? 86400 * 3652060) then
    exists d',
      Dates.plus d days secs = Ok d'
      /\ Dates.valid d' = true
      /\ Dates.seconds d' = total
      /\ microsecond d' = microsecond d
  else Dates.plus d days secs = Raise OverflowError.
Proof.
  intros Hvalid total.
  assert (Hfields :
    0 <= hour d < 24 /\ 0 <= minute d < 60 /\ 0 <= second d < 60
    /\ 0 <= microsecond d < 1000000).
  { unfold Dates.valid in Hvalid. rewrite !andb_true_iff in Hvalid.
    rewrite !Z.leb_le, !Z.ltb_lt in Hvalid. tauto. }
  unfold Dates.plus. cbv zeta.
  set (s := hour d * 3600 + minute d * 60 + second d + secs).
  set (o := Calendar.toordinal d + days + s / 86400).
  pose proof (Z.div_mod s 86400 ltac:(lia)) as Hdm.
  pose proof (Z.mod_pos_bound s 86400 ltac:(lia)) as Hs'.
  set (s' := s mod 86400) in *.
  assert (Htotal : total = o * 86400 + s')
    by (subst total o s; unfold Dates.seconds; fold s'; lia).
  change Calendar._MAXORDINAL with 3652059.
  assert (Hsame : (86400 <=? total) && (total <? 86400 * 3652060)
                  = (0 <? o) && (o <=? 3652059)).
  { rewrite Htotal.
    destruct (Z.leb_spec 86400 (o * 86400 + s')),
             (Z.ltb_spec (o * 86400 + s') (86400 * 3652060)),
             (Z.ltb_spec 0 o), (Z.leb_spec o 3652059);
      cbn; reflexivity || lia. }
  rewrite Hsame.
  destruct ((0 <? o) && (o <=? 3652059)) eqn:Hrange; [| reflexivity].
  to_props Hrange.
  pose proof (@ordinal_round_trip o ltac:(unfold Calendar._MAXORDINAL; lia))
    as Hround.
  destruct (Calendar._ord2ymd o) as [[y m] dd].
  destruct Hround as (Hback & Hdate).
  eexists. split; [reflexivity |].
  pose proof (Z.div_mod s' 3600 ltac:(lia)) as H1.
  pose proof (Z.mod_pos_bound s' 3600 ltac:(lia)) as H2.
  pose proof (Z.div_mod (s' mod 3600) 60 ltac:(lia)) as H3.
  pose proof (Z.mod_pos_bound (s' mod 3600) 60 ltac:(lia)) as H4.
  assert (H5 : s' mod 60 = (s' mod 3600) mod 60).
  { symmetry.
    apply (Z.mod_unique s' 60 (60 * (s' / 3600) + (s' mod 3600) / 60)); lia. }
  assert (H6 : 0 <= s' / 3600 < 24).
  { split; [apply Z.div_pos; lia | apply Z.div_lt_upper_bound; lia]. }
  assert (H7 : 0 <= (s' mod 3600) / 60 < 60).
  { split; [apply Z.div_pos; lia | apply Z.div_lt_upper_bound; lia]. }
  split; [| split; [| reflexivity]].
  - unfold Dates.valid. cbn [year month day hour minute second microsecond].
    rewrite Hdate. cbn [andb].
    rewrite !andb_true_iff, !Z.leb_le, !Z.ltb_lt. lia.
  - unfold Dates.seconds, Calendar.toordinal.
    cbn [year month day hour minute second].
    rewrite Hback, Htotal. lia.
Qed.

Lemma valid_fields (d : datetime) :
  Dates.valid d = true ->
  1 <= Calendar.toordinal d <= 3652059
  /\ 0 <= hour d < 24 /\ 0 <= minute d < 60 /\ 0 <= second d < 60
  /\ 0 <= microsecond d < 1000000.
Proof.
  intros Hvalid.
  pose proof (valid_date_of_valid _ Hvalid) as Hdate.
  destruct (@date_round_trip _ _ _ Hdate) as (_ & Hord).
  unfold Dates.valid in Hvalid. rewrite !andb_true_iff in Hvalid.
  rewrite !Z.leb_le, !Z.ltb_lt in Hvalid.
  split; [exact Hord | tauto].
Qed.

(** [d + timedelta(days=n)] *)
Lemma plus_days (d : datetime) (n : Z) :
  Dates.valid d = true ->
  if (1 <=? Calendar.toordinal d + n) && (Calendar.toordinal d + n <=? 3652059)
  then
    exists d',
      Dates.plus d n 0 = Ok d'
      /\ Dates.valid d' = true
      /\ Calendar.toordinal d' = Calendar.toordinal d + n
      /\ hour d' = hour d /\ minute d' = minute d /\ second d' = second d
      /\ microsecond d' = microsecond d
  else Dates.plus d n 0 = Raise OverflowError.
Proof.
  intros Hvalid.
  pose proof (@plus_spec d n 0 Hvalid) as Hplus. cbv zeta in Hplus.
  destruct (valid_fields _ Hvalid) as (Ho & Hh & Hmi & Hs & _).
  assert (Hsame :
    (86400 <=? Dates.seconds d + 86400 * n + 0)
    && (Dates.seconds d + 86400 * n + 0 <? 86400 * 3652060)
    = (1 <=? Calendar.toordinal d + n)
      && (Calendar.toordinal d + n <=? 3652059)).
  { unfold Dates.seconds.
    destruct (Z.leb_spec 86400
                (Calendar.toordinal d * 86400 + hour d * 3600 + minute d * 60
                 + second d + 86400 * n + 0)),
             (Z.ltb_spec
                (Calendar.toordinal d * 86400 + hour d * 3600 + minute d * 60
                 + second d + 86400 * n + 0) (86400 * 3652060)),
             (Z.leb_spec 1 (Calendar.toordinal d + n)),
             (Z.leb_spec (Calendar.toordinal d + n) 3652059);
      cbn; reflexivity || lia. }
  rewrite Hsame in Hplus.
  destruct ((1 <=? Calendar.toordinal d + n)
            && (Calendar.toordinal d + n <=? 3652059)); [| exact Hplus].
  destruct Hplus as (d' & Heq & Hv' & Hsec & Hus).
  exists d'. split; [exact Heq |]. split; [exact Hv' |].
  destruct (valid_fields _ Hv') as (Ho' & Hh' & Hmi' & Hs' & _).
  unfold Dates.seconds in Hsec. repeat split; lia.
Qed.

Lemma working_day_by_ordinal (d : datetime) :
  is_working_day d = true <-> (Calendar.toordinal d + 6) mod 7 < 5.
Proof. unfold is_working_day, Dates.weekday. apply Z.ltb_lt. Qed.

Lemma not_working_day_by_ordinal (d : datetime) :
  is_working_day d = false <-> 5 <= (Calendar.toordinal d + 6) mod 7.
Proof. unfold is_working_day, Dates.weekday. apply Z.ltb_ge. Qed.

(** X9.  [get_next_working_day] returns the first working day after
    [date], at the same time of day: three days later when [date] is a
    Friday, two days later when it is a Saturday, the next day otherwise;
    the result is a Monday to Friday, and every day strictly between [date]
    and the result is a Saturday or a Sunday.  The loop ends within two
    rounds.  The one date without a next working day is the last day of the
    year 9999: there the first sum raises [OverflowError]. *)
Theorem get_next_working_day_is_the_next_working_day
    (date : datetime) (fuel : nat) :
  Dates.valid date = true ->
  (2 <= fuel)%nat ->
  if Calendar.toordinal date =? 3652059 then
    get_next_working_day fuel date = Some (Raise OverflowError)
  else
    exists next_day,
      get_next_working_day fuel date = Some (Ok next_day)
      /\ Dates.valid next_day = true
      /\ is_working_day next_day = true
      /\ Calendar.toordinal next_day
         = Calendar.toordinal date
           + (if Dates.weekday date =? 4 then 3
              else if Dates.weekday date =? 5 then 2 else 1)
      /\ hour next_day = hour date
      /\ minute next_day = minute date
      /\ second next_day = second date
      /\ microsecond next_day = microsecond date
      /\ (forall d,
            Calendar.toordinal date < Calendar.toordinal d
            < Calendar.toordinal next_day ->
            is_working_day d = false).
Proof.
  intros Hvalid Hfuel.
  destruct (valid_fields _ Hvalid) as (Ho & _).
  unfold get_next_working_day.
  pose proof (@plus_days date 1 Hvalid) as H1.
  destruct (Z.eqb_spec (Calendar.toordinal date) 3652059) as [Hlast | Hnot].
  - replace ((1 <=? Calendar.toordinal date + 1)
             && (Calendar.toordinal date + 1 <=? 3652059)) with false in H1
      by (symmetry; apply andb_false_iff; right; apply Z.leb_gt; lia).
    rewrite H1. reflexivity.
  - replace ((1 <=? Calendar.toordinal date + 1)
             && (Calendar.toordinal date + 1 <=? 3652059)) with true in H1
      by (symmetry; apply andb_true_iff; split; apply Z.leb_le; lia).
    destruct H1 as (d1 & -> & Hv1 & Ho1 & Hh1 & Hm1 & Hs1 & Hu1).
    unfold Dates.weekday.
    pose proof (Z.div_mod (Calendar.toordinal date + 6) 7 ltac:(lia)) as Hw.
    pose proof (Z.mod_pos_bound (Calendar.toordinal date + 6) 7 ltac:(lia)) as Hwb.
    pose proof (Z.div_mod (Calendar.toordinal d1 + 6) 7 ltac:(lia)) as Hw1.
    pose proof (Z.mod_pos_bound (Calendar.toordinal d1 + 6) 7 ltac:(lia)) as Hwb1.
    destruct fuel as [| [| fuel]]; [lia | lia |].
    cbn [next_working_day_loop].
    destruct (is_working_day d1) eqn:Hwork1.
    { (* the next day is a working day *)
      apply working_day_by_ordinal in Hwork1.
      exists d1. split; [reflexivity |]. split; [exact Hv1 |].
      split; [apply working_day_by_ordinal; exact Hwork1 |].
      split.
      { destruct (Z.eqb_spec ((Calendar.toordinal date + 6) mod 7) 4);
          [lia |].
        destruct (Z.eqb_spec ((Calendar.toordinal date + 6) mod 7) 5); lia. }
      repeat (split; [assumption |]).
      intros d Hd. lia. }
    apply not_working_day_by_ordinal in Hwork1.
    pose proof (@plus_days d1 1 Hv1) as H2.
    replace ((1 <=? Calendar.toordinal d1 + 1)
             && (Calendar.toordinal d1 + 1 <=? 3652059)) with true in H2
      by (symmetry; apply andb_true_iff; split; apply Z.leb_le; lia).
    destruct H2 as (d2 & -> & Hv2 & Ho2 & Hh2 & Hm2 & Hs2 & Hu2).
    pose proof (Z.div_mod (Calendar.toordinal d2 + 6) 7 ltac:(lia)) as Hw2.
    pose proof (Z.mod_pos_bound (Calendar.toordinal d2 + 6) 7 ltac:(lia)) as Hwb2.
    destruct (is_working_day d2) eqn:Hwork2.
    { (* the day after is: [date] is a Saturday *)
      apply working_day_by_ordinal in Hwork2.
      exists d2. split; [reflexivity |]. split; [exact Hv2 |].
      split; [apply working_day_by_ordinal; exact Hwork2 |].
      split.
      { destruct (Z.eqb_spec ((Calendar.toordinal date + 6) mod 7) 4);
          [lia |].
        destruct (Z.eqb_spec ((Calendar.toordinal date + 6) mod 7) 5); lia. }
      repeat (split; [congruence |]).
      intros d Hd. apply not_working_day_by_ordinal.
      replace (Calendar.toordinal d) with (Calendar.toordinal d1) by lia.
      exact Hwork1. }
    apply not_working_day_by_ordinal in Hwork2.
    pose proof (@plus_days d2 1 Hv2) as H3.
    replace ((1 <=? Calendar.toordinal d2 + 1)
             && (Calendar.toordinal d2 + 1 <=? 3652059)) with true in H3
      by (symmetry; apply andb_true_iff; split; apply Z.leb_le; lia).
    destruct H3 as (d3 & -> & Hv3 & Ho3 & Hh3 & Hm3 & Hs3 & Hu3).
    pose proof (Z.div_mod (Calendar.toordinal d3 + 6) 7 ltac:(lia)) as Hw3.
    pose proof (Z.mod_pos_bound (Calendar.toordinal d3 + 6) 7 ltac:(lia)) as Hwb3.
    assert (Hwork3 : is_working_day d3 = true)
      by (apply working_day_by_ordinal; lia).
    destruct fuel as [| fuel]; cbn [next_working_day_loop]; rewrite Hwork3.
    all: exists d3; split; [reflexivity |]; split; [exact Hv3 |];
      split; [exact Hwork3 |];
      (split;
       [destruct (Z.eqb_spec ((Calendar.toordinal date + 6) mod 7) 4); [lia |];
        destruct (Z.eqb_spec ((Calendar.toordinal date + 6) mod 7) 5); lia |]);
      repeat (split; [congruence |]);
      intros d Hd; apply not_working_day_by_ordinal;
      (assert (Hc : Calendar.toordinal d = Calendar.toordinal d1
                    \/ Calendar.toordinal d = Calendar.toordinal d2) by lia);
      destruct Hc as [-> | ->]; assumption.
Qed.

Lemma get_next_working_day_is_the_next_working_day_witness :
  exists next_day,
    get_next_working_day 2 (Datetime 2024 1 5 17 30 0 0) = Some (Ok next_day)
    /\ is_working_day next_day = true
    /\ Calendar.toordinal next_day
       = Calendar.toordinal (Datetime 2024 1 5 17 30 0 0) + 3.
Proof.
  pose proof (@get_next_working_day_is_the_next_working_day
                (Datetime 2024 1 5 17 30 0 0) 2%nat eq_refl (le_n 2)) as H.
  change (Calendar.toordinal (Datetime 2024 1 5 17 30 0 0) =? 3652059)
    with false in H.
  cbv iota in H.
  destruct H as (next_day & Heq & _ & Hw & Hord & _).
  change (Dates.weekday (Datetime 2024 1 5 17 30 0 0) =? 4) with true in Hord.
  cbv iota in Hord.
  exists next_day. split; [exact Heq |]. split; [exact Hw | exact Hord].
Defined.

(* ================================================================== *)
(** * The check interval *)
(* ================================================================== *)

(** [set_check_interval], outcome by outcome. *)
Lemma set_check_interval_run (interval : Z) (self : Scheduler.t) :
  let effective := if interval <? 60 then 60 else interval in
  Scheduler'.set_check_interval interval self
  = if Scheduler.is_running self then
      if (- 2 ^ 31 <=? effective * 1000) && (effective * 1000 <? 2 ^ 31) then
        (Returns tt,
         {| Scheduler.is_running := Scheduler.is_running self;
            Scheduler.timer_active := Scheduler.timer_active self;
            Scheduler.timer_interval := effective * 1000;
            Scheduler._last_check := Scheduler._last_check self;
            Scheduler._error_count := Scheduler._error_count self;
            Scheduler._max_errors := Scheduler._max_errors self |},
         [ QTimer_setInterval (effective * 1000);
           Logged INFO (Check_interval_updated_to effective) ])
      else
        (Returns tt, self,
         [ Logged ERROR (Error_setting_check_interval (Exn OverflowError));
           Failed_to_set_check_interval (Exn OverflowError) ])
    else
      (Returns tt, self, [Logged INFO (Check_interval_updated_to effective)]).
Proof.
  intros effective.
  unfold Scheduler'.set_check_interval, Scheduler'.timer_setInterval.
  fold effective.
  unfold Act.try_except, Act.bind, Act.get, Act.put, Act.raise, Act.ret,
    Act.log, Act.tell.
  destruct (Scheduler.is_running self) eqn:Hrunning; [| reflexivity].
  destruct ((- 2 ^ 31 <=? effective * 1000) && (effective * 1000 <? 2 ^ 31));
    cbn -[Z.mul]; rewrite ?Hrunning; reflexivity.
Qed.

(** X10.  [set_check_interval] never raises and never sets an interval
    below one minute.  On a running scheduler it sets the timer to
    [max(interval, 60) * 1000] ms and changes nothing else; when that
    number is no C [int] the timer keeps its interval, and an error is
    logged and signalled.  On a scheduler that is not running it changes
    nothing at all, although it logs the interval as updated: the value is
    dropped, and [start] arms the timer with 1 800 000 ms as ever. *)
Theorem set_check_interval_sets_a_running_timer_only
    (env : Env) (interval : Z) (self : Scheduler.t) (w : World) :
  let effective := Z.max interval 60 in
  let '(r, self', effects) := Scheduler'.set_check_interval interval self in
  r = Returns tt
  /\ Scheduler.is_running self' = Scheduler.is_running self
  /\ Scheduler.timer_active self' = Scheduler.timer_active self
  /\ Scheduler._last_check self' = Scheduler._last_check self
  /\ Scheduler._error_count self' = Scheduler._error_count self
  /\ Scheduler._max_errors self' = Scheduler._max_errors self
  /\ if Scheduler.is_running self then
       if effective * 1000 <? 2 ^ 31 then
         Scheduler.timer_interval self' = effective * 1000
         /\ 60000 <= Scheduler.timer_interval self'
         /\ effects = [ QTimer_setInterval (effective * 1000);
                        Logged INFO (Check_interval_updated_to effective) ]
       else
         self' = self
         /\ effects
            = [ Logged ERROR (Error_setting_check_interval (Exn OverflowError));
                Failed_to_set_check_interval (Exn OverflowError) ]
     else
       self' = self
       /\ effects = [Logged INFO (Check_interval_updated_to effective)]
       /\ exists started,
            fst (Scheduler.start (EmailManager.process_pending_followups env)
                   env self' w) = Ok started
            /\ Scheduler.timer_interval started = 1800000.
Proof.
  intros effective.
  pose proof (set_check_interval_run interval self) as Hrun. cbv zeta in Hrun.
  assert (Heff : (if interval <? 60 then 60 else interval) = effective)
    by (subst effective; destruct (Z.ltb_spec interval 60); lia).
  rewrite Heff in Hrun. rewrite Hrun. clear Hrun.
  assert (Hlow : (- 2 ^ 31 <=? effective * 1000) = true)
    by (apply Z.leb_le; subst effective; lia).
  rewrite Hlow. cbn [andb].
  destruct (Scheduler.is_running self) eqn:Hrunning.
  - destruct (effective * 1000 <? 2 ^ 31); cbn -[Z.mul Z.pow].
    + rewrite ?Hrunning. repeat split; try reflexivity. subst effective. lia.
    + rewrite ?Hrunning. repeat split; reflexivity.
  - rewrite ?Hrunning. repeat (split; [reflexivity |]).
    destruct (start_stopped env self w Hrunning) as (w' & mid & _ & ->).
    eexists. split; [reflexivity | reflexivity].
Qed.

(** [set_check_interval] leaves alone what [get_next_check_time] reads. *)
Lemma set_check_interval_keeps_the_last_check (interval : Z)
    (self : Scheduler.t) :
  Scheduler.is_running (snd (fst (Scheduler'.set_check_interval interval self)))
  = Scheduler.is_running self
  /\ Scheduler._last_check
       (snd (fst (Scheduler'.set_check_interval interval self)))
     = Scheduler._last_check self.
Proof.
  pose proof (set_check_interval_run interval self) as Hrun. cbv zeta in Hrun.
  rewrite Hrun.
  destruct (Scheduler.is_running self) eqn:Hrunning;
    [| cbn; rewrite Hrunning; split; reflexivity].
  destruct (_ && _); cbn; rewrite ?Hrunning; split; reflexivity.
Qed.

(** X11.  [get_next_check_time] is [None] exactly while the scheduler is
    not running or has never checked; otherwise it is the time of the last
    check plus 1800 seconds, to the second and with the same microsecond --
    also after [set_check_interval] has set the timer to another interval,
    which this answer ignores.  It raises [OverflowError] when that time
    would lie beyond the year 9999. *)
Theorem get_next_check_time_ignores_the_interval_set
    (self : Scheduler.t) (interval : Z) :
  (forall d, Scheduler._last_check self = Some d -> Dates.valid d = true) ->
  let '(_, self', _) := Scheduler'.set_check_interval interval self in
  Scheduler'.get_next_check_time self' = Scheduler'.get_next_check_time self
  /\ match Scheduler'.get_next_check_time self with
     | Ok None =>
         Scheduler.is_running self = false \/ Scheduler._last_check self = None
     | Ok (Some next) =>
         Scheduler.is_running self = true
         /\ exists last,
              Scheduler._last_check self = Some last
              /\ Dates.valid next = true
              /\ Dates.seconds next = Dates.seconds last + 1800
              /\ microsecond next = microsecond last
     | Raise e =>
         e = OverflowError
         /\ Scheduler.is_running self = true
         /\ exists last,
              Scheduler._last_check self = Some last
              /\ 86400 * 3652060 <= Dates.seconds last + 1800
     end.
Proof.
  intros Hvalid.
  destruct (set_check_interval_keeps_the_last_check interval self)
    as (Hkeep1 & Hkeep2).
  destruct (Scheduler'.set_check_interval interval self)
    as [[r self'] effects].
  cbn [fst snd] in Hkeep1, Hkeep2.
  split.
  - unfold Scheduler'.get_next_check_time. rewrite Hkeep1, Hkeep2.
    reflexivity.
  - unfold Scheduler'.get_next_check_time.
    destruct (Scheduler._last_check self) as [last |] eqn:Hlast;
      [| right; reflexivity].
    destruct (Scheduler.is_running self) eqn:Hrunning; cbn [negb];
      [| left; reflexivity].
    specialize (Hvalid last eq_refl).
    pose proof (@plus_spec last 0 check_interval Hvalid) as Hplus.
    cbv zeta in Hplus. change check_interval with 1800 in *.
    replace (Dates.seconds last + 86400 * 0 + 1800)
      with (Dates.seconds last + 1800) in Hplus by lia.
    destruct (valid_fields _ Hvalid) as (Ho & Hh & Hmi & Hs & _).
    destruct ((86400 <=? Dates.seconds last + 1800)
              && (Dates.seconds last + 1800 <? 86400 * 3652060)) eqn:Hrange.
    + destruct Hplus as (next & -> & Hv & Hsec & Hus).
      split; [reflexivity |]. exists last. repeat split; assumption.
    + rewrite Hplus. split; [reflexivity |]. split; [reflexivity |].
      exists last. split; [reflexivity |].
      apply andb_false_iff in Hrange. destruct Hrange as [Hrange | Hrange].
      * apply Z.leb_gt in Hrange. unfold Dates.seconds in *. lia.
      * apply Z.ltb_ge in Hrange. exact Hrange.
Qed.

Lemma get_next_check_time_ignores_the_interval_set_witness :
  Scheduler'.get_next_check_time
    (snd (fst (Scheduler'.set_check_interval 600 Scenario.running)))
  = Ok (Some (Datetime 2024 1 1 10 30 0 0)).
Proof.
  assert (Hvalid : forall d,
            Scheduler._last_check Scenario.running = Some d ->
            Dates.valid d = true).
  { intros d H. injection H as <-. vm_compute. reflexivity. }
  pose proof (@get_next_check_time_ignores_the_interval_set
                Scenario.running 600 Hvalid) as H.
  destruct (Scheduler'.set_check_interval 600 Scenario.running)
    as [[r self'] effects].
  cbn [fst snd].
  destruct H as (Hsame & _). rewrite Hsame. vm_compute. reflexivity.
Defined.

(* ================================================================== *)
(** * Deleting a record, asking for its status *)
(* ================================================================== *)

(** The identifier of a new row is above the counter and above every
    identifier in the table. *)
Lemma add_followup_fresh_id (env : Env) (email_data : EmailData.t)
    (w w1 : World) (followup_id : Z) :
  EmailManager.add_followup env email_data w = (Ok (Some followup_id), w1) ->
  sqlite_sequence w < followup_id
  /\ Forall (fun r => Followup.id r < followup_id) (followups w).
Proof.
  intros Hadd.
  unfold EmailManager.add_followup, try_except, bind, lift in Hadd.
  destruct (calculate_followup_date _ _) as [fd | e]; cbn in Hadd;
    [| discriminate].
  unfold DatabaseManager.add_followup, try_except_sqlite3_Error, bind, emit,
    get_followups, get_sqlite_sequence, set_table, raise, log, emit, ret
    in Hadd.
  cbn in Hadd.
  destruct (existsb _ (followups w)); cbn in Hadd; [discriminate |].
  injection Hadd as Hid _.
  split; [lia |].
  eapply Forall_impl; [| apply max_id_bound]. intros a Ha. cbn beta in Ha.
  unfold DatabaseManager.max_id in Ha. lia.
Qed.

Lemma table_ok_filter (w : World) (keep : Followup.t -> bool) :
  table_ok w ->
  table_ok {| followups := filter keep (followups w);
              sqlite_sequence := sqlite_sequence w;
              history := history w |}.
Proof.
  intros (H1 & H2 & H3). unfold table_ok. cbn.
  assert (Hsub : forall (A : Type) (f : Followup.t -> A) rows,
            NoDup (map f rows) -> NoDup (map f (filter keep rows))).
  { intros A f rows. induction rows as [| r rows IH]; cbn; intros Hnd;
      [constructor |].
    inversion Hnd as [| x l Hnotin Hrest]; subst.
    destruct (keep r); cbn; [| apply IH; exact Hrest].
    constructor; [| apply IH; exact Hrest].
    intros Hin. apply Hnotin.
    apply in_map_iff in Hin. destruct Hin as (r' & Heq & Hr').
    apply filter_In in Hr'. apply in_map_iff. exists r'. tauto. }
  split; [apply Hsub; exact H1 |]. split; [apply Hsub; exact H2 |].
  rewrite Forall_forall in *. intros r Hr. apply filter_In in Hr.
  apply H3. tauto.
Qed.

(** X12.  [delete_followup] with a row identifier removes the rows of that
    [id] and no other, leaves the AUTOINCREMENT counter where it was, and
    returns [True] -- also when no row had that [id], the table then being
    unchanged.  The table stays well formed, and the identifier is not
    given out again: a registration after the deletion gets an [id] above
    the counter, so above every identifier the table has ever held, the
    deleted one included.  An [int] beyond 64 bits is not deleted under:
    the [OverflowError] of the binding leaves the function. *)
Theorem delete_followup_never_frees_an_identifier
    (env env' : Env) (k : Z) (w : World) :
  table_ok w ->
  let '(r, w', effects) := DatabaseManager'.delete_followup env (PyInt k) w in
  if (- 2 ^ 63 <=? k) && (k <? 2 ^ 63) then
    r = Returns true
    /\ followups w' = filter (fun row => negb (Followup.id row =? k)) (followups w)
    /\ sqlite_sequence w' = sqlite_sequence w
    /\ table_ok w'
    /\ effects = [ DELETE_followup (PyInt k);
                   Logged INFO (Deleted_followup_with_ID (PyInt k)) ]
    /\ ((forall row, In row (followups w) -> Followup.id row <> k) ->
        followups w' = followups w)
    /\ (forall email_data followup_id w2,
          EmailManager.add_followup env' email_data w'
          = (Ok (Some followup_id), w2) ->
          sqlite_sequence w < followup_id
          /\ Forall (fun row => Followup.id row < followup_id) (followups w))
  else
    r = Raises (Exn OverflowError) /\ w' = w.
Proof.
  intros Hok.
  unfold DatabaseManager'.delete_followup, DatabaseManager.bind_parameter.
  destruct ((- 2 ^ 63 <=? k) && (k <? 2 ^ 63)); cbn;
    [| split; reflexivity].
  split; [reflexivity |]. split; [reflexivity |]. split; [reflexivity |].
  split; [apply (table_ok_filter _ Hok) |]. split; [reflexivity |].
  split.
  - intros Hnone.
    rewrite <- (filter_true (followups w)) at 2.
    apply filter_ext_in. intros row Hrow.
    destruct (Z.eqb_spec (Followup.id row) k) as [Heq | Hne]; [| reflexivity].
    exfalso. eapply Hnone; eassumption.
  - intros email_data followup_id w2 Hadd.
    destruct (add_followup_fresh_id _ _ _ Hadd) as (Hseq & _).
    cbn in Hseq. split; [exact Hseq |].
    destruct Hok as (_ & _ & H3).
    eapply Forall_impl; [| exact H3]. cbn. intros row Hrow. lia.
Qed.

(** [get_followup_status], by what the lookup finds. *)
Lemma get_followup_status_run (followup_id : pyval) (w : World) :
  EmailManager'.get_followup_status followup_id w
  = match DatabaseManager.bind_parameter followup_id with
    | Ok _ =>
        (Returns
           match stored_record (followups w) followup_id with
           | Some followup =>
               Some {| status_id := Followup.id followup;
                       status_status := Followup.status followup;
                       status_followup_count :=
                         Followup.followup_count followup;
                       status_last_check := Followup.last_check_date followup |}
           | None => None
           end,
         {| followups := followups w;
            sqlite_sequence := sqlite_sequence w;
            history :=
              (history w ++ [Sql (SELECT_by_email_id followup_id)])%list |},
         [])
    | Raise e =>
        (Returns None,
         {| followups := followups w;
            sqlite_sequence := sqlite_sequence w;
            history :=
              (history w ++ [Sql (SELECT_by_email_id followup_id)])%list |},
         [Logged ERROR (Error_getting_followup_status (Exn e))])
    end.
Proof.
  unfold EmailManager'.get_followup_status, Act.try_except, Act.bind,
    Act.engine, DatabaseManager.get_followup_by_email_id,
    try_except_sqlite3_Error, bind, emit, lift, get_followups, ret,
    stored_record.
  cbn.
  destruct (DatabaseManager.bind_parameter followup_id) as [p | e] eqn:Hb; cbn.
  - destruct (find _ (followups w)); reflexivity.
  - apply bind_parameter_raises in Hb. subst e. reflexivity.
Qed.

(** X13.  [get_followup_status] never raises and changes no row.  Under
    the key of a registration that succeeded it returns the [id] that
    [add_followup] returned, status ["pending"], [followup_count] 0 and no
    [last_check]; under that [id] itself -- the value [add_followup] hands
    to its caller -- it returns [None], as it does under every integer in
    a table that [add_followup] has filled, because it looks the argument
    up in the column [email_id]. *)
Theorem get_followup_status_wants_the_key_not_the_id
    (env : Env) (email_data : EmailData.t) (w w1 : World) (followup_id : Z) :
  keyed_by_digests (followups w) ->
  EmailManager.add_followup env email_data w = (Ok (Some followup_id), w1) ->
  let key :=
    generate_email_id (EmailData.sender email_data)
      (EmailData.subject email_data) (EmailData.sent_date email_data) in
  fst (fst (EmailManager'.get_followup_status (PyStr key) w1))
  = Returns (Some {| status_id := followup_id;
                     status_status := "pending";
                     status_followup_count := 0;
                     status_last_check := None |})
  /\ (forall n,
        fst (fst (EmailManager'.get_followup_status (PyInt n) w1))
        = Returns None)
  /\ (forall any,
        (exists answer,
            fst (fst (EmailManager'.get_followup_status any w1))
            = Returns answer)
        /\ followups (snd (fst (EmailManager'.get_followup_status any w1)))
           = followups w1).
Proof.
  intros Hdigests Hadd key.
  split; [| split].
  - rewrite get_followup_status_run. cbn [DatabaseManager.bind_parameter].
    cbn [fst]. f_equal.
    unfold stored_record. cbn [DatabaseManager.bind_parameter].
    pose proof (add_followup_run env email_data w) as Hrun. cbv zeta in Hrun.
    fold key in Hrun.
    destruct (calculate_followup_date _ _) as [fd | e];
      [| rewrite Hrun in Hadd; discriminate].
    destruct (existsb _ (followups w)) eqn:Hnew;
      [rewrite Hrun in Hadd; discriminate |].
    destruct Hrun as (row & Hk & Hs & Hc & _ & Hrun).
    assert (Hlast : Followup.last_check_date row = None).
    { unfold EmailManager.add_followup, try_except, bind, lift in Hrun.
      destruct (calculate_followup_date _ _) as [fd' | e']; cbn in Hrun;
        [| discriminate].
      unfold DatabaseManager.add_followup, try_except_sqlite3_Error, bind,
        emit, get_followups, get_sqlite_sequence, set_table, raise, log, emit,
        ret in Hrun.
      cbn in Hrun. fold key in Hrun. rewrite Hnew in Hrun. cbn in Hrun.
      injection Hrun as _ Hrow. apply app_inv_head in Hrow.
      injection Hrow as <-. reflexivity. }
    rewrite Hrun in Hadd. injection Hadd as Hid <-. cbn [followups].
    rewrite find_app_none by exact Hnew.
    cbn. rewrite Hk, String.eqb_refl. rewrite Hs, Hc, Hlast, Hid. reflexivity.
  - intros n. rewrite get_followup_status_run.
    assert (Hd1 : keyed_by_digests (followups w1)).
    { pose proof (@keyed_by_digests_add_followup env email_data w Hdigests) as H.
      rewrite Hadd in H. exact H. }
    pose proof (@no_record_under_a_row_id (followups w1) n Hd1) as Hnone.
    destruct (DatabaseManager.bind_parameter (PyInt n)); [| reflexivity].
    rewrite Hnone. reflexivity.
  - intros any. rewrite get_followup_status_run.
    destruct (DatabaseManager.bind_parameter any); cbn;
      (split; [eexists; reflexivity | reflexivity]).
Qed.

Lemma get_followup_status_wants_the_key_not_the_id_witness :
  fst (fst (EmailManager'.get_followup_status (PyStr Scenario.key)
              Scenario.registered))
  = Returns (Some {| status_id := 1;
                     status_status := "pending";
                     status_followup_count := 0;
                     status_last_check := None |})
  /\ fst (fst (EmailManager'.get_followup_status (PyInt 1)
                 Scenario.registered))
     = Returns None.
Proof.
  assert (H : EmailManager.add_followup
                (Scenario.env Scenario.sent_at [] Scenario.delivered)
                Scenario.registration Scenario.empty
              = (Ok (Some 1), Scenario.registered))
    by (vm_compute; reflexivity).
  destruct (@get_followup_status_wants_the_key_not_the_id
              (Scenario.env Scenario.sent_at [] Scenario.delivered)
              Scenario.registration Scenario.empty Scenario.registered 1
              (Forall_nil _) H) as (Hkey & Hid & _).
  split; [exact Hkey | apply Hid].
Defined.

Lemma delete_followup_never_frees_an_identifier_witness :
  table_ok Scenario.registered
  /\ followups
       (snd (fst (DatabaseManager'.delete_followup Scenario.due (PyInt 1)
                    Scenario.registered))) = []
  /\ fst (EmailManager.add_followup Scenario.due Scenario.registration
            (snd (fst (DatabaseManager'.delete_followup Scenario.due (PyInt 1)
                         Scenario.registered))))
     = Ok (Some 2).
Proof.
  assert (H : table_ok Scenario.registered).
  { unfold table_ok.
    let rows := eval vm_compute in (followups Scenario.registered) in
    change (followups Scenario.registered) with rows.
    let seq := eval vm_compute in (sqlite_sequence Scenario.registered) in
    change (sqlite_sequence Scenario.registered) with seq.
    cbn [map Followup.id Followup.email_id].
    split; [| split].
    - apply NoDup_cons; [intros [] | apply NoDup_nil].
    - apply NoDup_cons; [intros [] | apply NoDup_nil].
    - constructor; [cbn; lia | constructor]. }
  split; [exact H |].
  pose proof (@delete_followup_never_frees_an_identifier Scenario.due
                Scenario.due 1 Scenario.registered H) as Hdel.
  destruct (DatabaseManager'.delete_followup Scenario.due (PyInt 1)
              Scenario.registered) as [[r w'] effects] eqn:Heq.
  change ((- 2 ^ 63 <=? 1) && (1 <? 2 ^ 63)) with true in Hdel.
  destruct Hdel as (_ & Hrows & _).
  cbn [fst snd]. split.
  - rewrite Hrows. vm_compute. reflexivity.
  - vm_compute in Heq. injection Heq as _ <- _. vm_compute. reflexivity.
Defined.

(* ================================================================== *)
(** * Truncating a text *)
(* ================================================================== *)

(** X14.  [truncate_text] returns a text that fits [max_length] exactly
    when the text fits already or [max_length] is at least 3.  A text that
    fits comes back unchanged; a longer one is cut to its first
    [max_length - 3] code points followed by three dots, [max_length] code
    points in all.  With [max_length] below 3 the slice [text[:max_length-3]]
    counts from the end, and the result of a text that does not fit is
    longer than [max_length]: the text without its last [3 - max_length]
    code points, and the dots. *)
Theorem truncate_text_fits_from_3_on
    (char : Type) (dot : char) (text : list char) (max_length : Z) :
  let len := Z.of_nat (List.length text) in
  let out := truncate_text dot text max_length in
  (len <= max_length -> out = text)
  /\ (3 <= max_length < len ->
      out = (firstn (Z.to_nat (max_length - 3)) text ++ [dot; dot; dot])%list
      /\ Z.of_nat (List.length out) = max_length)
  /\ (max_length < len -> max_length < 3 ->
      out = (firstn (Z.to_nat (len + max_length - 3)) text
             ++ [dot; dot; dot])%list
      /\ Z.of_nat (List.length out) = Z.max 3 (len + max_length)
      /\ max_length < Z.of_nat (List.length out))
  /\ (Z.of_nat (List.length out) <= max_length
      <-> len <= max_length \/ 3 <= max_length).
Proof.
  intros len out. subst out. unfold truncate_text, slice_to. fold len.
  destruct (Z.leb_spec len max_length) as [Hfit | Hlong].
  - split; [reflexivity |]. split; [lia |]. split; [lia |].
    fold len. split; [left; exact Hfit | intros _; exact Hfit].
  - split; [lia |].
    destruct (Z.ltb_spec (max_length - 3) 0) as [Hneg | Hpos].
    + split; [lia |].
      replace (len + (max_length - 3)) with (len + max_length - 3) by lia.
      assert (Hlen :
        Z.of_nat
          (List.length
             (firstn (Z.to_nat (len + max_length - 3)) text
              ++ [dot; dot; dot])%list)
        = Z.max 3 (len + max_length)).
      { rewrite length_app, length_firstn. cbn [List.length]. subst len. lia. }
      split; [intros _ _; split; [reflexivity | split; [exact Hlen | lia]] |].
      rewrite Hlen. split; [lia | intros [H | H]; lia].
    + assert (Hlen :
        Z.of_nat
          (List.length
             (firstn (Z.to_nat (max_length - 3)) text ++ [dot; dot; dot])%list)
        = max_length).
      { rewrite length_app, length_firstn. cbn [List.length]. subst len. lia. }
      split; [intros _; split; [reflexivity | exact Hlen] |].
      split; [lia |].
      rewrite Hlen. split; [intros _; right; lia | lia].
Qed.

Example truncate_text_samples :
  truncate_text "."%char (list_ascii_of_string "abcdefghij") 8
  = list_ascii_of_string "abcde..."
  /\ truncate_text "."%char (list_ascii_of_string "abcdefghij") 10
     = list_ascii_of_string "abcdefghij"
  /\ truncate_text "."%char (list_ascii_of_string "abcdefghij") 2
     = list_ascii_of_string "abcdefghi..."
  /\ truncate_text "."%char (list_ascii_of_string "ab") 0
     = list_ascii_of_string "...".
Proof. vm_compute. repeat split. Qed.

(* ================================================================== *)
(** * Validating an address *)
(* ================================================================== *)

Lemma fullmatch_empty (s : string) : Re.fullmatch Re.Empty s = false.
Proof. induction s as [| c s IH]; [reflexivity | exact IH]. Qed.

Lemma fullmatch_eps (s : string) :
  Re.fullmatch Re.Eps s = true <-> s = EmptyString.
Proof.
  destruct s as [| c s]; cbn; [tauto |].
  rewrite fullmatch_empty. split; discriminate.
Qed.

Lemma fullmatch_alt (s : string) :
  forall r1 r2,
    Re.fullmatch (Re.Alt r1 r2) s = Re.fullmatch r1 s || Re.fullmatch r2 s.
Proof.
  induction s as [| c s IH]; intros r1 r2; [reflexivity |].
  cbn. apply IH.
Qed.

Lemma fullmatch_seq (s : string) :
  forall r1 r2,
    Re.fullmatch (Re.Seq r1 r2) s = true
    <-> exists s1 s2,
          s = (s1 ++ s2)%string
          /\ Re.fullmatch r1 s1 = true /\ Re.fullmatch r2 s2 = true.
Proof.
  induction s as [| c s IH]; intros r1 r2.
  - cbn. rewrite andb_true_iff. split.
    + intros (H1 & H2). exists EmptyString, EmptyString. tauto.
    + intros (s1 & s2 & Heq & H1 & H2).
      destruct s1; [| discriminate]. destruct s2; [| discriminate].
      tauto.
  - cbn [Re.fullmatch Re.deriv].
    assert (Hcons :
      Re.fullmatch (Re.Seq (Re.deriv c r1) r2) s = true
      <-> exists s1' s2,
            s = (s1' ++ s2)%string
            /\ Re.fullmatch r1 (String c s1') = true
            /\ Re.fullmatch r2 s2 = true) by apply IH.
    destruct (Re.nullable r1) eqn:Hnull.
    + rewrite fullmatch_alt, orb_true_iff, Hcons. split.
      * intros [(s1' & s2 & -> & H1 & H2) | H].
        -- exists (String c s1'), s2. tauto.
        -- exists EmptyString, (String c s). tauto.
      * intros (s1 & s2 & Heq & H1 & H2). destruct s1 as [| c' s1'].
        -- right. cbn in Heq. subst s2. exact H2.
        -- left. cbn in Heq. injection Heq as -> ->. exists s1', s2. tauto.
    + rewrite Hcons. split.
      * intros (s1' & s2 & -> & H1 & H2). exists (String c s1'), s2. tauto.
      * intros (s1 & s2 & Heq & H1 & H2). destruct s1 as [| c' s1'].
        -- cbn in H1. congruence.
        -- cbn in Heq. injection Heq as -> ->. exists s1', s2. tauto.
Qed.

Lemma fullmatch_class (p : ascii -> bool) (s : string) :
  Re.fullmatch (Re.Class p) s = true
  <-> exists c, s = String c EmptyString /\ p c = true.
Proof.
  destruct s as [| c s]; cbn.
  - split; [discriminate | intros (c & H & _); discriminate].
  - destruct (p c) eqn:Hp.
    + rewrite fullmatch_eps. split.
      * intros ->. exists c. tauto.
      * intros (c' & Heq & _). congruence.
    + rewrite fullmatch_empty. split; [discriminate |].
      intros (c' & Heq & Hp'). congruence.
Qed.

Lemma fullmatch_star_class (p : ascii -> bool) (s : string) :
  Re.fullmatch (Re.Star (Re.Class p)) s = all_chars p s.
Proof.
  induction s as [| c s IH]; [reflexivity |].
  cbn [Re.fullmatch Re.deriv all_chars].
  destruct (p c); cbn [andb].
  - rewrite <- IH.
    destruct (Re.fullmatch (Re.Star (Re.Class p)) s) eqn:Hs.
    + apply fullmatch_seq. exists EmptyString, s. tauto.
    + destruct (Re.fullmatch (Re.Seq Re.Eps (Re.Star (Re.Class p))) s) eqn:H;
        [| reflexivity].
      apply fullmatch_seq in H. destruct H as (s1 & s2 & -> & H1 & H2).
      apply fullmatch_eps in H1. subst s1. cbn in Hs. congruence.
  - destruct (Re.fullmatch (Re.Seq Re.Empty (Re.Star (Re.Class p))) s) eqn:H;
      [| reflexivity].
    apply fullmatch_seq in H. destruct H as (s1 & s2 & _ & H1 & _).
    rewrite fullmatch_empty in H1. discriminate.
Qed.

Lemma fullmatch_plus_class (p : ascii -> bool) (s : string) :
  Re.fullmatch (Re.Plus (Re.Class p)) s = true
  <-> s <> EmptyString /\ all_chars p s = true.
Proof.
  unfold Re.Plus. rewrite fullmatch_seq. split.
  - intros (s1 & s2 & -> & H1 & H2).
    apply fullmatch_class in H1. destruct H1 as (c & -> & Hp).
    rewrite fullmatch_star_class in H2. cbn. rewrite Hp, H2.
    split; [discriminate | reflexivity].
  - intros (Hne & Hall). destruct s as [| c s]; [contradiction |].
    cbn in Hall. apply andb_true_iff in Hall. destruct Hall as (Hp & Hall).
    exists (String c EmptyString), s. split; [reflexivity |].
    split; [apply fullmatch_class; exists c; tauto |].
    rewrite fullmatch_star_class. exact Hall.
Qed.

Lemma fullmatch_lit (c : ascii) (s : string) :
  Re.fullmatch (Re.Lit c) s = true <-> s = String c EmptyString.
Proof.
  unfold Re.Lit. rewrite fullmatch_class. split.
  - intros (c' & -> & H). apply Ascii.eqb_eq in H. subst. reflexivity.
  - intros ->. exists c. split; [reflexivity | apply Ascii.eqb_refl].
Qed.

Lemma fullmatch_at_least_2_class (p : ascii -> bool) (s : string) :
  Re.fullmatch (Re.At_least_2 (Re.Class p)) s = true
  <-> (2 <= String.length s)%nat /\ all_chars p s = true.
Proof.
  unfold Re.At_least_2. rewrite fullmatch_seq. split.
  - intros (s1 & s2 & -> & H1 & H2).
    apply fullmatch_class in H1. destruct H1 as (c1 & -> & Hp1).
    apply fullmatch_seq in H2. destruct H2 as (s3 & s4 & -> & H3 & H4).
    apply fullmatch_class in H3. destruct H3 as (c2 & -> & Hp2).
    rewrite fullmatch_star_class in H4. cbn. rewrite Hp1, Hp2, H4.
    split; [lia | reflexivity].
  - intros (Hlen & Hall). destruct s as [| c1 [| c2 s]]; cbn in Hlen; try lia.
    cbn in Hall. rewrite !andb_true_iff in Hall.
    destruct Hall as (Hp1 & Hp2 & Hall).
    exists (String c1 EmptyString), (String c2 s). split; [reflexivity |].
    split; [apply fullmatch_class; exists c1; tauto |].
    apply fullmatch_seq.
    exists (String c2 EmptyString), s. split; [reflexivity |].
    split; [apply fullmatch_class; exists c2; tauto |].
    rewrite fullmatch_star_class. exact Hall.
Qed.

Lemma fullmatch_EMAIL_PATTERN (s : string) :
  Re.fullmatch EMAIL_PATTERN s = true <-> is_address s.
Proof.
  unfold EMAIL_PATTERN, is_address. rewrite fullmatch_seq. split.
  - intros (local & s1 & -> & Hlocal & H1).
    apply fullmatch_plus_class in Hlocal.
    apply fullmatch_seq in H1. destruct H1 as (at_ & s2 & -> & Hat & H2).
    apply fullmatch_lit in Hat. subst at_.
    apply fullmatch_seq in H2. destruct H2 as (domain & s3 & -> & Hdomain & H3).
    apply fullmatch_plus_class in Hdomain.
    apply fullmatch_seq in H3. destruct H3 as (dot & tld & -> & Hdot & Htld).
    apply fullmatch_lit in Hdot. subst dot.
    apply fullmatch_at_least_2_class in Htld.
    exists local, domain, tld. tauto.
  - intros (local & domain & tld & -> & H1 & H2 & H3 & H4 & H5 & H6).
    exists local, ("@" ++ domain ++ "." ++ tld)%string.
    split; [reflexivity |].
    split; [apply fullmatch_plus_class; tauto |].
    apply fullmatch_seq. exists "@"%string, (domain ++ "." ++ tld)%string.
    split; [reflexivity |]. split; [apply fullmatch_lit; reflexivity |].
    apply fullmatch_seq. exists domain, ("." ++ tld)%string.
    split; [reflexivity |]. split; [apply fullmatch_plus_class; tauto |].
    apply fullmatch_seq. exists "."%string, tld.
    split; [reflexivity |]. split; [apply fullmatch_lit; reflexivity |].
    apply fullmatch_at_least_2_class. tauto.
Qed.

Lemma without_final_newline_spec (s t : string) :
  Re.without_final_newline s = Some t <-> s = (t ++ newline)%string.
Proof.
  revert t. induction s as [| c s IH]; intros t.
  - cbn. split; [discriminate |]. destruct t; discriminate.
  - cbn [Re.without_final_newline]. destruct s as [| c' s'].
    + destruct (Ascii.eqb_spec c "010") as [-> | Hne].
      * split.
        -- intros H. injection H as <-. reflexivity.
        -- intros H. destruct t as [| a t]; [reflexivity |].
           cbn in H. injection H as _ H. destruct t; discriminate.
      * split; [discriminate |]. intros H.
        destruct t as [| a t]; cbn in H.
        -- injection H as H. contradiction.
        -- injection H as _ H. destruct t; discriminate.
    + destruct (Re.without_final_newline (String c' s')) as [t' |] eqn:Hrec.
      * pose proof (proj1 (IH t') eq_refl) as Heq. split.
        -- intros H. injection H as <-. cbn. rewrite Heq. reflexivity.
        -- intros H. destruct t as [| a t]; cbn in H.
           ++ injection H as _ H. discriminate.
           ++ injection H as <- H. f_equal. f_equal.
              assert (Hs : Some t' = Some t)
                by (apply IH in H; exact H).
              injection Hs as ->. reflexivity.
      * split; [discriminate |]. intros H.
        destruct t as [| a t]; cbn in H.
        -- injection H as _ H. discriminate.
        -- injection H as _ H. apply IH in H. discriminate.
Qed.

(** X15.  [validate_email] accepts exactly the strings made of a local
    part, ["@"], a domain, ["."] and a top-level part -- the local part one
    or more of the letters, digits and [._%+-], the domain one or more of
    the letters, digits, ["."] and ["-"], the top-level part two or more
    letters, all of them ASCII -- and the same strings followed by one
    newline, which the [$] of the pattern lets through. *)
Theorem validate_email_accepts_addresses_and_a_final_newline
    (email : string) :
  validate_email email = true
  <-> is_address email
      \/ exists address,
           email = (address ++ newline)%string /\ is_address address.
Proof.
  unfold validate_email, Re.match_to_dollar.
  rewrite orb_true_iff, fullmatch_EMAIL_PATTERN. split.
  - intros [H | H]; [left; exact H |].
    destruct (Re.without_final_newline email) as [address |] eqn:Hcut;
      [| discriminate].
    right. exists address.
    split; [apply without_final_newline_spec; exact Hcut |].
    apply fullmatch_EMAIL_PATTERN. exact H.
  - intros [H | (address & Heq & H)]; [left; exact H |].
    right. apply without_final_newline_spec in Heq. rewrite Heq.
    apply fullmatch_EMAIL_PATTERN. exact H.
Qed.

Example validate_email_samples :
  validate_email "bob@example.org" = true
  /\ validate_email "first.last+tag@sub-domain.example.co" = true
  /\ validate_email ("bob@example.org" ++ newline) = true
  /\ validate_email "a@-.xy" = true
  /\ validate_email "Bob <bob@example.org>" = false
  /\ validate_email "bob@example" = false
  /\ validate_email "bob@example.o" = false
  /\ validate_email "bob@@example.org" = false
  /\ validate_email " bob@example.org" = false
  /\ validate_email EmptyString = false.
Proof. vm_compute. repeat split. Qed.

(* ================================================================== *)
(** * The SMTP client *)
(* ================================================================== *)

(** [send_email] as [send_followup] calls it, outcome by outcome. *)
Lemma send_email_run (P : Platform) (L : Library) (N : Servers)
    (to_email subject body : string) (message_id : option string)
    (self : SMTPClient.t) :
  SMTPClient.send_email P L N to_email subject body None None None
    (Some [message_id]) message_id self
  = if negb (SMTPClient.is_connected self) then
      (Returns None, self, [Logged ERROR Not_connected_to_SMTP_server])
    else if negb (validate_email to_email) then
      (Returns None, self,
       [Logged ERROR (Invalid_recipient_email_address to_email)])
    else
      match SMTPClient.username self with
      | None => (Raises (Exn AttributeError), self, [])
      | Some username =>
          match domain_of username with
          | None => (Raises IndexError, self, [])
          | Some domain =>
              match message_id with
              | None => (Raises TypeError, self, [])
              | Some m =>
                  let msg :=
                    {| From := username;
                       To := to_email;
                       Subject := subject;
                       Date := formatdate L;
                       Message_ID_ := make_msgid L domain;
                       Cc := None;
                       Reply_To := None;
                       References := Some m;
                       In_Reply_To := if truthy (Some m) then Some m else None;
                       MIMEText_body := body;
                       MIMEText_subtype :=
                         if Str.contains "<html>" (str_lower P body)
                         then "html" else "plain";
                       to_addrs := [to_email] |} in
                  match SMTP_send_message N msg with
                  | Returns _ =>
                      (Returns
                         (Some (strip_chars ["<"; ">"]%char
                                  (make_msgid L domain))),
                       self,
                       [ send_message msg (SMTP_send_message N msg);
                         Logged INFO (Email_sent_successfully_to to_email) ])
                  | Raises e =>
                      if is_SMTPException e then
                        (Returns None, self,
                         [ send_message msg (SMTP_send_message N msg);
                           Logged ERROR (Error_sending_email e) ])
                      else
                        (Raises e, self,
                         [send_message msg (SMTP_send_message N msg)])
                  end
              end
          end
      end.
Proof.
  unfold SMTPClient.send_email, domain_of, Act.try_except_of, Act.bind,
    Act.get, Act.ret, Act.raise, Act.lift, Act.tell, Act.log, Act.tell,
    join_optional.
  destruct (SMTPClient.is_connected self); cbn [negb]; [| reflexivity].
  destruct (validate_email to_email); cbn [negb]; [| reflexivity].
  destruct (SMTPClient.username self) as [username |]; [| reflexivity].
  destruct (split_on "@" username EmptyString) as [| first [| domain rest]];
    [reflexivity | reflexivity |].
  destruct message_id as [m |]; [| reflexivity].
  cbn -[truthy Str.contains strip_chars].
  destruct (SMTP_send_message N _) as [[] | e];
    cbn -[truthy Str.contains strip_chars]; [reflexivity |].
  destruct (is_SMTPException e); reflexivity.
Qed.

(** A message id comes back only for an original that has one. *)
Lemma a_message_id_needs_the_original_id
    (P : Platform) (L : Library) (N : Servers) (original_email : OriginalEmail)
    (followup_template : string) (template_vars : list (string * string))
    (self : SMTPClient.t) :
  let '(r, _, _) :=
    SMTPClient.send_followup P L N original_email followup_template
      template_vars self in
  forall msg_id,
    r = Returns (Some msg_id) -> original_id original_email = None -> False.
Proof.
  unfold SMTPClient.send_followup, Act.try_except_of.
  unfold Act.bind at 1. unfold Act.lift at 1.
  destruct (str_format L followup_template template_vars) as [body | e0].
  2:{ destruct (is_KeyError e0 || is_ValueError e0); cbn;
        intros msg_id H; discriminate H. }
  rewrite send_email_run.
  destruct (SMTPClient.is_connected self); cbn [negb];
    [| cbn; intros msg_id H; discriminate H].
  destruct (validate_email (to original_email)); cbn [negb];
    [| cbn; intros msg_id H; discriminate H].
  destruct (SMTPClient.username self) as [username |];
    [| cbn; intros msg_id H; discriminate H].
  destruct (domain_of username) as [domain |];
    [| cbn; intros msg_id H; discriminate H].
  destruct (original_id original_email) as [m |];
    [| cbn; intros msg_id H; discriminate H].
  cbv zeta.
  destruct (SMTP_send_message N _) as [[] | e];
    [| destruct (is_SMTPException e);
       [| destruct (is_KeyError e || is_ValueError e)]];
    cbn; intros msg_id _ H; discriminate H.
Qed.

(** X16.  What [SMTPClient.send_followup] hands to the server.  It hands
    over one message at most, and only while the client is connected, the
    recipient passes [validate_email] and the original message has a
    message id: that message goes to the recipient of the original and to
    nobody else, from the user name of the client, under the subject of the
    original after ["Re: "], with the message id of the original as its
    [References] and the formatted template as its body.  A message id is
    returned only after the server has accepted such a message.  The state
    of the client is never changed.  And for an original without message
    id nothing is sent: once the template is formatted, the client
    connected and the recipient valid, [' '.join([None])] raises a
    [TypeError] that neither handler catches. *)
Theorem smtp_client_sends_one_message_at_most
    (P : Platform) (L : Library) (N : Servers) (original_email : OriginalEmail)
    (followup_template : string) (template_vars : list (string * string))
    (self : SMTPClient.t) :
  let '(r, self', effects) :=
    SMTPClient.send_followup P L N original_email followup_template
      template_vars self in
  self' = self
  /\ (forall msg res,
        In (msg, res) (messages effects) ->
        messages effects = [(msg, res)]
        /\ res = SMTP_send_message N msg
        /\ SMTPClient.is_connected self = true
        /\ validate_email (to original_email) = true
        /\ To msg = to original_email
        /\ to_addrs msg = [to original_email]
        /\ Subject msg = ("Re: " ++ original_subject original_email)%string
        /\ Some (From msg) = SMTPClient.username self
        /\ original_id original_email = References msg
        /\ References msg <> None
        /\ str_format L followup_template template_vars
           = Returns (MIMEText_body msg))
  /\ (forall msg_id,
        r = Returns (Some msg_id) ->
        exists msg, messages effects = [(msg, Returns tt)])
  /\ (original_id original_email = None ->
      messages effects = []
      /\ (forall body username domain,
            str_format L followup_template template_vars = Returns body ->
            SMTPClient.is_connected self = true ->
            validate_email (to original_email) = true ->
            SMTPClient.username self = Some username ->
            domain_of username = Some domain ->
            r = Raises TypeError)).
Proof.
  unfold SMTPClient.send_followup, Act.try_except_of.
  unfold Act.bind at 1. unfold Act.lift at 1.
  destruct (str_format L followup_template template_vars) as [body | e0].
  2:{ destruct (is_KeyError e0 || is_ValueError e0); cbn.
      - split; [reflexivity |]. split; [intros msg res [] |].
        split; [intros msg_id H; discriminate H |].
        intros _. split; [reflexivity |]. intros; discriminate.
      - split; [reflexivity |]. split; [intros msg res [] |].
        split; [intros msg_id H; discriminate H |].
        intros _. split; [reflexivity |]. intros; congruence. }
  rewrite send_email_run.
  destruct (SMTPClient.is_connected self) eqn:Hconn; cbn [negb].
  2:{ cbn. split; [reflexivity |]. split; [intros msg res [] |].
      split; [intros msg_id H; discriminate H |].
      intros _. split; [reflexivity |]. intros; congruence. }
  destruct (validate_email (to original_email)) eqn:Hvalid; cbn [negb].
  2:{ cbn. split; [reflexivity |]. split; [intros msg res [] |].
      split; [intros msg_id H; discriminate H |].
      intros _. split; [reflexivity |]. intros; congruence. }
  destruct (SMTPClient.username self) as [username |] eqn:Huser.
  2:{ cbn. split; [reflexivity |]. split; [intros msg res [] |].
      split; [intros msg_id H; discriminate H |].
      intros _. split; [reflexivity |]. intros; congruence. }
  destruct (domain_of username) as [domain |] eqn:Hdomain.
  2:{ cbn. split; [reflexivity |]. split; [intros msg res [] |].
      split; [intros msg_id H; discriminate H |].
      intros _. split; [reflexivity |]. intros; congruence. }
  destruct (original_id original_email) as [m |] eqn:Hid.
  2:{ cbn. split; [reflexivity |]. split; [intros msg res [] |].
      split; [intros msg_id H; discriminate H |].
      intros _. split; [reflexivity |].
      intros body0 u d _ _ _ _ _. reflexivity. }
  cbv zeta.
  match goal with
  | |- context [SMTP_send_message N ?msg0] => set (msg := msg0)
  end.
  assert (Hmsg : forall msg' res',
    In (msg', res') [(msg, SMTP_send_message N msg)] ->
    [(msg, SMTP_send_message N msg)] = [(msg', res')]
    /\ res' = SMTP_send_message N msg'
    /\ true = true
    /\ true = true
    /\ To msg' = to original_email
    /\ to_addrs msg' = [to original_email]
    /\ Subject msg' = ("Re: " ++ original_subject original_email)%string
    /\ Some (From msg') = Some username
    /\ Some m = References msg'
    /\ References msg' <> None
    /\ Returns body = Returns (MIMEText_body msg')).
  { intros msg' res' [Heq | []]. injection Heq as <- <-.
    subst msg. cbn. repeat split; try reflexivity. discriminate. }
  destruct (SMTP_send_message N msg) as [[] | e] eqn:Hsend.
  - cbn. split; [reflexivity |]. split; [exact Hmsg |].
    split; [intros msg_id _; exists msg; reflexivity |].
    intros H; discriminate H.
  - destruct (is_SMTPException e) eqn:Hsmtp; cbn.
    + split; [reflexivity |]. split; [exact Hmsg |].
      split; [intros msg_id H; discriminate H |].
      intros H; discriminate H.
    + destruct (is_KeyError e || is_ValueError e); cbn.
      * split; [reflexivity |]. split; [exact Hmsg |].
        split; [intros msg_id H; discriminate H |].
        intros H; discriminate H.
      * split; [reflexivity |]. split; [exact Hmsg |].
        split; [intros msg_id H; discriminate H |].
        intros H; discriminate H.
Qed.

(* ================================================================== *)
(** * Connecting to the mail servers *)
(* ================================================================== *)

Ltac case_outcome :=
  match goal with
  | |- context [match ?o with Returns _ => _ | Raises _ => _ end] =>
      let e := fresh "e" in destruct o as [[] | e] eqn:?
  | |- context [if is_IMAP4_error ?e || is_ValueError ?e then _ else _] =>
      destruct e; cbn [is_IMAP4_error is_ValueError orb]
  | |- context [if is_SMTPException ?e || is_ValueError ?e then _ else _] =>
      destruct e; cbn [is_SMTPException is_ValueError orb]
  end.

Ltac last_call :=
  match goal with
  | |- exists calls call, ?l = (calls ++ [call])%list /\ _ =>
      exists (removelast l), (last l (Logged INFO Disconnected_from_SMTP_server));
      split; reflexivity
  end.

(** X17.  What the answer of [EmailManager.connect] tells.  [True] means
    that every call on the two servers returned and that both clients are
    connected under [username].  [False] means that at least one client is
    marked as not connected -- the other may well be connected: the SMTP
    server is tried also after the IMAP client failed, and an IMAP
    connection that was opened stays open when the SMTP client fails.  For
    a server type that [EMAIL_SERVERS] does not list no server is called
    and the answer is [False].  An exception leaves [connect] only as the
    exception of the last server call, one that the [except] clause of that
    client does not name. *)
Theorem connect_answers_for_both_clients (N : Servers)
    (username password server_type : string) (self : Clients) :
  let '(r, self', effects) :=
    EmailManager'.connect N username password server_type self in
  (r = Returns true ->
   Forall (fun call => raised call = None) (server_calls effects)
   /\ IMAPClient'.is_connected (imap self') = true
   /\ SMTPClient.is_connected (smtp self') = true
   /\ IMAPClient'.username (imap self') = Some username
   /\ SMTPClient.username (smtp self') = Some username)
  /\ (r = Returns false ->
      IMAPClient'.is_connected (imap self') = false
      \/ SMTPClient.is_connected (smtp self') = false)
  /\ (EMAIL_SERVERS server_type = None ->
      r = Returns false /\ server_calls effects = []
      /\ IMAPClient'.is_connected (imap self') = false
      /\ SMTPClient.is_connected (smtp self') = false)
  /\ (forall e, r = Raises e ->
      is_ValueError e = false
      /\ exists calls call,
           server_calls effects = (calls ++ [call])%list
           /\ raised call = Some e).
Proof.
  unfold EmailManager'.connect, on_imap, on_smtp, IMAPClient'.connect,
    SMTPClient.connect, Act.try_except_of, Act.bind, Act.lift, Act.tell,
    Act.log, Act.tell, Act.get, Act.put, Act.ret, Act.raise.
  destruct (EMAIL_SERVERS server_type) as [[imap_config smtp_config] |].
  2:{ cbn. repeat split; try discriminate; try reflexivity.
      intros _. left. reflexivity. }
  cbn -[EMAIL_SERVERS].
  repeat (case_outcome; cbn -[EMAIL_SERVERS]);
    try destruct (secure smtp_config); cbn -[EMAIL_SERVERS];
    repeat (case_outcome; cbn -[EMAIL_SERVERS]).
  all: split; [intros Hr; try discriminate Hr; repeat split; repeat constructor |].
  all: split; [intros Hr; try discriminate Hr;
               solve [left; reflexivity | right; reflexivity] |].
  all: split; [intros Hr; discriminate Hr |].
  all: intros e' Hr; try discriminate Hr.
  all: injection Hr as <-; split; [reflexivity | last_call].
Qed.

(** The manager answers [False] and holds an open IMAP connection: the IMAP
    client connected, the SMTP server refused the login. *)
Example connect_half_way :
  let '(r, self', effects) :=
    EmailManager'.connect Servers_cases.smtp_login_refused
      "alice@example.com" "secret" "gmail" Servers_cases.new_clients in
  r = Returns false
  /\ IMAPClient'.is_connected (imap self') = true
  /\ SMTPClient.is_connected (smtp self') = false
  /\ server_calls effects
     = [ imaplib_IMAP4_SSL "imap.gmail.com" 993 (Returns tt);
         imap_login "alice@example.com" "secret" (Returns tt);
         smtplib_SMTP "smtp.gmail.com" 587 (Returns tt);
         starttls (Returns tt);
         smtp_login "alice@example.com" "secret" (Raises SMTPException) ].
Proof. vm_compute. repeat split. Qed.

(** X18.  [disconnect] after a [connect] that answered [True].  The IMAP
    server is logged out first, then the SMTP server is told to quit, also
    when the logout ended in [IMAP4.error]; no other call is made.  A
    client whose call returned is marked as not connected.  A client whose
    call ended in the error of its own class stays marked as connected,
    the error only logged; and when the logout raises anything else, the
    exception leaves [disconnect] before the SMTP server is told to quit.
    [disconnect] never forgets the connections: both clients still hold
    theirs, so that a second [disconnect] makes the same calls again. *)
Theorem disconnect_after_connect (N : Servers)
    (username password server_type : string) (self : Clients) :
  let '(r, connected, _) :=
    EmailManager'.connect N username password server_type self in
  r = Returns true ->
  let '(r', self', effects) := EmailManager'.disconnect N connected in
  server_calls effects
  = (logout (IMAP4_logout N)
     :: match IMAP4_logout N with
        | Raises e => if is_IMAP4_error e then [quit (SMTP_quit N)] else []
        | Returns _ => [quit (SMTP_quit N)]
        end)%list
  /\ (IMAP4_logout N = Returns tt ->
      IMAPClient'.is_connected (imap self') = false)
  /\ (IMAP4_logout N = Raises IMAP4_error_ ->
      IMAPClient'.is_connected (imap self') = true)
  /\ (forall e, IMAP4_logout N = Raises e -> is_IMAP4_error e = false ->
      r' = Raises e /\ SMTPClient.is_connected (smtp self') = true)
  /\ (r' = Returns tt -> SMTP_quit N = Returns tt ->
      SMTPClient.is_connected (smtp self') = false)
  /\ (SMTP_quit N = Raises SMTPException ->
      SMTPClient.is_connected (smtp self') = true)
  /\ IMAPClient'.connection (imap self') = true
  /\ SMTPClient.connection (smtp self') = true
  /\ server_calls
       (snd (EmailManager'.disconnect N self'))
     = server_calls effects.
Proof.
  unfold EmailManager'.connect, EmailManager'.disconnect, on_imap, on_smtp,
    IMAPClient'.connect, SMTPClient.connect, IMAPClient'.disconnect,
    SMTPClient.disconnect, Act.try_except_of, Act.bind, Act.lift, Act.tell,
    Act.log, Act.tell, Act.get, Act.put, Act.ret, Act.raise.
  destruct (EMAIL_SERVERS server_type) as [[imap_config smtp_config] |];
    [| cbn; intros H; discriminate H].
  cbn -[EMAIL_SERVERS].
  destruct (IMAP4_SSL N _ _) as [[] | e1]; cbn -[EMAIL_SERVERS].
  2:{ destruct (is_IMAP4_error e1 || is_ValueError e1); cbn -[EMAIL_SERVERS].
      2:{ intros H; discriminate H. }
      repeat (case_outcome; cbn -[EMAIL_SERVERS]);
        try destruct (secure smtp_config); cbn -[EMAIL_SERVERS];
        repeat (case_outcome; cbn -[EMAIL_SERVERS]);
        intros H; discriminate H. }
  destruct (IMAP4_login N _ _) as [[] | e2]; cbn -[EMAIL_SERVERS].
  2:{ destruct (is_IMAP4_error e2 || is_ValueError e2); cbn -[EMAIL_SERVERS].
      2:{ intros H; discriminate H. }
      repeat (case_outcome; cbn -[EMAIL_SERVERS]);
        try destruct (secure smtp_config); cbn -[EMAIL_SERVERS];
        repeat (case_outcome; cbn -[EMAIL_SERVERS]);
        intros H; discriminate H. }
  destruct (SMTP N _ _) as [[] | e3]; cbn -[EMAIL_SERVERS].
  2:{ destruct (is_SMTPException e3 || is_ValueError e3); cbn;
        intros H; discriminate H. }
  destruct (secure smtp_config); cbn -[EMAIL_SERVERS].
  - destruct (SMTP_starttls N) as [[] | e4]; cbn -[EMAIL_SERVERS].
    2:{ destruct (is_SMTPException e4 || is_ValueError e4); cbn;
          intros H; discriminate H. }
    destruct (SMTP_login N _ _) as [[] | e5]; cbn -[EMAIL_SERVERS].
    2:{ destruct (is_SMTPException e5 || is_ValueError e5); cbn;
          intros H; discriminate H. }
    intros _.
    destruct (IMAP4_logout N) as [[] | e6]; cbn;
      [| destruct e6; cbn];
      (destruct (SMTP_quit N) as [[] | e7]; cbn; [| destruct e7; cbn]);
      repeat split; intros;
      try match goal with
          | H : Raises _ = Raises _ |- _ => injection H as H; subst
          end;
      cbn in *; try reflexivity; congruence.
  - destruct (SMTP_login N _ _) as [[] | e5]; cbn -[EMAIL_SERVERS].
    2:{ destruct (is_SMTPException e5 || is_ValueError e5); cbn;
          intros H; discriminate H. }
    intros _.
    destruct (IMAP4_logout N) as [[] | e6]; cbn;
      [| destruct e6; cbn];
      (destruct (SMTP_quit N) as [[] | e7]; cbn; [| destruct e7; cbn]);
      repeat split; intros;
      try match goal with
          | H : Raises _ = Raises _ |- _ => injection H as H; subst
          end;
      cbn in *; try reflexivity; congruence.
Qed.

Lemma disconnect_after_connect_witness :
  let connected :=
    snd (fst (EmailManager'.connect Servers_cases.up "alice@example.com"
                "secret" "gmail" Servers_cases.new_clients)) in
  let disconnected :=
    snd (fst (EmailManager'.disconnect Servers_cases.up connected)) in
  IMAPClient'.is_connected (imap connected) = true
  /\ IMAPClient'.is_connected (imap disconnected) = false
  /\ SMTPClient.is_connected (smtp disconnected) = false.
Proof.
  intros connected disconnected.
  pose proof (@disconnect_after_connect Servers_cases.up "alice@example.com"
                "secret" "gmail" Servers_cases.new_clients) as H.
  vm_compute in H.
  destruct (H eq_refl) as (_ & Himap & _ & _ & Hsmtp & _).
  split; [vm_compute; reflexivity |].
  split; [exact (Himap eq_refl) | exact (Hsmtp eq_refl eq_refl)].
Defined.

(* ================================================================== *)
(** * The default template *)
(* ================================================================== *)

Lemma lookup_dict_set (k k' v : string) (d : list (string * string)) :
  Format.lookup k (dict_set k' v d)
  = if String.eqb k k' then Some v else Format.lookup k d.
Proof.
  induction d as [| [k0 v0] d IH]; cbn [dict_set Format.lookup].
  - destruct (String.eqb k k'); reflexivity.
  - destruct (String.eqb_spec k' k0) as [<- | Hne]; cbn [Format.lookup].
    + destruct (String.eqb k k'); reflexivity.
    + rewrite IH.
      destruct (String.eqb_spec k k0) as [-> | Hne'].
      { destruct (String.eqb_spec k0 k') as [-> | _];
          [contradiction Hne; reflexivity | reflexivity]. }
      reflexivity.
Qed.

(** [update] binds every name that was bound, and leaves alone the names
    that the other dictionary does not mention. *)
Lemma lookup_dict_update (k : string) (other d : list (string * string)) :
  (Format.lookup k d <> None -> Format.lookup k (dict_update d other) <> None)
  /\ (Forall (fun kv => fst kv <> k) other ->
      Format.lookup k (dict_update d other) = Format.lookup k d).
Proof.
  unfold dict_update. revert d.
  induction other as [| [k' v'] other IH]; intros d; cbn [fold_left fst snd].
  - split; [exact (fun H => H) | reflexivity].
  - destruct (IH (dict_set k' v' d)) as (IH1 & IH2). split.
    + intros Hd. apply IH1. rewrite lookup_dict_set.
      destruct (String.eqb k k'); [discriminate | exact Hd].
    + intros Hall. inversion Hall as [| kv l Hk Hrest]; subst.
      rewrite (IH2 Hrest), lookup_dict_set. cbn [fst] in Hk.
      destruct (String.eqb_spec k k') as [-> | _];
        [contradiction Hk; reflexivity | reflexivity].
Qed.

(** The template, scanned with the four names bound. *)
Lemma scan_DEFAULT_FOLLOWUP_TEMPLATE (value_of : string -> option string)
    (DESTINATAIRE DATE_ENVOI SUJET EXPEDITEUR : string) :
  value_of "DESTINATAIRE" = Some DESTINATAIRE ->
  value_of "DATE_ENVOI" = Some DATE_ENVOI ->
  value_of "SUJET" = Some SUJET ->
  value_of "EXPEDITEUR" = Some EXPEDITEUR ->
  Format.scan value_of DEFAULT_FOLLOWUP_TEMPLATE None EmptyString
  = Some (Returns (default_followup_body DESTINATAIRE DATE_ENVOI SUJET
                     EXPEDITEUR)).
Proof.
  intros H1 H2 H3 H4.
  unfold DEFAULT_FOLLOWUP_TEMPLATE, default_followup_body, newline, quote.
  cbn. rewrite H1.
  cbn. rewrite H2.
  cbn. rewrite H3.
  cbn. rewrite H4.
  cbn. repeat rewrite string_append_assoc. reflexivity.
Qed.

(** X19.  The default template formats for every record.  With the
    variables that [EmailManager.send_followup] builds -- the five of the
    record, updated with the custom variables of its metadata, whatever
    these are -- [DEFAULT_FOLLOWUP_TEMPLATE.format] returns: no [KeyError]
    and no [ValueError] for [SMTPClient.send_followup] to catch.  The body
    is the text of the template with the values bound to [DESTINATAIRE],
    [DATE_ENVOI], [SUJET] and [EXPEDITEUR]; [DATE_RELANCE] is computed and
    not used.  The values are those of the record unless a custom variable
    has one of the four names, which then replaces the record's. *)
Theorem the_default_template_formats_for_every_record
    (recipient subject DATE_ENVOI DATE_RELANCE sender : string)
    (custom_variables : list (string * string)) :
  let template_vars :=
    dict_update
      [ ("DESTINATAIRE", recipient);
        ("SUJET", subject);
        ("DATE_ENVOI", DATE_ENVOI);
        ("DATE_RELANCE", DATE_RELANCE);
        ("EXPEDITEUR", sender) ]
      custom_variables in
  exists d e s x,
    Format.lookup "DESTINATAIRE" template_vars = Some d
    /\ Format.lookup "DATE_ENVOI" template_vars = Some e
    /\ Format.lookup "SUJET" template_vars = Some s
    /\ Format.lookup "EXPEDITEUR" template_vars = Some x
    /\ Format.str_format DEFAULT_FOLLOWUP_TEMPLATE template_vars
       = Returns (default_followup_body d e s x)
    /\ (Forall (fun kv => ~ In (fst kv) template_names) custom_variables ->
        d = recipient /\ e = DATE_ENVOI /\ s = subject /\ x = sender).
Proof.
  intros template_vars.
  set (base := [ ("DESTINATAIRE", recipient);
                 ("SUJET", subject);
                 ("DATE_ENVOI", DATE_ENVOI);
                 ("DATE_RELANCE", DATE_RELANCE);
                 ("EXPEDITEUR", sender) ]) in *.
  assert (Hbound : forall k,
            Format.lookup k base <> None ->
            exists v,
              Format.lookup k template_vars = Some v
              /\ (Forall (fun kv => fst kv <> k) custom_variables ->
                  Some v = Format.lookup k base)).
  { intros k Hk.
    destruct (lookup_dict_update k custom_variables base) as (H1 & H2).
    fold template_vars in H1, H2.
    destruct (Format.lookup k template_vars) as [v |] eqn:Hv;
      [| contradiction (H1 Hk); reflexivity].
    exists v. split; [reflexivity |].
    intros Hall. apply H2. exact Hall. }
  destruct (Hbound "DESTINATAIRE") as (d & Hd & Hd'); [discriminate |].
  destruct (Hbound "DATE_ENVOI") as (e & He & He'); [discriminate |].
  destruct (Hbound "SUJET") as (s & Hs & Hs'); [discriminate |].
  destruct (Hbound "EXPEDITEUR") as (x & Hx & Hx'); [discriminate |].
  exists d, e, s, x.
  split; [exact Hd |]. split; [exact He |]. split; [exact Hs |].
  split; [exact Hx |]. split.
  - unfold Format.str_format, Format.format.
    rewrite (@scan_DEFAULT_FOLLOWUP_TEMPLATE
               (fun name => Format.lookup name template_vars) d e s x
               Hd He Hs Hx).
    reflexivity.
  - intros Hall.
    assert (Hk : forall k, In k template_names ->
                           Forall (fun kv => fst kv <> k) custom_variables).
    { intros k Hin. rewrite Forall_forall in *.
      intros kv Hkv Heq. apply (Hall kv Hkv). rewrite Heq. exact Hin. }
    unfold template_names in Hk.
    specialize (Hd' (Hk "DESTINATAIRE" ltac:(simpl; auto))).
    specialize (He' (Hk "DATE_ENVOI" ltac:(simpl; auto))).
    specialize (Hs' (Hk "SUJET" ltac:(simpl; auto))).
    specialize (Hx' (Hk "EXPEDITEUR" ltac:(simpl; auto 6))).
    cbn in Hd', He', Hs', Hx'.
    repeat split; congruence.
Qed.

(** A custom variable named [SUJET] takes the place of the subject of the
    record. *)
Example custom_variable_replaces_the_subject :
  Format.str_format DEFAULT_FOLLOWUP_TEMPLATE
    (dict_update
       [ ("DESTINATAIRE", "bob@example.org");
         ("SUJET", "Project update");
         ("DATE_ENVOI", "01/01/2024 10:00");
         ("DATE_RELANCE", "08/01/2024 10:00");
         ("EXPEDITEUR", "alice@example.com") ]
       [("SUJET", "Invoice 42")])
  = Returns (default_followup_body "bob@example.org" "01/01/2024 10:00"
               "Invoice 42" "alice@example.com").
Proof. vm_compute. reflexivity. Qed.
